(** * CapEdify: SRT subtitle files to After Effects JSX scripts

    A shallow embedding of the two converter scripts of the repository,
    [CapEdify/srt_to_jsx.py] and [CapEdify/srt_to_jsx_converter.py], and
    the properties of their parsers, timestamp conversion and script
    generators.

    Conventions of the embedding:
    - a Python [str] is a list of characters; a character is a code point
      below 256 (the Latin-1 range), with Python's own classification of
      whitespace and decimal digits on that range;
    - a Python [int] is a [Z]; a Python [float] is an IEEE-754 binary64
      value, [spec_float] with precision 53 and maximal exponent 1024,
      computed with the operations of [SpecFloat];
    - a Python exception is a value of [exn], carried by the [result]
      monad;
    - the files are a list of paths with their text, the text of a file
      being what [f.read()] returns for it; a path names a file by its
      very string, every file of the list can be read as text and every
      write succeeds: directories, links, two spellings of one path and
      an [open] that raises on a path that exists are not part of the
      model, and the properties on files are stated for the outcomes
      the model has in common with the interpreter;
    - the date of the run, which [srt_to_jsx_converter.py] prints in a
      comment, is an argument of its generator;
    - the limit of recent interpreters on the number of digits in the
      conversions between [int] and [str] (4300 unless configured
      otherwise) is not part of the model: a property that says when a
      script is generated takes sizes within the limit ([printable]);
    - the main block of [srt_to_jsx.py] takes [sys.argv] as an argument
      and returns the exit status; the main block of
      [srt_to_jsx_converter.py], which reads its arguments with
      [argparse], is not part of the model. *)

From Stdlib Require Import Ascii String.
From Stdlib Require Import List ZArith Lia Bool PeanoNat.
From Stdlib Require Import SpecFloat.
Import ListNotations.

(** ** Exceptions and the result monad *)

Definition str := list ascii.

Inductive value_error :=
| BadIntLiteral (s : str)      (* invalid literal for int() with base 10 *)
| BadFloatLiteral (s : str)    (* could not convert string to float *)
| UnpackCount (n : nat)        (* not enough / too many values to unpack *)
| EmptyMax                     (* max() arg is an empty sequence *)
| NoCaptionsFound.             (* "No captions found in SRT file" *)

Inductive exn :=
| ValueError (why : value_error)
| IndexError                   (* list index out of range *)
| OverflowError                (* int too large to convert to float *)
| ZeroDivisionError            (* division by zero *)
| FileNotFoundError (path : str).

Inductive result (A : Type) :=
| Ok (a : A)
| Raise (e : exn).

Arguments Ok {A} a.
Arguments Raise {A} e.

Definition bind {A B} (r : result A) (k : A -> result B) : result B :=
  match r with
  | Ok a => k a
  | Raise e => Raise e
  end.

Notation "x <- r ;; k" := (bind r (fun x => k))
  (at level 61, r at next level, right associativity).

Definition is_ok {A} (r : result A) : bool :=
  match r with Ok _ => true | Raise _ => false end.

(** ** Python's string primitives *)

Module Py.

Definition lit (s : string) : str := list_ascii_of_string s.

Definition code (c : ascii) : nat := nat_of_ascii c.

Definition nl : ascii := ascii_of_nat 10.
Definition dquote : ascii := ascii_of_nat 34.
Definition backslash : ascii := ascii_of_nat 92.

Definition between (lo hi n : nat) : bool := (lo <=? n) && (n <=? hi).

(** [str.isspace], which is also the class [\s] of [re] on [str] patterns
    and the set [str.strip()] removes: on the Latin-1 range the characters
    9-13, 28-31, 32, 133 and 160. *)
Definition isspace (c : ascii) : bool :=
  let n := code c in
  between 9 13 n || between 28 32 n || (n =? 133) || (n =? 160).

(** The class [\d] of [re] on [str] patterns (decimal digits): on the
    Latin-1 range, the ASCII digits. *)
Definition isdecimal (c : ascii) : bool := between 48 57 (code c).

Definition digit_value (c : ascii) : Z := Z.of_nat (code c - 48).

Fixpoint lstrip (s : str) : str :=
  match s with
  | c :: r => if isspace c then lstrip r else s
  | [] => []
  end.

Definition rstrip (s : str) : str := rev (lstrip (rev s)).

(** [s.strip()] *)
Definition strip (s : str) : str := rstrip (lstrip s).

(** [p] is a prefix of [s] *)
Fixpoint startswith (p s : str) : bool :=
  match p, s with
  | [], _ => true
  | a :: p', b :: s' => Ascii.eqb a b && startswith p' s'
  | _ :: _, [] => false
  end.

Definition push (c : ascii) (fields : list str) : list str :=
  match fields with
  | f :: fs => (c :: f) :: fs
  | [] => [[c]]
  end.

(** [s.split(sep)] for a non-empty separator: [skip] counts the
    characters of a separator found earlier that are still to be passed. *)
Fixpoint split_go (sep : str) (skip : nat) (s : str) : list str :=
  match s with
  | [] => [[]]
  | c :: r =>
      match skip with
      | S k => split_go sep k r
      | O => if startswith sep s
             then [] :: split_go sep (length sep - 1) r
             else push c (split_go sep 0 r)
      end
  end.

Definition split (sep s : str) : list str := split_go sep 0 s.

(** [s.replace(old, new)] for a non-empty [old] *)
Fixpoint replace_go (old new : str) (skip : nat) (s : str) : str :=
  match s with
  | [] => []
  | c :: r =>
      match skip with
      | S k => replace_go old new k r
      | O => if startswith old s
             then new ++ replace_go old new (length old - 1) r
             else c :: replace_go old new 0 r
      end
  end.

Definition replace (old new s : str) : str := replace_go old new 0 s.

(** [sep.join(parts)] *)
Fixpoint join (sep : str) (parts : list str) : str :=
  match parts with
  | [] => []
  | [p] => p
  | p :: rest => p ++ sep ++ join sep rest
  end.

(** [l[i]], raising [IndexError] out of range (non-negative [i]) *)
Definition index {A} (l : list A) (i : nat) : result A :=
  match nth_error l i with
  | Some a => Ok a
  | None => Raise IndexError
  end.

End Py.

(** ** The fragment of [re] the scripts use

    A pattern is a sequence of atoms: one character of a class, a greedy
    starred class, and the two ends of a capturing group.  Matching is by
    backtracking, as in [re]: a star first takes as many characters as it
    can and gives them back one by one. *)

Module Re.

Inductive atom :=
| One (p : ascii -> bool)
| Many (p : ascii -> bool)
| GOpen
| GClose.

Definition consume (x : str) (m : option (list str * str)) :
  option (list str * str) :=
  match m with
  | Some (ps, rest) => Some (x :: ps, rest)
  | None => None
  end.

(** The text each atom consumed, and what is left of the subject. *)
Fixpoint match_here (pat : list atom) : str -> option (list str * str) :=
  match pat with
  | [] => fun s => Some ([], s)
  | One p :: pat' => fun s =>
      match s with
      | c :: r => if p c then consume [c] (match_here pat' r) else None
      | [] => None
      end
  | Many p :: pat' =>
      fix many (s : str) : option (list str * str) :=
        match s with
        | c :: r =>
            if p c then
              match many r with
              | Some (x :: ps, rest) => Some ((c :: x) :: ps, rest)
              | _ => consume [] (match_here pat' s)
              end
            else consume [] (match_here pat' s)
        | [] => consume [] (match_here pat' s)
        end
  | GOpen :: pat' => fun s => consume [] (match_here pat' s)
  | GClose :: pat' => fun s => consume [] (match_here pat' s)
  end.

(** The capturing groups (not nested), from the atoms' texts. *)
Fixpoint groups_go (pat : list atom) (pieces : list str) (cur : option str) :
  list str :=
  match pat, pieces with
  | a :: pat', x :: ps =>
      match a with
      | GOpen => groups_go pat' ps (Some [])
      | GClose =>
          match cur with
          | Some g => g :: groups_go pat' ps None
          | None => groups_go pat' ps None
          end
      | _ => groups_go pat' ps (option_map (fun g => g ++ x) cur)
      end
  | _, _ => []
  end.

(** [re.match(pat, s)]: the groups of a match at the start of [s]. *)
Definition rematch (pat : list atom) (s : str) : option (list str) :=
  match match_here pat s with
  | Some (pieces, _) => Some (groups_go pat pieces None)
  | None => None
  end.

(** Length of the match at the start of [s]. *)
Definition match_length (pat : list atom) (s : str) : option nat :=
  match match_here pat s with
  | Some (pieces, _) => Some (length (concat pieces))
  | None => None
  end.

(** [re.split(pat, s)] for a pattern without groups that matches no empty
    string: the leftmost match is taken at each position in turn. *)
Fixpoint split_go (pat : list atom) (skip : nat) (s : str) : list str :=
  match s with
  | [] => [[]]
  | c :: r =>
      match skip with
      | S k => split_go pat k r
      | O =>
          match match_length pat s with
          | Some (S n) => [] :: split_go pat n r
          | _ => Py.push c (split_go pat 0 r)
          end
      end
  end.

Definition split (pat : list atom) (s : str) : list str := split_go pat 0 s.

Definition chr (c : ascii) : atom := One (Ascii.eqb c).

End Re.

(** ** Python's [float]: IEEE-754 binary64 *)

Module F64.

Definition prec : Z := 53.
Definition emax : Z := 1024.

Definition float := spec_float.

Definition add (x y : float) : float := SFadd prec emax x y.
Definition compare (x y : float) : option comparison := SFcompare x y.
Definition ltb (x y : float) : bool := SFltb x y.
Definition leb (x y : float) : bool := SFleb x y.

Definition is_nan (x : float) : bool :=
  match x with S754_nan => true | _ => false end.

Definition is_finite (x : float) : bool :=
  match x with S754_zero _ | S754_finite _ _ _ => true | _ => false end.

Definition sign (x : float) : bool :=
  match x with
  | S754_zero s | S754_infinity s | S754_finite s _ _ => s
  | S754_nan => false
  end.

(** The nearest binary64 value of an integer (ties to even). *)
Definition of_Z (z : Z) : float := binary_normalize prec emax z 0 false.

(** The nearest binary64 value of the quotient [n / d] of two positive
    integers, with the sign [neg]. *)
Definition of_quotient (neg : bool) (n d : Z) : float :=
  let '(q, e, l) := SFdiv_core_binary prec emax n 0 d 0 in
  binary_round_aux prec emax neg q e l.

(** The nearest binary64 value of [m * 10^e], [m >= 0], with the sign
    [neg]: what a correctly rounded decimal-to-binary conversion returns. *)
Definition of_decimal (neg : bool) (m e : Z) : float :=
  match m with
  | Zpos p =>
      if (0 <=? e)%Z
      then binary_round prec emax neg (Z.to_pos (Zpos p * 10 ^ e)) 0
      else of_quotient neg (Zpos p) (10 ^ (- e))
  | _ => S754_zero neg
  end.

Definition zero : float := S754_zero false.
Definition inf (neg : bool) : float := S754_infinity neg.
Definition nan : float := S754_nan.

End F64.

(** ** Python's [int(s)] and [float(s)] on strings *)

Module PyNum.

Import Py.

Local Open Scope Z_scope.

(** White space around a numeric literal: the ASCII white space of C, and
    the characters above 127 that are Unicode white space (the
    conversions replace these by a space before parsing). *)
Definition numspace (c : ascii) : bool :=
  let n := code c in
  between 9 13 n || (n =? 32)%nat || (n =? 133)%nat || (n =? 160)%nat.

Fixpoint lskip (s : str) : str :=
  match s with
  | c :: r => if numspace c then lskip r else s
  | [] => []
  end.

Definition trim (s : str) : str := rev (lskip (rev (lskip s))).

Definition underscore : ascii := ascii_of_nat 95.

Definition take_sign (s : str) : bool * str :=
  match s with
  | c :: r =>
      if Ascii.eqb c (ascii_of_nat 45) then (true, r)
      else if Ascii.eqb c (ascii_of_nat 43) then (false, r)
      else (false, s)
  | [] => (false, s)
  end.

(** Digits with single underscores between them, up to the end of the
    string; the previous character was a digit. *)
Fixpoint digits_go (acc : Z) (s : str) : option Z :=
  match s with
  | [] => Some acc
  | c :: r =>
      if isdecimal c then digits_go (10 * acc + digit_value c) r
      else if Ascii.eqb c underscore then
        match r with
        | d :: r' =>
            if isdecimal d then digits_go (10 * acc + digit_value d) r'
            else None
        | [] => None
        end
      else None
  end.

Definition digitpart (s : str) : option Z :=
  match s with
  | c :: r => if isdecimal c then digits_go (digit_value c) r else None
  | [] => None
  end.

(** [int(s)] (base 10) *)
Definition int_of_str (s : str) : result Z :=
  let '(neg, body) := take_sign (trim s) in
  match digitpart body with
  | Some n => Ok (if neg then - n else n)
  | None => Raise (ValueError (BadIntLiteral s))
  end.

(** An underscore of a float literal stands between two digits. *)
Fixpoint underscores_ok (prev_digit : bool) (s : str) : bool :=
  match s with
  | [] => true
  | c :: r =>
      if Ascii.eqb c underscore then
        prev_digit
        && match r with d :: _ => isdecimal d | [] => false end
        && underscores_ok false r
      else underscores_ok (isdecimal c) r
  end.

Definition drop_underscores (s : str) : str :=
  filter (fun c => negb (Ascii.eqb c underscore)) s.

(** A run of digits: the accumulated value, their number, the rest. *)
Fixpoint span_digits (acc : Z) (n : nat) (s : str) : Z * nat * str :=
  match s with
  | c :: r =>
      if isdecimal c then span_digits (10 * acc + digit_value c) (S n) r
      else (acc, n, s)
  | [] => (acc, n, s)
  end.

Definition lower (c : ascii) : ascii :=
  if between 65 90 (code c) then ascii_of_nat (code c + 32) else c.

Definition ieq (word : string) (s : str) : bool :=
  if list_eq_dec ascii_dec (map lower s) (lit word) then true else false.

(** The exponent part, [e] or [E], an optional sign and digits, up to the
    end of the string; nothing at all is the exponent 0. *)
Definition exponent (s : str) : option Z :=
  match s with
  | [] => Some 0
  | c :: r =>
      if Ascii.eqb (lower c) (ascii_of_nat 101) then
        let '(neg, ds) := take_sign r in
        match span_digits 0 0 ds with
        | (v, S _, []) => Some (if neg then - v else v)
        | _ => None
        end
      else None
  end.

(** The literal after its sign: [inf], [infinity], [nan] in any case, or
    digits with an optional point and an optional exponent. *)
Definition unsigned_float (neg : bool) (s : str) : option F64.float :=
  if ieq "inf" s || ieq "infinity" s then Some (F64.inf neg)
  else if ieq "nan" s then Some F64.nan
  else
    let '(ip, n1, r1) := span_digits 0 0 s in
    let '(m, n2, r2) :=
      match r1 with
      | c :: r =>
          if Ascii.eqb c (ascii_of_nat 46) then span_digits ip 0 r
          else (ip, 0%nat, r1)
      | [] => (ip, 0%nat, r1)
      end in
    match (n1 + n2)%nat with
    | O => None
    | S _ =>
        match exponent r2 with
        | Some e => Some (F64.of_decimal neg m (e - Z.of_nat n2))
        | None => None
        end
    end.

(** [float(s)] *)
Definition float_of_str (s : str) : result F64.float :=
  let t := trim s in
  let '(neg, body) := take_sign (drop_underscores t) in
  match (if underscores_ok false t then unsigned_float neg body else None) with
  | Some x => Ok x
  | None => Raise (ValueError (BadFloatLiteral s))
  end.

(** [float(n)] for an integer, as in [n + x] with [x] a float. *)
Definition float_of_int (n : Z) : result F64.float :=
  match F64.of_Z n with
  | S754_infinity _ => Raise OverflowError
  | x => Ok x
  end.

(** [a / b] on integers: the nearest float of the quotient. *)
Definition truediv (a b : Z) : result F64.float :=
  if b =? 0 then Raise ZeroDivisionError
  else
    let neg := xorb (a <? 0) (b <? 0) in
    match a with
    | Z0 => Ok (S754_zero neg)
    | _ =>
        match F64.of_quotient neg (Z.abs a) (Z.abs b) with
        | S754_infinity _ => Raise OverflowError
        | x => Ok x
        end
    end.

(** [max(l)] on floats: the first item that no later item exceeds. *)
Definition max (l : list F64.float) : result F64.float :=
  match l with
  | [] => Raise (ValueError EmptyMax)
  | x :: rest =>
      Ok (fold_left (fun m item => if F64.ltb m item then item else m) rest x)
  end.

End PyNum.

(** ** Python's formatting of numbers in f-strings *)

Module PyFmt.

Import Py.

Local Open Scope Z_scope.

Definition digit_char (d : Z) : ascii := ascii_of_nat (48 + Z.to_nat d).

Fixpoint digits_go (fuel : nat) (n : Z) (acc : str) : str :=
  match fuel with
  | O => acc
  | S f =>
      let acc' := digit_char (n mod 10) :: acc in
      if n <? 10 then acc' else digits_go f (n / 10) acc'
  end.

(** The decimal digits of a non-negative integer. *)
Definition digits (n : Z) : str := digits_go (S (Z.to_nat (Z.log2 n))) n [].

(** [str(n)] of an integer, as [{n}] in an f-string (for an integer of
    4300 digits at most in recent interpreters) *)
Definition str_of_int (n : Z) : str :=
  if n <? 0 then lit "-" ++ digits (- n) else digits n.

Definition zeros (n : nat) : str := repeat (digit_char 0) n.

(** [s.rjust(width, '0')] *)
Definition zfill (width : nat) (s : str) : str :=
  zeros (width - length s) ++ s.

(** The integer nearest to [n / d] for [0 <= n] and [0 < d], ties to
    even. *)
Definition round_half_even (n d : Z) : Z :=
  let q := n / d in
  match 2 * (n mod d) ?= d with
  | Lt => q
  | Gt => q + 1
  | Eq => if Z.even q then q else q + 1
  end.

Definition minus (neg : bool) : str := if neg then lit "-" else [].

(** [format(x, '.3f')] *)
Definition fixed3 (x : F64.float) : str :=
  match x with
  | S754_nan => lit "nan"
  | S754_infinity s => minus s ++ lit "inf"
  | S754_zero s => minus s ++ lit "0.000"
  | S754_finite s m e =>
      let n := if 0 <=? e then Zpos m * 2 ^ e * 1000
               else round_half_even (Zpos m * 1000) (2 ^ (- e)) in
      minus s ++ digits (n / 1000) ++ lit "." ++ zfill 3 (digits (n mod 1000))
  end.

(** The largest [k] with [10^k * b <= a], from [k] on, for [b <= a]. *)
Fixpoint log10_up (fuel : nat) (a b k : Z) : Z :=
  match fuel with
  | O => k
  | S f => if 10 * b <=? a then log10_up f a (10 * b) (k + 1) else k
  end.

(** The largest [k] with [b <= 10^(-k) * a], from [k] on, for [a < b]. *)
Fixpoint log10_down (fuel : nat) (a b k : Z) : Z :=
  match fuel with
  | O => k
  | S f => if a <? b then log10_down f (10 * a) b (k - 1) else k
  end.

(** The integer part of the decimal logarithm of [a / b], both positive. *)
Definition ilog10 (a b : Z) : Z :=
  if b <=? a then log10_up (S (Z.to_nat (Z.log2 a))) a b 0
  else log10_down (S (Z.to_nat (Z.log2 b))) a b 0.

(** The decimal [k * 10^p] with [n] digits nearest to [m * 2^e] among the
    two around it that read back as the same float, if one does. *)
Definition candidate (m : positive) (e : Z) (n : Z) : option (Z * Z) :=
  let a := if 0 <=? e then Zpos m * 2 ^ e else Zpos m in
  let b := if 0 <=? e then 1 else 2 ^ (- e) in
  let p := ilog10 a b - n + 1 in
  let a' := if 0 <=? p then a else a * 10 ^ (- p) in
  let b' := if 0 <=? p then b * 10 ^ p else b in
  let lo := a' / b' in
  let back k :=
    match F64.of_decimal false k p with
    | S754_finite _ m' e' => Pos.eqb m' m && (e' =? e)
    | _ => false
    end in
  let first_lo :=
    match 2 * (a' mod b') ?= b' with
    | Lt => true
    | Gt => false
    | Eq => Z.even lo
    end in
  match back lo, back (lo + 1) with
  | true, true => Some (if first_lo then lo else lo + 1, p)
  | true, false => Some (lo, p)
  | false, true => Some (lo + 1, p)
  | false, false => None
  end.

Fixpoint shortest_go (steps : nat) (m : positive) (e : Z) (n : Z) : Z * Z :=
  match steps with
  | O => (Zpos m, e)
  | S s =>
      match candidate m e n with
      | Some kp => kp
      | None => shortest_go s m e (n + 1)
      end
  end.

(** The shortest decimal [k * 10^p] that reads back as [m * 2^e]. *)
Definition shortest (m : positive) (e : Z) : Z * Z := shortest_go 17 m e 1.

Fixpoint strip_zeros_go (ds : str) : str :=
  match ds with
  | c :: r => if Ascii.eqb c (digit_char 0) then strip_zeros_go r else ds
  | [] => []
  end.

(** [repr(x)] of a float, as [{x}] in an f-string *)
Definition repr (x : F64.float) : str :=
  match x with
  | S754_nan => lit "nan"
  | S754_infinity s => minus s ++ lit "inf"
  | S754_zero s => minus s ++ lit "0.0"
  | S754_finite s m e =>
      let '(k, p) := shortest m e in
      let all := digits k in
      let ds := rev (strip_zeros_go (rev all)) in
      let decpt := p + Z.of_nat (length all) in
      let n := Z.of_nat (length ds) in
      minus s ++
      if (decpt <=? -4) || (16 <? decpt) then
        let ex := decpt - 1 in
        firstn 1 ds
        ++ (if 1 <? n then lit "." ++ skipn 1 ds else [])
        ++ lit "e" ++ (if ex <? 0 then lit "-" else lit "+")
        ++ zfill 2 (digits (Z.abs ex))
      else if decpt <=? 0 then
        lit "0." ++ zeros (Z.to_nat (- decpt)) ++ ds
      else if n <=? decpt then
        ds ++ zeros (Z.to_nat (decpt - n)) ++ lit ".0"
      else
        firstn (Z.to_nat decpt) ds ++ lit "." ++ skipn (Z.to_nat decpt) ds
  end.

End PyFmt.

(** ** Files, paths and loops *)

Module Os.

Import Py.

(** The files of the system with their text; the first entry of a path is
    the current one.  A path is looked up by its very string. *)
Definition filesystem := list (str * str).

Definition str_eqb (a b : str) : bool :=
  if list_eq_dec ascii_dec a b then true else false.

Fixpoint lookup (fs : filesystem) (path : str) : option str :=
  match fs with
  | (p, text) :: rest => if str_eqb p path then Some text else lookup rest path
  | [] => None
  end.

(** [os.path.exists(path)] *)
Definition exists_ (fs : filesystem) (path : str) : bool :=
  match lookup fs path with Some _ => true | None => false end.

(** [open(path, 'r', encoding='utf-8').read()], for files that hold
    text *)
Definition read (fs : filesystem) (path : str) : result str :=
  match lookup fs path with
  | Some text => Ok text
  | None => Raise (FileNotFoundError path)
  end.

(** [open(path, 'w', encoding='utf-8').write(text)], when the path can
    be written *)
Definition write (fs : filesystem) (path text : str) : filesystem :=
  (path, text) :: fs.

Definition slash : ascii := ascii_of_nat 47.
Definition dot : ascii := ascii_of_nat 46.

(** The text after the last [c] of [s], and the text up to and with it. *)
Fixpoint after_last (c : ascii) (s : str) : str :=
  match s with
  | [] => []
  | a :: r => if existsb (Ascii.eqb c) r then after_last c r
              else if Ascii.eqb c a then r else s
  end.

Definition upto_last (c : ascii) (s : str) : str :=
  firstn (length s - length (after_last c s)) s.

Fixpoint rstrip_chr (c : ascii) (s : str) : str :=
  match s with
  | [] => []
  | a :: r =>
      match rstrip_chr c r with
      | [] => if Ascii.eqb a c then [] else [a]
      | r' => a :: r'
      end
  end.

(** [os.path.basename(p)] *)
Definition basename (p : str) : str := after_last slash p.

(** [os.path.dirname(p)] *)
Definition dirname (p : str) : str :=
  let head := upto_last slash p in
  if forallb (Ascii.eqb slash) head then head else rstrip_chr slash head.

(** [os.path.splitext(p)[0]] for a path without directories *)
Definition splitext_root (p : str) : str :=
  if existsb (Ascii.eqb dot) p then
    let root := firstn (length (upto_last dot p) - 1) p in
    if forallb (Ascii.eqb dot) root then p else root
  else p.

(** [os.path.join(a, b)] *)
Definition join (a b : str) : str :=
  if startswith [slash] b then b
  else match rev a with
       | [] => b
       | l :: _ => if Ascii.eqb l slash then a ++ b else a ++ [slash] ++ b
       end.

End Os.

(** A [for] loop over a list whose body may raise. *)
Fixpoint for_each {A S : Type} (body : S -> A -> result S) (l : list A)
  (s : S) : result S :=
  match l with
  | [] => Ok s
  | a :: rest => s' <- body s a ;; for_each body rest s'
  end.

(** [enumerate(l)] *)
Definition enumerate {A : Type} (l : list A) : list (nat * A) :=
  combine (seq 0 (length l)) l.

(** Text given line by line, each line ended by a newline. *)
Definition unlines (lines : list str) : str :=
  concat (map (fun l => l ++ [Py.nl]) lines).

(** ** [CapEdify/srt_to_jsx.py] *)

Module SrtToJsx.

Import Py.

Local Open Scope Z_scope.

(** [parse_srt_time(time_str)]: SRT time format (00:00:01,500) to
    seconds *)
Definition parse_srt_time (time_str : str) : result F64.float :=
  let time_str := replace (lit ",") (lit ".") time_str in
  let parts := split (lit ":") time_str in
  p0 <- index parts 0 ;;
  hours <- PyNum.int_of_str p0 ;;
  p1 <- index parts 1 ;;
  minutes <- PyNum.int_of_str p1 ;;
  p2 <- index parts 2 ;;
  seconds <- PyNum.float_of_str p2 ;;
  whole <- PyNum.float_of_int (hours * 3600 + minutes * 60) ;;
  Ok (F64.add whole seconds).

(** One entry of the list [subtitles]: a dictionary with the keys
    [start], [end] and [text]. *)
Record subtitle := {
  start : F64.float;
  end_ : F64.float;
  text : str
}.

Definition d : Re.atom := Re.One isdecimal.
Definition s : Re.atom := Re.Many isspace.
Definition c (x : string) : list Re.atom := map Re.chr (lit x).

(** [\d{2}:\d{2}:\d{2},\d{3}] *)
Definition timestamp : list Re.atom :=
  [d; d] ++ c ":" ++ [d; d] ++ c ":" ++ [d; d] ++ c "," ++ [d; d; d].

(** [(\d{2}:\d{2}:\d{2},\d{3})\s*-->\s*(\d{2}:\d{2}:\d{2},\d{3})] *)
Definition time_range : list Re.atom :=
  [Re.GOpen] ++ timestamp ++ [Re.GClose] ++ [s] ++ c "-->" ++ [s]
  ++ [Re.GOpen] ++ timestamp ++ [Re.GClose].

(** [\n\s*\n] *)
Definition blank_line : list Re.atom := [Re.chr nl; s; Re.chr nl].

(** [time_match.group(k)] *)
Definition group (m : list str) (k : nat) : str := nth (k - 1) m [].

(** The body of the loop of [parse_srt_file], from the lines of the
    block on. *)
Definition parse_lines (subtitles : list subtitle) (lines : list str) :
  result (list subtitle) :=
  if (3 <=? length lines)%nat then
    time_line <- index lines 1 ;;
    let text_lines := skipn 2 lines in
    match Re.rematch time_range time_line with
    | Some time_match =>
        start_time <- parse_srt_time (group time_match 1) ;;
        end_time <- parse_srt_time (group time_match 2) ;;
        let text := strip (join (lit " ") text_lines) in
        let text :=
          replace [nl] (backslash :: lit "r")
            (replace [dquote] [backslash; dquote] text) in
        Ok (subtitles ++ [{| start := start_time; end_ := end_time;
                             text := text |}])
    | None => Ok subtitles
    end
  else Ok subtitles.

(** [block.strip().split('\n')] *)
Definition block_lines (block : str) : list str := split [nl] (strip block).

(** The body of the loop of [parse_srt_file] over the blocks. *)
Definition parse_block (subtitles : list subtitle) (block : str) :
  result (list subtitle) :=
  parse_lines subtitles (block_lines block).

(** [parse_srt_file] from the text of the file on. *)
Definition parse_srt_text (content : str) : result (list subtitle) :=
  let blocks := Re.split blank_line (strip content) in
  for_each parse_block blocks [].

(** [parse_srt_file(srt_path)] *)
Definition parse_srt_file (fs : Os.filesystem) (srt_path : str) :
  result (list subtitle) :=
  content <- Os.read fs srt_path ;;
  parse_srt_text content.

Definition header (comp_name : str) (width height fps : Z) : str :=
  unlines [
    lit "// Auto-generated After Effects caption script";
    lit "// Created from SRT file conversion";
    [];
    lit "// Create new composition";
    lit "var comp = app.project.items.addComp(" ++ [dquote] ++ comp_name
      ++ [dquote] ++ lit ", " ++ PyFmt.str_of_int width ++ lit ", "
      ++ PyFmt.str_of_int height ++ lit ", 1, 60, " ++ PyFmt.str_of_int fps
      ++ lit ");";
    [];
    lit "// Caption data";
    lit "var captions = ["
  ].

(** The line of the array [captions] for one subtitle. *)
Definition entry (sub : subtitle) : str :=
  lit "    {start: " ++ PyFmt.fixed3 (start sub) ++ lit ", end: "
  ++ PyFmt.fixed3 (end_ sub) ++ lit ", text: " ++ [dquote] ++ text sub
  ++ [dquote] ++ lit "}".

Definition footer : str :=
  unlines [
    lit "];";
    [];
    lit "// Create text layers for each caption";
    lit "for (var i = 0; i < captions.length; i++) {";
    lit "    var entry = captions[i];";
    lit "    ";
    lit "    // Create text layer";
    lit "    var textLayer = comp.layers.addText(entry.text);";
    lit "    ";
    lit "    // Set timing";
    lit "    textLayer.startTime = entry.start;";
    lit "    textLayer.outPoint = entry.end;";
    lit "    textLayer.inPoint = entry.start;";
    lit "    ";
    lit "    // Basic styling";
    lit "    var textProp = textLayer.property(" ++ [dquote]
      ++ lit "Source Text" ++ [dquote] ++ lit ");";
    lit "    var textDocument = textProp.value;";
    lit "    textDocument.fontSize = 48;";
    lit "    textDocument.fillColor = [1, 1, 1]; // White";
    lit "    textDocument.font = " ++ [dquote] ++ lit "Arial" ++ [dquote]
      ++ lit ";";
    lit "    textDocument.justification = ParagraphJustification.CENTER_JUSTIFY;";
    lit "    textProp.setValue(textDocument);";
    lit "    ";
    lit "    // Position at bottom center";
    lit "    var position = textLayer.property(" ++ [dquote]
      ++ lit "Transform" ++ [dquote] ++ lit ").property(" ++ [dquote]
      ++ lit "Position" ++ [dquote] ++ lit ");";
    lit "    position.setValue([comp.width/2, comp.height - 100]);";
    lit "    ";
    lit "    // Add subtle drop shadow";
    lit "    var dropShadow = textLayer.property(" ++ [dquote]
      ++ lit "Effects" ++ [dquote] ++ lit ").addProperty(" ++ [dquote]
      ++ lit "Drop Shadow" ++ [dquote] ++ lit ");";
    lit "    dropShadow.property(" ++ [dquote] ++ lit "Opacity" ++ [dquote]
      ++ lit ").setValue(75);";
    lit "    dropShadow.property(" ++ [dquote] ++ lit "Direction" ++ [dquote]
      ++ lit ").setValue(135);";
    lit "    dropShadow.property(" ++ [dquote] ++ lit "Distance" ++ [dquote]
      ++ lit ").setValue(5);";
    lit "    dropShadow.property(" ++ [dquote] ++ lit "Softness" ++ [dquote]
      ++ lit ").setValue(10);";
    lit "}";
    [];
    lit "alert(" ++ [dquote] ++ lit "Caption import complete! " ++ [dquote]
      ++ lit " + captions.length + " ++ [dquote]
      ++ lit " subtitles added to composition." ++ [dquote] ++ lit ");"
  ].

(** The body of the loop of [generate_jsx] over [enumerate(subtitles)]. *)
Definition add_entry (count : nat) (jsx_template : str)
  (i_sub : nat * subtitle) : str :=
  let '(i, sub) := i_sub in
  let jsx_template := jsx_template ++ entry sub in
  let jsx_template :=
    if (Z.of_nat i <? Z.of_nat count - 1)
    then jsx_template ++ lit "," else jsx_template in
  jsx_template ++ [nl].

(** [generate_jsx(subtitles, comp_name, width, height, fps)] *)
Definition generate_jsx (subtitles : list subtitle) (comp_name : str)
  (width height fps : Z) : str :=
  let jsx_template := header comp_name width height fps in
  let jsx_template :=
    fold_left (add_entry (length subtitles)) (enumerate subtitles)
      jsx_template in
  jsx_template ++ footer.

(** The defaults of [generate_jsx]. *)
Definition default_comp_name : str := lit "Captions".
Definition default_width : Z := 1920.
Definition default_height : Z := 1080.
Definition default_fps : Z := 30.

(** What [convert_srt_to_jsx] prints, line by line. *)
Inductive console :=
| SayNotFound (srt_path : str)     (* Error: SRT file not found: ... *)
| SayConverting                    (* Converting SRT to After Effects JSX... *)
| SayInput (srt_path : str)        (* Input:  ... *)
| SayOutput (jsx_path : str)       (* Output: ... *)
| SayFound (n : nat)               (* Found n subtitle entries *)
| SayNoValid                       (* No valid subtitles found in SRT file *)
| SayComplete (jsx_path : str)     (* Conversion complete! and how to use it *)
| SayError (e : exn).              (* Error during conversion: ... *)

(** [convert_srt_to_jsx(srt_path, jsx_path)]: the value returned, the
    lines printed and the files afterwards. *)
Definition convert_srt_to_jsx (fs : Os.filesystem) (srt_path : str)
  (jsx_path : option str) : bool * list console * Os.filesystem :=
  if negb (Os.exists_ fs srt_path) then
    (false, [SayNotFound srt_path], fs)
  else
    let jsx_path :=
      match jsx_path with
      | None => replace (lit ".srt") (lit "_captions.jsx") srt_path
      | Some p => p
      end in
    let said := [SayConverting; SayInput srt_path; SayOutput jsx_path] in
    match parse_srt_file fs srt_path with
    | Raise e => (false, said ++ [SayError e], fs)
    | Ok subtitles =>
        let said := said ++ [SayFound (length subtitles)] in
        match subtitles with
        | [] => (false, said ++ [SayNoValid], fs)
        | _ =>
            let jsx_content :=
              generate_jsx subtitles default_comp_name default_width
                default_height default_fps in
            (true, said ++ [SayComplete jsx_path],
             Os.write fs jsx_path jsx_content)
        end
    end.

(** What the main block prints: the two lines on how to call the script,
    or a line of [convert_srt_to_jsx]. *)
Inductive terminal :=
| SayUsage                         (* Usage: python srt_to_jsx.py ... *)
| SayExample                       (* Example: python srt_to_jsx.py ... *)
| Say (line : console).

(** The main block, from [sys.argv] on: the exit status, the lines
    printed and the files afterwards. *)
Definition main (fs : Os.filesystem) (argv : list str) :
  Z * list terminal * Os.filesystem :=
  if (length argv <? 2)%nat then (1, [SayUsage; SayExample], fs)
  else
    let srt_file := nth 1 argv [] in
    let jsx_file :=
      if (2 <? length argv)%nat then Some (nth 2 argv []) else None in
    let '(success, said, fs) := convert_srt_to_jsx fs srt_file jsx_file in
    (if success then 0 else 1, map Say said, fs).

End SrtToJsx.

(** ** [CapEdify/srt_to_jsx_converter.py] *)

Module SrtToJsxConverter.

Import Py.

Local Open Scope Z_scope.

(** [parse_srt_time(time_str)]: SRT timestamp to seconds *)
Definition parse_srt_time (time_str : str) : result F64.float :=
  let time_parts := split (lit ":") (replace (lit ",") (lit ".") time_str) in
  p0 <- index time_parts 0 ;;
  hours <- PyNum.int_of_str p0 ;;
  p1 <- index time_parts 1 ;;
  minutes <- PyNum.int_of_str p1 ;;
  p2 <- index time_parts 2 ;;
  seconds <- PyNum.float_of_str p2 ;;
  whole <- PyNum.float_of_int (hours * 3600 + minutes * 60) ;;
  Ok (F64.add whole seconds).

(** One entry of the list [captions]: a dictionary with the keys
    [sequence], [start], [end] and [text]. *)
Record caption := {
  sequence : str;
  start : F64.float;
  end_ : F64.float;
  text : str
}.

(** [\n\s*\n] *)
Definition blank_line : list Re.atom :=
  [Re.chr nl; Re.Many isspace; Re.chr nl].

(** The body of the loop of [parse_srt_file], from the lines of the
    block on. *)
Definition parse_lines (captions : list caption) (lines : list str) :
  result (list caption) :=
  if (3 <=? length lines)%nat then
    line1 <- index lines 0 ;;
    let seq_num := strip line1 in
    line2 <- index lines 1 ;;
    let time_line := strip line2 in
    match split (lit " --> ") time_line with
    | [start_time; end_time] =>
        let text := strip (join [nl] (skipn 2 lines)) in
        start_seconds <- parse_srt_time start_time ;;
        end_seconds <- parse_srt_time end_time ;;
        Ok (captions ++ [{| sequence := seq_num; start := start_seconds;
                            end_ := end_seconds; text := text |}])
    | parts => Raise (ValueError (UnpackCount (length parts)))
    end
  else Ok captions.

(** [block.strip().split('\n')] *)
Definition block_lines (block : str) : list str := split [nl] (strip block).

(** The body of the loop of [parse_srt_file] over the blocks. *)
Definition parse_block (captions : list caption) (block : str) :
  result (list caption) :=
  parse_lines captions (block_lines block).

(** [parse_srt_file] from the text of the file on. *)
Definition parse_srt_text (content : str) : result (list caption) :=
  let blocks := Re.split blank_line (strip content) in
  for_each parse_block blocks [].

(** [parse_srt_file(srt_path)] *)
Definition parse_srt_file (fs : Os.filesystem) (srt_path : str) :
  result (list caption) :=
  content <- Os.read fs srt_path ;;
  parse_srt_text content.

(** The padding added to the latest end time. *)
Definition padding : Z := 2.

(** [max([cap['end'] for cap in captions]) + 2] *)
Definition duration (captions : list caption) : result F64.float :=
  latest <- PyNum.max (map end_ captions) ;;
  Ok (F64.add latest (F64.of_Z padding)).

(** The head of the script for a composition of [length_] seconds; [now]
    is the date and time of the run as [strftime] prints it. *)
Definition header (now : str) (length_ : F64.float) (comp_name : str)
  (comp_width comp_height fps : Z) : str :=
  unlines [
    lit "// Auto-generated After Effects script from SRT file";
    lit "// Generated on: " ++ now;
    [];
    lit "// Create new composition";
    lit "var comp = app.project.items.addComp(" ++ [dquote] ++ comp_name
      ++ [dquote] ++ lit ", " ++ PyFmt.str_of_int comp_width ++ lit ", "
      ++ PyFmt.str_of_int comp_height ++ lit ", 1, " ++ PyFmt.repr length_
      ++ lit ", " ++ PyFmt.str_of_int fps ++ lit ");";
    [];
    lit "// Style settings";
    lit "var fontSize = 48;";
    lit "var fontFamily = " ++ [dquote] ++ lit "Arial-BoldMT" ++ [dquote]
      ++ lit ";";
    lit "var textColor = [1, 1, 1]; // White";
    lit "var strokeColor = [0, 0, 0]; // Black";
    lit "var strokeWidth = 3;";
    [];
    lit "// Add captions"
  ].

(** [caption['text'].replace('"', '\\"').replace('\n', '\\n')] *)
Definition safe_text (caption_text : str) : str :=
  replace [nl] (backslash :: lit "n")
    (replace [dquote] [backslash; dquote] caption_text).

(** The statements for the caption of index [i]. *)
Definition layer (i : nat) (cap : caption) (comp_width comp_height : Z) :
  result str :=
  let n := PyFmt.str_of_int (Z.of_nat i + 1) in
  let safe_text := safe_text (text cap) in
  half_width <- PyNum.truediv comp_width 2 ;;
  Ok (unlines [
    [];
    lit "// Caption " ++ n ++ lit ": " ++ sequence cap;
    lit "var textLayer" ++ n ++ lit " = comp.layers.addText(" ++ [dquote]
      ++ safe_text ++ [dquote] ++ lit ");";
    lit "var textProp" ++ n ++ lit " = textLayer" ++ n ++ lit ".property("
      ++ [dquote] ++ lit "Source Text" ++ [dquote] ++ lit ");";
    lit "var textDocument" ++ n ++ lit " = textProp" ++ n ++ lit ".value;";
    lit "textDocument" ++ n ++ lit ".fontSize = fontSize;";
    lit "textDocument" ++ n ++ lit ".font = fontFamily;";
    lit "textDocument" ++ n ++ lit ".fillColor = textColor;";
    lit "textDocument" ++ n ++ lit ".strokeColor = strokeColor;";
    lit "textDocument" ++ n ++ lit ".strokeWidth = strokeWidth;";
    lit "textDocument" ++ n ++ lit ".strokeOverFill = false;";
    lit "textDocument" ++ n ++ lit ".applyStroke = true;";
    lit "textDocument" ++ n
      ++ lit ".justification = ParagraphJustification.CENTER_JUSTIFY;";
    lit "textProp" ++ n ++ lit ".setValue(textDocument" ++ n ++ lit ");";
    [];
    lit "// Position and timing";
    lit "textLayer" ++ n ++ lit ".startTime = " ++ PyFmt.repr (start cap)
      ++ lit ";";
    lit "textLayer" ++ n ++ lit ".outPoint = " ++ PyFmt.repr (end_ cap)
      ++ lit ";";
    lit "textLayer" ++ n ++ lit ".inPoint = " ++ PyFmt.repr (start cap)
      ++ lit ";";
    [];
    lit "// Position at bottom center";
    lit "var textPosition" ++ n ++ lit " = textLayer" ++ n ++ lit ".property("
      ++ [dquote] ++ lit "Transform" ++ [dquote] ++ lit ").property("
      ++ [dquote] ++ lit "Position" ++ [dquote] ++ lit ");";
    lit "textPosition" ++ n ++ lit ".setValue([" ++ PyFmt.repr half_width
      ++ lit ", " ++ PyFmt.str_of_int (comp_height - 100) ++ lit "]);"
  ]).

Definition footer : str :=
  unlines [
    [];
    lit "// Alert completion";
    lit "alert(" ++ [dquote] ++ lit "Caption import complete! " ++ [dquote]
      ++ lit " + comp.layers.length + " ++ [dquote]
      ++ lit " text layers created." ++ [dquote] ++ lit ");"
  ].

(** The body of the loop of [generate_jsx_script] over
    [enumerate(captions)]. *)
Definition add_layer (comp_width comp_height : Z) (jsx_template : str)
  (i_cap : nat * caption) : result str :=
  let '(i, cap) := i_cap in
  block <- layer i cap comp_width comp_height ;;
  Ok (jsx_template ++ block).

(** [generate_jsx_script(captions, comp_name, comp_width, comp_height,
    fps)] *)
Definition generate_jsx_script (now : str) (captions : list caption)
  (comp_name : str) (comp_width comp_height fps : Z) : result str :=
  length_ <- duration captions ;;
  let jsx_template :=
    header now length_ comp_name comp_width comp_height fps in
  jsx_template <-
    for_each (add_layer comp_width comp_height) (enumerate captions)
      jsx_template ;;
  Ok (jsx_template ++ footer).

(** The defaults of [generate_jsx_script]. *)
Definition default_comp_name : str := lit "Captions".
Definition default_width : Z := 1920.
Definition default_height : Z := 1080.
Definition default_fps : Z := 30.

(** [convert_srt_to_jsx(srt_path, output_path)]: the pair returned or
    the exception raised, and the files afterwards. *)
Definition convert_srt_to_jsx (now : str) (fs : Os.filesystem)
  (srt_path : str) (output_path : option str) :
  result (str * nat) * Os.filesystem :=
  if negb (Os.exists_ fs srt_path) then
    (Raise (FileNotFoundError srt_path), fs)
  else
    match parse_srt_file fs srt_path with
    | Raise e => (Raise e, fs)
    | Ok [] => (Raise (ValueError NoCaptionsFound), fs)
    | Ok captions =>
        match generate_jsx_script now captions default_comp_name
                default_width default_height default_fps with
        | Raise e => (Raise e, fs)
        | Ok jsx_content =>
            let output_path :=
              match output_path with
              | None =>
                  let base_name := Os.splitext_root (Os.basename srt_path) in
                  Os.join (Os.dirname srt_path)
                    (base_name ++ lit "_ae_import.jsx")
              | Some p => p
              end in
            (Ok (output_path, length captions),
             Os.write fs output_path jsx_content)
        end
    end.

End SrtToJsxConverter.

(** ** Vocabulary of the properties *)

Local Open Scope Z_scope.

(** The text an atom of a pattern can consume. *)
Definition atom_ok (a : Re.atom) (x : str) : Prop :=
  match a with
  | Re.One p => exists c, x = [c] /\ p c = true
  | Re.Many p => forallb p x = true
  | Re.GOpen => x = []
  | Re.GClose => x = []
  end.

(** [re.fullmatch(pat, s)] *)
Definition fullmatch (pat : list Re.atom) (s : str) : bool :=
  match Re.match_here pat s with
  | Some (_, []) => true
  | _ => false
  end.

(** A timestamp as the pattern [\d{2}:\d{2}:\d{2},\d{3}] cuts it. *)
Definition stamp (h1 h2 m1 m2 s1 s2 f1 f2 f3 : ascii) : str :=
  [h1; h2; ":"; m1; m2; ":"; s1; s2; ","; f1; f2; f3]%char.

Inductive timestamp_shape : str -> Prop :=
| Shape h1 h2 m1 m2 s1 s2 f1 f2 f3 :
    Forall (fun c => Py.isdecimal c = true)
      [h1; h2; m1; m2; s1; s2; f1; f2; f3] ->
    timestamp_shape (stamp h1 h2 m1 m2 s1 s2 f1 f2 f3).

Definition digits10 : list ascii :=
  map PyFmt.digit_char [0; 1; 2; 3; 4; 5; 6; 7; 8; 9].

Definition two_digits (a b : ascii) : Z :=
  10 * Py.digit_value a + Py.digit_value b.

(** The thousandths in [ab.cde]. *)
Definition millis (a b c d e : ascii) : Z :=
  10000 * Py.digit_value a + 1000 * Py.digit_value b
  + 100 * Py.digit_value c + 10 * Py.digit_value d + Py.digit_value e.

(** The whole seconds of [h1 h2 : m1 m2]. *)
Definition whole_seconds (h1 h2 m1 m2 : ascii) : Z :=
  two_digits h1 h2 * 3600 + two_digits m1 m2 * 60.

(** The exponent of the format for a number of magnitude [2^t]. *)
Abbreviation fexp := (SpecFloat.fexp F64.prec F64.emax).

(** The integer part of [p * 2^(e - E)]. *)
Definition scaled (p : positive) (e E : Z) : Z :=
  if E <=? e then Zpos p * 2 ^ (e - E) else Zpos p / 2 ^ (E - e).

(** The float of mantissa [m], at most [2^53], and exponent [E]. *)
Definition pack (sx : bool) (m E : Z) : F64.float :=
  match m with
  | Z0 => S754_zero sx
  | Zpos q =>
      if m =? 2 ^ 53 then
        if E + 1 <=? 971 then S754_finite sx (2 ^ 52) (E + 1)
        else S754_infinity sx
      else if E <=? 971 then S754_finite sx q E else S754_infinity sx
  | Zneg _ => S754_nan
  end.

(** Not negative, finite and far below the overflow threshold. *)
Definition small (x : F64.float) : bool :=
  match x with
  | S754_zero false => true
  | S754_finite false m e => Zpos (digits2_pos m) + e <=? 1022
  | _ => false
  end.

Definition finite_nonneg (x : F64.float) : bool :=
  F64.is_finite x && negb (F64.sign x).

(** A float as the interpreter holds it: a number of the format. *)
Definition valid (x : F64.float) : bool :=
  valid_binary F64.prec F64.emax x.

(** The float [x] is the rational [n / d], for a positive [d]. *)
Definition exactly (x : F64.float) (n d : Z) : Prop :=
  match x with
  | S754_zero _ => n = 0
  | S754_finite s m e =>
      if 0 <=? e then cond_Zopp s (Zpos m) * 2 ^ e * d = n
      else cond_Zopp s (Zpos m) * d = n * 2 ^ (- e)
  | _ => False
  end.

(** The fields [parse_srt_time] reads. *)
Definition fields (time_str : str) : list str :=
  Py.split (Py.lit ":") (Py.replace (Py.lit ",") (Py.lit ".") time_str).

(** A block [srt_to_jsx.py] makes a record of: three lines or more, the
    second one matched by the pattern of the time range. *)
Definition accepted (lines : list str) : bool :=
  (3 <=? length lines)%nat
  && match Re.rematch SrtToJsx.time_range (nth 1 lines []) with
     | Some _ => true
     | None => false
     end.

Definition well_formed (block : str) : bool :=
  accepted (SrtToJsx.block_lines block).

(** The blocks of a document. *)
Definition blocks (content : str) : list str :=
  Re.split SrtToJsx.blank_line (Py.strip content).

Definition times_ok (sub : SrtToJsx.subtitle) : Prop :=
  finite_nonneg (SrtToJsx.start sub) = true
  /\ finite_nonneg (SrtToJsx.end_ sub) = true.

(** The records [srt_to_jsx.py] makes of one block alone. *)
Definition records_of (block : str) : list SrtToJsx.subtitle :=
  match SrtToJsx.parse_block [] block with
  | Ok l => l
  | Raise _ => []
  end.


(** The line of the array [captions] for the subtitle of index [i] among
    [count]. *)
Definition entry_line (count : nat) (i_sub : nat * SrtToJsx.subtitle) : str :=
  SrtToJsx.entry (snd i_sub)
  ++ (if Z.of_nat (fst i_sub) <? Z.of_nat count - 1 then Py.lit "," else [])
  ++ [Py.nl].

(** [x] occurs in [s] as it is. *)
Definition substring (x s : str) : Prop :=
  exists pre post, s = pre ++ x ++ post.

(** What the generators write for one character of a caption. *)
Definition escape (line_break : ascii) (c : ascii) : str :=
  if Ascii.eqb Py.dquote c then [Py.backslash; Py.dquote]
  else if Ascii.eqb Py.nl c then [Py.backslash; line_break]
  else [c].



(** An integer within the limit of the interpreter on the digits of a
    conversion to [str]: 4300 digits at most. *)
Definition printable (n : Z) : Prop := Z.abs n < 10 ^ 4300.

(** Every quote of [s] has a backslash before it. *)
Definition quotes_escaped (s : str) : Prop :=
  forall pre post,
    s = pre ++ Py.dquote :: post -> exists pre', pre = pre' ++ [Py.backslash].

(** Neither a quote nor a newline. *)
Definition plain (c : ascii) : bool :=
  negb (Ascii.eqb Py.dquote c) && negb (Ascii.eqb Py.nl c).

(** [x in s] *)
Fixpoint occurs (x s : str) : bool :=
  Py.startswith x s
  || match s with
     | [] => false
     | _ :: r => occurs x r
     end.

(** Three lines or more: a block [srt_to_jsx_converter.py] makes a record
    of or raises on. *)
Definition long_enough (block : str) : bool :=
  (3 <=? length (SrtToJsxConverter.block_lines block))%nat.

(** The second line of the block, stripped, splits at the arrow between
    two spaces into two strings, and both convert. *)
Definition timed (block : str) : bool :=
  match Py.split (Py.lit " --> ")
          (Py.strip (nth 1 (SrtToJsxConverter.block_lines block) [])) with
  | [start_time; end_time] =>
      is_ok (SrtToJsxConverter.parse_srt_time start_time)
      && is_ok (SrtToJsxConverter.parse_srt_time end_time)
  | _ => false
  end.

(** The lines of a block after the first. *)
Definition after_first (block : str) : list str :=
  tl (SrtToJsx.block_lines block).

(** The path [srt_to_jsx.py] writes to. *)
Definition captions_path (srt_path : str) (jsx_path : option str) : str :=
  match jsx_path with
  | None => Py.replace (Py.lit ".srt") (Py.lit "_captions.jsx") srt_path
  | Some p => p
  end.

(** The path [srt_to_jsx_converter.py] writes to. *)
Definition import_path (srt_path : str) (output_path : option str) : str :=
  match output_path with
  | None =>
      Os.join (Os.dirname srt_path)
        (Os.splitext_root (Os.basename srt_path) ++ Py.lit "_ae_import.jsx")
  | Some p => p
  end.

(** [c] occurs in [s]. *)
Abbreviation has c s := (existsb (Ascii.eqb c) s).

(** A line [srt_to_jsx.py] takes for a timing line, with its two
    timestamps: the first timestamp, the arrow with any white space around
    it, the second timestamp, and anything after it. *)
Inductive timing_line : str -> str -> str -> Prop :=
| TimingLine t1 ws1 ws2 t2 rest :
    timestamp_shape t1 -> timestamp_shape t2 ->
    forallb Py.isspace ws1 = true -> forallb Py.isspace ws2 = true ->
    timing_line (t1 ++ ws1 ++ Py.lit "-->" ++ ws2 ++ t2 ++ rest) t1 t2.

(** The text with a space for each newline. *)
Definition spaced (s : str) : str :=
  map (fun c => if Ascii.eqb Py.nl c then " "%char else c) s.

(** The record of [srt_to_jsx.py] and the record of
    [srt_to_jsx_converter.py] tell the same times and the same text. *)
Definition same_cue (sub : SrtToJsx.subtitle)
  (cap : SrtToJsxConverter.caption) : Prop :=
  SrtToJsx.start sub = SrtToJsxConverter.start cap
  /\ SrtToJsx.end_ sub = SrtToJsxConverter.end_ cap
  /\ SrtToJsx.text sub
     = flat_map (escape "r"%char) (spaced (SrtToJsxConverter.text cap)).

(** A block of less than three lines, or one whose second line is a
    timestamp, the arrow between two spaces, a timestamp, and white space
    at most after it. *)
Definition canonical (block : str) : Prop :=
  long_enough block = false
  \/ exists t1 t2 ws,
       timestamp_shape t1 /\ timestamp_shape t2
       /\ forallb Py.isspace ws = true
       /\ nth 1 (SrtToJsx.block_lines block) []
          = t1 ++ Py.lit " --> " ++ t2 ++ ws.

(** The value of a finite float in units of [2^-1074], the smallest
    positive float. *)
Definition units (x : F64.float) : Z :=
  match x with
  | S754_finite s m e => cond_Zopp s (Zpos m * 2 ^ (e + 1074))
  | _ => 0
  end.

(** Zero, or a positive number of the format with an exponent of -30 at
    most. *)
Definition modest (x : F64.float) : Prop :=
  match x with
  | S754_zero false => True
  | S754_finite false m e => valid x = true /\ e <= -30
  | _ => False
  end.

(** The thousandths of a second a timestamp tells. *)
Definition thousandths (h1 h2 m1 m2 s1 s2 f1 f2 f3 : ascii) : Z :=
  1000 * whole_seconds h1 h2 m1 m2 + millis s1 s2 f1 f2 f3.

(** Documents for the cases below. *)
Definition sample_garbled : str :=
  Py.lit "1
00:00:01,000 --> 00:00:03,000
Hello world

2
00:00:04,500 -> 00:00:06,000
Second line".

Definition sample_backwards : str :=
  Py.lit "1
00:00:05,000 --> 00:00:01,000
Backwards".

Definition sample_infinite : str :=
  Py.lit "1
0:0:inf --> 0:0:nan
Forever".

Definition sample_quotes : str :=
  Py.lit "1
00:00:01,000 --> 00:00:03,000
He said " ++ [Py.dquote] ++ Py.lit "hi" ++ [Py.dquote].

Definition sample_late : str :=
  Py.lit "1
00:01:00,000 --> 00:01:01,000
Late".

Definition sample_padded_id : str :=
  Py.lit "1 " ++ [Py.nl] ++ Py.lit "00:00:01,000 --> 00:00:02,000
Hi".

Definition sample_renumbered : str :=
  Py.lit "seven
00:00:01,000 --> 00:00:02,000
Hi".

Definition sample_now : str := Py.lit "2025-01-01 12:00:00".

(** * Properties *)

(** ** Rounding to binary64 *)

Module Round.

Lemma fexp_eq t : fexp t = Z.max (t - 53) (-1074).
Proof. reflexivity. Qed.

Lemma digits_log2 p : Zpos (digits2_pos p) = Z.log2 (Zpos p) + 1.
Proof.
  assert (Hs : forall q, digits2_pos q = Pos.size q)
    by (induction q; simpl; congruence).
  destruct p; simpl; rewrite ?Hs; lia.
Qed.

Lemma digits_bounds p :
  2 ^ (Zpos (digits2_pos p) - 1) <= Zpos p < 2 ^ Zpos (digits2_pos p).
Proof.
  rewrite digits_log2.
  destruct (Z.log2_spec (Zpos p)) as [H1 H2]; [lia|].
  replace (Z.log2 (Zpos p) + 1 - 1) with (Z.log2 (Zpos p)) by lia.
  replace (Z.log2 (Zpos p) + 1) with (Z.succ (Z.log2 (Zpos p))) by lia.
  split; assumption.
Qed.

Lemma digits_le p k : Zpos p < 2 ^ k -> Zpos (digits2_pos p) <= k.
Proof.
  intros H. destruct (Z_lt_le_dec k 0) as [Hk|Hk].
  - rewrite Z.pow_neg_r in H by assumption. lia.
  - rewrite digits_log2.
    assert (Z.log2 (Zpos p) < k) by (apply Z.log2_lt_pow2; lia). lia.
Qed.

Lemma digits_ge p k : 2 ^ k <= Zpos p -> k + 1 <= Zpos (digits2_pos p).
Proof.
  intros H. destruct (Z_lt_le_dec k 0) as [Hk|Hk].
  - pose proof (Pos2Z.is_pos (digits2_pos p)). lia.
  - rewrite digits_log2.
    assert (k <= Z.log2 (Zpos p)) by (apply Z.log2_le_pow2; lia). lia.
Qed.

Lemma shr_1_m r : 0 <= shr_m r -> shr_m (shr_1 r) = shr_m r / 2.
Proof.
  destruct r as [[|[p|p|]|p] rb sb]; simpl; intros H; try lia;
    rewrite <- Z.div2_div; reflexivity.
Qed.

Lemma pow2_xI n : 2 ^ Zpos n~1 = 2 * (2 ^ Zpos n * 2 ^ Zpos n).
Proof.
  rewrite (Pos2Z.inj_xI n).
  replace (2 * Zpos n + 1) with (1 + (Zpos n + Zpos n)) by lia.
  rewrite (Z.pow_add_r 2 1) by lia.
  rewrite (Z.pow_add_r 2 (Zpos n)) by lia. reflexivity.
Qed.

Lemma pow2_xO n : 2 ^ Zpos n~0 = 2 ^ Zpos n * 2 ^ Zpos n.
Proof.
  rewrite (Pos2Z.inj_xO n).
  replace (2 * Zpos n) with (Zpos n + Zpos n) by lia.
  rewrite (Z.pow_add_r 2 (Zpos n)) by lia. reflexivity.
Qed.

Lemma iter_shr_m n r :
  0 <= shr_m r -> shr_m (iter_pos shr_1 n r) = shr_m r / 2 ^ Zpos n.
Proof.
  revert r. induction n as [n IH|n IH|]; intros r Hr; simpl iter_pos.
  - assert (H1 : 0 <= shr_m (shr_1 r)).
    { rewrite shr_1_m by assumption. apply Z.div_pos; lia. }
    assert (H2 : 0 <= shr_m (iter_pos shr_1 n (shr_1 r))).
    { rewrite IH by assumption. apply Z.div_pos; lia. }
    rewrite IH by assumption. rewrite IH by assumption.
    rewrite shr_1_m by assumption.
    rewrite !Z.div_div by lia. rewrite pow2_xI. reflexivity.
  - assert (H2 : 0 <= shr_m (iter_pos shr_1 n r)).
    { rewrite IH by assumption. apply Z.div_pos; lia. }
    rewrite IH by assumption. rewrite IH by assumption.
    rewrite !Z.div_div by lia. rewrite pow2_xO. reflexivity.
  - rewrite shr_1_m by assumption. reflexivity.
Qed.

Lemma iter_xO p d : Zpos (Pos.iter xO p d) = Zpos p * 2 ^ Zpos d.
Proof.
  induction d as [|d IH] using Pos.peano_ind.
  - simpl. lia.
  - rewrite Pos.iter_succ, Pos2Z.inj_xO, IH, Pos2Z.inj_succ, Z.pow_succ_r;
      lia.
Qed.

Lemma digits_iter_xO p d :
  Zpos (digits2_pos (Pos.iter xO p d)) = Zpos (digits2_pos p) + Zpos d.
Proof.
  induction d as [|d IH] using Pos.peano_ind.
  - simpl. lia.
  - rewrite Pos.iter_succ. simpl digits2_pos.
    rewrite Pos2Z.inj_succ, IH, Pos2Z.inj_succ. lia.
Qed.

Lemma fexp_ge t : -1074 <= fexp t /\ t - 53 <= fexp t.
Proof. rewrite fexp_eq. lia. Qed.

Lemma fexp_mono a b : a <= b -> fexp a <= fexp b.
Proof. rewrite !fexp_eq. lia. Qed.

Lemma shr_nonpos r e n : n <= 0 -> shr r e n = (r, e).
Proof. destruct n; [reflexivity | lia | reflexivity]. Qed.

Lemma shr_pos r e n :
  0 < n -> 0 <= shr_m r ->
  exists r', shr r e n = (r', e + n) /\ shr_m r' = shr_m r / 2 ^ n.
Proof.
  destruct n as [|n|n]; try lia. intros _ Hr.
  exists (iter_pos shr_1 n r). split; [reflexivity|].
  apply iter_shr_m; assumption.
Qed.

Lemma shr_record_m m l : shr_m (shr_record_of_loc m l) = m.
Proof. destruct l as [|[]]; reflexivity. Qed.

Lemma round_nearest_even_cases a l :
  round_nearest_even a l = a \/ round_nearest_even a l = a + 1.
Proof.
  destruct l as [|[]]; simpl; auto. destruct (Z.even a); auto.
Qed.

Lemma loc_exact_record m :
  loc_of_shr_record (shr_record_of_loc m loc_Exact) = loc_Exact.
Proof. reflexivity. Qed.

(** The last step of the rounding: a mantissa that reached [2^53] is
    halved, and the exponent is checked against the largest one. *)
Lemma finish sx m2 E :
  0 <= m2 <= 2 ^ 53 -> -1074 <= E ->
  (let '(mrs, e) := shr_fexp F64.prec F64.emax m2 E loc_Exact in
   match shr_m mrs with
   | Z0 => S754_zero sx
   | Zpos m =>
       if e <=? F64.emax - F64.prec then S754_finite sx m e
       else S754_infinity sx
   | Zneg _ => S754_nan
   end) = pack sx m2 E.
Proof.
  intros Hm HE. unfold shr_fexp.
  destruct m2 as [|q|q]; [| |lia].
  - simpl Zdigits2. rewrite shr_nonpos by (rewrite fexp_eq; lia).
    reflexivity.
  - simpl Zdigits2. unfold pack.
    destruct (Z.eqb_spec (Zpos q) (2 ^ 53)) as [Hq|Hq].
    + injection Hq as ->.
      replace (fexp (Zpos (digits2_pos 9007199254740992) + E) - E) with 1
        by (rewrite fexp_eq; simpl digits2_pos; lia).
      reflexivity.
    + assert (Hd : Zpos (digits2_pos q) <= 53) by (apply digits_le; lia).
      rewrite shr_nonpos by (rewrite fexp_eq; lia).
      reflexivity.
Qed.

Lemma scaled_bound p e :
  0 <= scaled p e (fexp (Zpos (digits2_pos p) + e)) < 2 ^ 53.
Proof.
  unfold scaled. set (D := Zpos (digits2_pos p) + e).
  destruct (fexp_ge D) as [_ HD].
  pose proof (digits_bounds p) as [_ Hp].
  destruct (Z.leb_spec (fexp D) e) as [H|H].
  - split; [apply Z.mul_nonneg_nonneg; [lia | apply Z.pow_nonneg; lia]|].
    apply Z.lt_le_trans with (2 ^ Zpos (digits2_pos p) * 2 ^ (e - fexp D)).
    + apply Z.mul_lt_mono_pos_r; [apply Z.pow_pos_nonneg; lia | assumption].
    + rewrite <- Z.pow_add_r by lia. apply Z.pow_le_mono_r; lia.
  - split; [apply Z.div_pos; [lia | apply Z.pow_pos_nonneg; lia]|].
    apply Z.div_lt_upper_bound; [apply Z.pow_pos_nonneg; lia|].
    apply Z.lt_le_trans with (1 := Hp).
    rewrite <- Z.pow_add_r by lia. apply Z.pow_le_mono_r; lia.
Qed.

(** [binary_round] keeps the integer part of the scaled mantissa or the
    next integer, at the exponent of the format. *)
Lemma binary_round_spec sx p e :
  let E := fexp (Zpos (digits2_pos p) + e) in
  exists m2,
    (m2 = scaled p e E \/ m2 = scaled p e E + 1)
    /\ binary_round F64.prec F64.emax sx p e = pack sx m2 E.
Proof.
  cbv zeta. pose proof (scaled_bound p e) as Hq.
  destruct (fexp_ge (Zpos (digits2_pos p) + e)) as [HE HD].
  unfold binary_round, shl_align.
  remember (fexp (Zpos (digits2_pos p) + e)) as E eqn:HEdef.
  destruct (E - e) as [|n|d] eqn:Hn.
  - (* the exponent is already right *)
    exists (Zpos p). unfold scaled in *.
    assert (He : E = e) by lia.
    rewrite He, Z.leb_refl, Z.sub_diag, Z.mul_1_r in *.
    split; [auto|].
    unfold binary_round_aux, shr_fexp at 1. simpl Zdigits2.
    rewrite <- HEdef, shr_nonpos by lia.
    simpl shr_m. simpl round_nearest_even.
    apply finish; lia.
  - (* bits are dropped *)
    unfold binary_round_aux, shr_fexp at 1. simpl Zdigits2.
    rewrite <- HEdef, Hn.
    destruct (shr_pos (shr_record_of_loc (Zpos p) loc_Exact) e (Zpos n))
      as (r' & Hr & Hm); [lia | simpl; lia |].
    rewrite Hr. simpl shr_m in Hm.
    assert (Hs : scaled p e E = shr_m r').
    { unfold scaled. destruct (Z.leb_spec E e); [lia|].
      rewrite Hm, <- Hn. reflexivity. }
    exists (round_nearest_even (shr_m r') (loc_of_shr_record r')).
    split.
    + rewrite Hs. apply round_nearest_even_cases.
    + replace (e + Zpos n) with E by lia.
      apply finish; [|assumption].
      destruct (round_nearest_even_cases (shr_m r') (loc_of_shr_record r'))
        as [-> | ->]; lia.
  - (* the mantissa is shifted to the left *)
    exists (Zpos (Pos.iter xO p d)).
    assert (Hs : scaled p e E = Zpos (Pos.iter xO p d)).
    { unfold scaled. destruct (Z.leb_spec E e); [|lia].
      rewrite iter_xO. f_equal. f_equal. lia. }
    split; [auto|].
    unfold binary_round_aux, shr_fexp at 1. simpl Zdigits2.
    rewrite digits_iter_xO.
    replace (Zpos (digits2_pos p) + Zpos d + E)
      with (Zpos (digits2_pos p) + e) by lia.
    rewrite <- HEdef, shr_nonpos by lia.
    simpl shr_m. simpl round_nearest_even.
    apply finish; lia.
Qed.

Lemma shl_align_fst m e ez :
  ez <= e -> Zpos (fst (shl_align m e ez)) = Zpos m * 2 ^ (e - ez).
Proof.
  intros H. unfold shl_align.
  destruct (ez - e) as [|n|d] eqn:Hd; simpl fst.
  - replace (e - ez) with 0 by lia. lia.
  - lia.
  - rewrite iter_xO. f_equal. f_equal. lia.
Qed.

Lemma pack_finite sx m2 E :
  0 <= m2 -> E + 1 <= 971 ->
  F64.is_finite (pack sx m2 E) = true /\ F64.sign (pack sx m2 E) = sx.
Proof.
  intros Hm HE. unfold pack. destruct m2 as [|q|q]; [auto| |lia].
  destruct (Zpos q =? 2 ^ 53).
  - destruct (Z.leb_spec (E + 1) 971); [auto | lia].
  - destruct (Z.leb_spec E 971); [auto | lia].
Qed.

Lemma scaled_nonneg p e E : 0 <= scaled p e E.
Proof.
  unfold scaled. destruct (Z.leb_spec E e).
  - apply Z.mul_nonneg_nonneg; [lia | apply Z.pow_nonneg; lia].
  - apply Z.div_pos; [lia | apply Z.pow_pos_nonneg; lia].
Qed.

(** Rounding a positive number below [2^1023] gives a finite float of
    the same sign. *)
Lemma binary_round_finite sx p e :
  Zpos (digits2_pos p) + e <= 1023 ->
  F64.is_finite (binary_round F64.prec F64.emax sx p e) = true
  /\ F64.sign (binary_round F64.prec F64.emax sx p e) = sx.
Proof.
  intros HD. destruct (binary_round_spec sx p e) as (m2 & Hm & ->).
  pose proof (scaled_nonneg p e (fexp (Zpos (digits2_pos p) + e))).
  apply pack_finite; [destruct Hm; lia | rewrite fexp_eq; lia].
Qed.

Lemma cond_Zopp_false x : cond_Zopp false x = x.
Proof. reflexivity. Qed.

Lemma cond_Zopp_true x : cond_Zopp true x = - x.
Proof. reflexivity. Qed.

Lemma add_finite s1 m1 e1 s2 m2 e2 :
  F64.add (S754_finite s1 m1 e1) (S754_finite s2 m2 e2)
  = binary_normalize F64.prec F64.emax
      (cond_Zopp s1 (Zpos m1 * 2 ^ (e1 - Z.min e1 e2))
       + cond_Zopp s2 (Zpos m2 * 2 ^ (e2 - Z.min e1 e2)))
      (Z.min e1 e2) false.
Proof.
  unfold F64.add, SFadd.
  rewrite !shl_align_fst by lia. reflexivity.
Qed.

Lemma pow2_digits_lt p k : Zpos (digits2_pos p) <= k -> Zpos p < 2 ^ k.
Proof.
  intros H. pose proof (digits_bounds p) as [_ Hp].
  apply Z.lt_le_trans with (1 := Hp). apply Z.pow_le_mono_r; lia.
Qed.

(** The sum of two small floats is finite and not negative. *)
Lemma add_small x y :
  small x = true -> small y = true -> finite_nonneg (F64.add x y) = true.
Proof.
  destruct x as [[|]|[|]| |[|] m1 e1]; try discriminate;
  destruct y as [[|]|[|]| |[|] m2 e2]; try discriminate;
    try reflexivity.
  intros H1 H2. unfold small in H1, H2.
  apply Z.leb_le in H1. apply Z.leb_le in H2.
  rewrite add_finite, !cond_Zopp_false.
  set (ez := Z.min e1 e2).
  assert (Ha : 0 < Zpos m1 * 2 ^ (e1 - ez))
    by (apply Z.mul_pos_pos; [lia | apply Z.pow_pos_nonneg; lia]).
  assert (Hb : 0 < Zpos m2 * 2 ^ (e2 - ez))
    by (apply Z.mul_pos_pos; [lia | apply Z.pow_pos_nonneg; lia]).
  destruct (Zpos m1 * 2 ^ (e1 - ez) + Zpos m2 * 2 ^ (e2 - ez))
    as [|p|p] eqn:Hp; try lia.
  unfold binary_normalize.
  assert (HD : Zpos (digits2_pos p) + ez <= 1023).
  { assert (Hlt : Zpos p < 2 ^ (1023 - ez)).
    { rewrite <- Hp.
      assert (Zpos m1 * 2 ^ (e1 - ez) < 2 ^ (1022 - ez)).
      { apply Z.lt_le_trans
          with (2 ^ Zpos (digits2_pos m1) * 2 ^ (e1 - ez)).
        - apply Z.mul_lt_mono_pos_r; [apply Z.pow_pos_nonneg; lia|].
          apply digits_bounds.
        - rewrite <- Z.pow_add_r by lia. apply Z.pow_le_mono_r; lia. }
      assert (Zpos m2 * 2 ^ (e2 - ez) < 2 ^ (1022 - ez)).
      { apply Z.lt_le_trans
          with (2 ^ Zpos (digits2_pos m2) * 2 ^ (e2 - ez)).
        - apply Z.mul_lt_mono_pos_r; [apply Z.pow_pos_nonneg; lia|].
          apply digits_bounds.
        - rewrite <- Z.pow_add_r by lia. apply Z.pow_le_mono_r; lia. }
      replace (1023 - ez) with (Z.succ (1022 - ez)) by lia.
      rewrite Z.pow_succ_r by lia. lia. }
    apply digits_le in Hlt. lia. }
  destruct (binary_round_finite false p ez HD) as [Hf Hs].
  unfold finite_nonneg. rewrite Hf, Hs. reflexivity.
Qed.

Lemma leb_pos m e m' e' :
  e < e' \/ (e = e' /\ (m <= m')%positive) ->
  F64.leb (S754_finite false m e) (S754_finite false m' e') = true.
Proof.
  unfold F64.leb, SFleb, SFcompare. intros [H | [-> H]].
  - rewrite (proj2 (Z.compare_lt_iff e e') H). reflexivity.
  - rewrite Z.compare_refl.
    change (Pos.compare_cont Eq m m') with (m ?= m')%positive.
    destruct (m ?= m')%positive eqn:Hc; try reflexivity.
    pose proof (proj1 (Pos.compare_gt_iff m m') Hc) as Hlt. lia.
Qed.

Lemma leb_neg m e m' e' :
  e' < e \/ (e = e' /\ (m' <= m)%positive) ->
  F64.leb (S754_finite true m e) (S754_finite true m' e') = true.
Proof.
  unfold F64.leb, SFleb, SFcompare. intros [H | [-> H]].
  - rewrite (proj2 (Z.compare_gt_iff e e') H). reflexivity.
  - rewrite Z.compare_refl.
    change (Pos.compare_cont Eq m m') with (m ?= m')%positive.
    destruct (m ?= m')%positive eqn:Hc; try reflexivity.
    pose proof (proj1 (Pos.compare_lt_iff m m') Hc) as Hlt. lia.
Qed.

Lemma pack_ge_pos m e m2 E :
  0 <= m2 <= 2 ^ 53 -> e <= 971 ->
  (e < E /\ 0 < m2) \/ (e = E /\ Zpos m <= m2) ->
  F64.leb (S754_finite false m e) (pack false m2 E) = true.
Proof.
  intros Hm He H. unfold pack.
  destruct m2 as [|q|q]; try lia.
  destruct (Z.eqb_spec (Zpos q) (2 ^ 53)) as [Hq|Hq].
  - destruct (E + 1 <=? 971); [|reflexivity].
    apply leb_pos. left. lia.
  - destruct (E <=? 971); [|reflexivity].
    apply leb_pos. destruct H as [[H _]|[H1 H2]]; [left; lia|right].
    split; [assumption | lia].
Qed.

Lemma pack_nonneg m e m2 E :
  0 <= m2 ->
  F64.leb (S754_finite true m e) (pack false m2 E) = true.
Proof.
  intros Hm. unfold pack. destruct m2 as [|q|q]; try lia; [reflexivity|].
  destruct (Zpos q =? 2 ^ 53).
  - destruct (E + 1 <=? 971); reflexivity.
  - destruct (E <=? 971); reflexivity.
Qed.

Lemma pack_le_neg m e m2 E :
  0 <= m2 <= 2 ^ 53 -> e <= 971 ->
  (E < e /\ (m2 = 2 ^ 53 -> E + 1 < e \/ 2 ^ 52 <= Zpos m))
  \/ (E = e /\ m2 <= Zpos m /\ m2 < 2 ^ 53) ->
  F64.leb (S754_finite true m e) (pack true m2 E) = true.
Proof.
  intros Hm He H. unfold pack.
  destruct m2 as [|q|q]; try lia; [reflexivity|].
  destruct (Z.eqb_spec (Zpos q) (2 ^ 53)) as [Hq|Hq].
  - destruct H as [[H1 H2]|H]; [|lia].
    destruct (Z.leb_spec (E + 1) 971); [|lia].
    apply leb_neg. destruct (H2 Hq) as [H3|H3]; [left; lia|].
    destruct (Z.eq_dec e (E + 1)); [right|left; lia].
    split; [assumption|]. change (2 ^ 52) with (Zpos (2 ^ 52)) in H3. lia.
  - destruct (Z.leb_spec E 971); [|lia].
    apply leb_neg. destruct H as [[H _]|(H1 & H2 & _)]; [left; lia|right].
    split; [lia | lia].
Qed.

Lemma bounded_facts m e :
  bounded F64.prec F64.emax m e = true ->
  fexp (Zpos (digits2_pos m) + e) = e /\ e <= 971.
Proof.
  unfold bounded, canonical_mantissa. intros H.
  apply andb_prop in H as [H1 H2].
  apply Z.eqb_eq in H1. apply Z.leb_le in H2.
  split; [exact H1 | exact H2].
Qed.

Lemma pow2_mul_digits_le m k :
  0 <= k -> 2 ^ (Zpos (digits2_pos m) - 1 + k) <= Zpos m * 2 ^ k.
Proof.
  intros Hk. pose proof (Pos2Z.is_pos (digits2_pos m)).
  rewrite Z.pow_add_r by lia.
  apply Z.mul_le_mono_nonneg_r; [apply Z.pow_nonneg; lia|].
  apply digits_bounds.
Qed.

Lemma pow2_mul_digits_lt m k :
  0 <= k -> Zpos m * 2 ^ k < 2 ^ (Zpos (digits2_pos m) + k).
Proof.
  intros Hk. rewrite Z.pow_add_r by lia.
  apply Z.mul_lt_mono_pos_r; [apply Z.pow_pos_nonneg; lia|].
  apply digits_bounds.
Qed.

(** Adding two to a float never gives a smaller float. *)
Lemma add_two_ge x :
  valid_binary F64.prec F64.emax x = true -> F64.is_nan x = false ->
  F64.leb x (F64.add x (F64.of_Z 2)) = true.
Proof.
  change (F64.of_Z 2) with (S754_finite false 4503599627370496 (-51)).
  destruct x as [s|s| |s m e]; intros Hv Hn; try discriminate.
  - destruct s; reflexivity.
  - destruct s; reflexivity.
  - simpl in Hv. apply bounded_facts in Hv as [Hc He].
    rewrite add_finite. set (ez := Z.min e (-51)).
    assert (Hez : ez <= e) by (unfold ez; lia).
    assert (Hez' : ez <= -51) by (unfold ez; lia).
    set (A := Zpos m * 2 ^ (e - ez)).
    set (B := 4503599627370496 * 2 ^ (-51 - ez)).
    assert (HA : 0 < A)
      by (apply Z.mul_pos_pos; [lia | apply Z.pow_pos_nonneg; lia]).
    assert (HB : 0 < B)
      by (apply Z.mul_pos_pos; [lia | apply Z.pow_pos_nonneg; lia]).
    pose proof (Pos2Z.is_pos (digits2_pos m)) as Hdm.
    assert (Hm53 : Zpos m < 2 ^ 53).
    { apply pow2_digits_lt. rewrite fexp_eq in Hc. lia. }
    destruct s.
    + (* a negative float *)
      rewrite cond_Zopp_true, cond_Zopp_false.
      destruct (- A + B) as [|p|p] eqn:Hp; unfold binary_normalize.
      * reflexivity.
      * destruct (binary_round_spec false p ez) as (m2 & Hm2 & ->).
        apply pack_nonneg.
        pose proof (scaled_nonneg p ez (fexp (Zpos (digits2_pos p) + ez))).
        destruct Hm2; lia.
      * destruct (binary_round_spec true p ez) as (m2 & Hm2 & ->).
        pose proof (scaled_bound p ez) as Hq.
        set (E := fexp (Zpos (digits2_pos p) + ez)) in *.
        assert (HpA : Zpos p < A) by lia.
        assert (HD : Zpos (digits2_pos p) + ez <= Zpos (digits2_pos m) + e).
        { assert (Hlt : Zpos p < 2 ^ (Zpos (digits2_pos m) + (e - ez))).
          { apply Z.lt_trans with (1 := HpA).
            apply pow2_mul_digits_lt. lia. }
          apply digits_le in Hlt. lia. }
        assert (HE : E <= e).
        { unfold E. rewrite <- Hc. apply fexp_mono. assumption. }
        apply pack_le_neg; [destruct Hm2; lia | assumption |].
        destruct (Z.eq_dec E e) as [Heq|Hne].
        -- right. split; [assumption|].
           assert (Hs : scaled p ez E < Zpos m).
           { unfold scaled. rewrite Heq.
             destruct (Z.leb_spec e ez).
             - replace (ez - e) with 0 by lia. unfold A in HpA.
               replace (e - ez) with 0 in HpA by lia. lia.
             - apply Z.div_lt_upper_bound; [apply Z.pow_pos_nonneg; lia|].
               unfold A in HpA. lia. }
           destruct Hm2; lia.
        -- left. split; [lia|]. intros _.
           destruct (Z.eq_dec (E + 1) e) as [Heq|Hne']; [right|left; lia].
           assert (Hd : Zpos (digits2_pos m) = 53).
           { destruct (fexp_ge (Zpos (digits2_pos p) + ez)) as [HEmin _].
             fold E in HEmin. rewrite fexp_eq in Hc. lia. }
           pose proof (digits_bounds m) as [Hlo _].
           rewrite Hd in Hlo. exact Hlo.
    + (* a positive float *)
      rewrite !cond_Zopp_false.
      destruct (A + B) as [|p|p] eqn:Hp; try lia. unfold binary_normalize.
      destruct (binary_round_spec false p ez) as (m2 & Hm2 & ->).
      pose proof (scaled_bound p ez) as Hq.
      set (E := fexp (Zpos (digits2_pos p) + ez)) in *.
      assert (HpA : A <= Zpos p) by lia.
      assert (HD : Zpos (digits2_pos m) + e <= Zpos (digits2_pos p) + ez).
      { assert (Hle : 2 ^ (Zpos (digits2_pos m) - 1 + (e - ez)) <= Zpos p).
        { apply Z.le_trans with (2 := HpA).
          apply pow2_mul_digits_le. lia. }
        apply digits_ge in Hle. lia. }
      assert (HE : e <= E).
      { unfold E. rewrite <- Hc at 1. apply fexp_mono. assumption. }
      apply pack_ge_pos; [destruct Hm2; lia | assumption |].
      destruct (Z.eq_dec E e) as [Heq|Hne].
      * right. split; [lia|].
        assert (Hs : Zpos m <= scaled p ez E).
        { unfold scaled. rewrite Heq.
          destruct (Z.leb_spec e ez).
          - replace (ez - e) with 0 by lia. unfold A in HpA.
            replace (e - ez) with 0 in HpA by lia. lia.
          - apply Z.div_le_lower_bound; [apply Z.pow_pos_nonneg; lia|].
            unfold A in HpA. lia. }
        destruct Hm2; lia.
      * left. split; [lia|].
        assert (Hs : 0 < scaled p ez E).
        { unfold scaled. destruct (Z.leb_spec E ez).
          - apply Z.mul_pos_pos; [lia | apply Z.pow_pos_nonneg; lia].
          - apply Z.lt_le_trans with 1; [lia|].
            apply Z.div_le_lower_bound; [apply Z.pow_pos_nonneg; lia|].
            rewrite Z.mul_1_r.
            pose proof (digits_bounds p) as [Hlo _].
            apply Z.le_trans with (2 := Hlo).
            apply Z.pow_le_mono_r; [lia|].
            unfold E in *. rewrite fexp_eq in *. lia. }
        destruct Hm2; lia.
Qed.

Lemma leb_pos_inv m e m' e' :
  F64.leb (S754_finite false m e) (S754_finite false m' e') = true ->
  e < e' \/ (e = e' /\ (m <= m')%positive).
Proof.
  unfold F64.leb, SFleb, SFcompare.
  destruct (Z.compare_spec e e') as [->|H|H]; [|auto|discriminate].
  change (Pos.compare_cont Eq m m') with (m ?= m')%positive.
  destruct (Pos.compare_spec m m') as [->|H|H]; [| |discriminate];
    intros _; right; split; lia.
Qed.

Lemma leb_neg_inv m e m' e' :
  F64.leb (S754_finite true m e) (S754_finite true m' e') = true ->
  e' < e \/ (e = e' /\ (m' <= m)%positive).
Proof.
  unfold F64.leb, SFleb, SFcompare.
  destruct (Z.compare_spec e e') as [->|H|H]; [|discriminate|auto].
  change (Pos.compare_cont Eq m m') with (m ?= m')%positive.
  destruct (Pos.compare_spec m m') as [->|H|H]; [|discriminate|];
    intros _; right; split; lia.
Qed.

Lemma leb_refl x : F64.is_nan x = false -> F64.leb x x = true.
Proof.
  destruct x as [[|]|[|]| |[|] m e]; try discriminate; intros _;
    try reflexivity.
  - apply leb_neg. right. split; [reflexivity | lia].
  - apply leb_pos. right. split; [reflexivity | lia].
Qed.

Lemma leb_trans x y z :
  F64.leb x y = true -> F64.leb y z = true -> F64.leb x z = true.
Proof.
  destruct x as [[|]|[|]| |[|] m1 e1];
  destruct y as [[|]|[|]| |[|] m2 e2]; try discriminate;
  destruct z as [[|]|[|]| |[|] m3 e3]; try discriminate;
    intros H1 H2; try reflexivity; try discriminate.
  - apply leb_neg_inv in H1, H2. apply leb_neg. lia.
  - apply leb_pos_inv in H1, H2. apply leb_pos. lia.
Qed.

(** Two floats that are numbers can be compared. *)
Lemma ltb_false_leb x y :
  F64.is_nan x = false -> F64.is_nan y = false ->
  F64.ltb x y = false -> F64.leb y x = true.
Proof.
  destruct x as [[|]|[|]| |[|] m1 e1]; try discriminate;
  destruct y as [[|]|[|]| |[|] m2 e2]; try discriminate;
    intros _ _ H; try reflexivity; try discriminate.
  - apply leb_neg. revert H. unfold F64.ltb, SFltb, SFcompare.
    destruct (Z.compare_spec e1 e2) as [->|H|H]; [|left; lia|discriminate].
    change (Pos.compare_cont Eq m1 m2) with (m1 ?= m2)%positive.
    destruct (Pos.compare_spec m1 m2) as [->|H|H]; [| |discriminate];
      intros _; right; split; lia.
  - apply leb_pos. revert H. unfold F64.ltb, SFltb, SFcompare.
    destruct (Z.compare_spec e1 e2) as [->|H|H]; [|discriminate|left; lia].
    change (Pos.compare_cont Eq m1 m2) with (m1 ?= m2)%positive.
    destruct (Pos.compare_spec m1 m2) as [->|H|H]; [|discriminate|];
      intros _; right; split; lia.
Qed.

Lemma ltb_leb x y : F64.ltb x y = true -> F64.leb x y = true.
Proof.
  unfold F64.ltb, F64.leb, SFltb, SFleb.
  destruct (SFcompare x y) as [[]|]; congruence.
Qed.

(** Rounding a mantissa with its location: the result, whatever the
    location says, is a mantissa of at most 53 bits or [2^53], packed at
    the exponent of the format or at the exponent given if it is larger. *)
Lemma binary_round_aux_pack sx mx ex lx :
  0 <= mx ->
  exists m2,
    0 <= m2 <= 2 ^ 53
    /\ binary_round_aux F64.prec F64.emax sx mx ex lx
       = pack sx m2 (Z.max ex (fexp (Zdigits2 mx + ex))).
Proof.
  intros Hmx. destruct (fexp_ge (Zdigits2 mx + ex)) as [HE HD].
  assert (Hdig : mx < 2 ^ Zdigits2 mx \/ mx = 0).
  { destruct mx as [|p|p]; [auto | left | lia]. apply digits_bounds. }
  assert (Hd0 : 0 <= Zdigits2 mx).
  { destruct mx as [|p|p]; simpl; lia. }
  unfold binary_round_aux, shr_fexp at 1.
  destruct (Z_le_gt_dec (fexp (Zdigits2 mx + ex) - ex) 0) as [Hn|Hn].
  - rewrite shr_nonpos by assumption. rewrite shr_record_m.
    rewrite Z.max_l by lia.
    set (m2 := round_nearest_even mx
                 (loc_of_shr_record (shr_record_of_loc mx lx))).
    assert (Hm2 : 0 <= m2 <= 2 ^ 53).
    { assert (mx < 2 ^ 53).
      { destruct Hdig as [Hdig| ->]; [|lia].
        apply Z.lt_le_trans with (1 := Hdig).
        apply Z.pow_le_mono_r; lia. }
      unfold m2.
      destruct (round_nearest_even_cases mx
                  (loc_of_shr_record (shr_record_of_loc mx lx)))
        as [-> | ->]; lia. }
    exists m2. split; [assumption|]. apply finish; [assumption | lia].
  - destruct (shr_pos (shr_record_of_loc mx lx) ex
                (fexp (Zdigits2 mx + ex) - ex))
      as (r' & Hr & Hm); [lia | rewrite shr_record_m; assumption |].
    rewrite Hr. rewrite shr_record_m in Hm.
    replace (ex + (fexp (Zdigits2 mx + ex) - ex))
      with (fexp (Zdigits2 mx + ex)) by lia.
    rewrite Z.max_r by lia.
    set (m2 := round_nearest_even (shr_m r') (loc_of_shr_record r')).
    assert (Hm2 : 0 <= m2 <= 2 ^ 53).
    { assert (0 <= shr_m r' < 2 ^ 53).
      { rewrite Hm.
        split; [apply Z.div_pos; [lia|apply Z.pow_pos_nonneg; lia]|].
        apply Z.div_lt_upper_bound; [apply Z.pow_pos_nonneg; lia|].
        rewrite <- Z.pow_add_r by lia.
        destruct Hdig as [Hdig| ->]; [|apply Z.pow_pos_nonneg; lia].
        apply Z.lt_le_trans with (1 := Hdig).
        apply Z.pow_le_mono_r; lia. }
      unfold m2.
      destruct (round_nearest_even_cases (shr_m r') (loc_of_shr_record r'))
        as [-> | ->]; lia. }
    exists m2. split; [assumption|]. apply finish; [assumption | lia].
Qed.

Lemma pack_small m2 E :
  0 <= m2 <= 2 ^ 53 -> E <= 968 -> small (pack false m2 E) = true.
Proof.
  intros Hm HE. unfold pack. destruct m2 as [|q|q]; [reflexivity| |lia].
  destruct (Z.eqb_spec (Zpos q) (2 ^ 53)) as [Hq|Hq].
  - destruct (Z.leb_spec (E + 1) 971); [|lia].
    unfold small. apply Z.leb_le. simpl digits2_pos. lia.
  - destruct (Z.leb_spec E 971); [|lia].
    unfold small. apply Z.leb_le.
    assert (Zpos (digits2_pos q) <= 53) by (apply digits_le; lia). lia.
Qed.

(** The float of an integer between 0 and [2^1000] is small. *)
Lemma of_Z_small n : 0 <= n < 2 ^ 1000 -> small (F64.of_Z n) = true.
Proof.
  intros Hn. unfold F64.of_Z, binary_normalize.
  destruct n as [|p|p]; [reflexivity| |lia].
  destruct (binary_round_spec false p 0) as (m2 & Hm2 & ->).
  pose proof (scaled_bound p 0) as Hq.
  apply pack_small; [destruct Hm2; lia|].
  assert (Zpos (digits2_pos p) <= 1000) by (apply digits_le; lia).
  rewrite fexp_eq. lia.
Qed.

(** The float of a quotient of positive integers, the first below
    [2^900], is small. *)
Lemma of_quotient_small n d :
  0 < n < 2 ^ 900 -> 0 < d -> small (F64.of_quotient false n d) = true.
Proof.
  intros Hn Hd. unfold F64.of_quotient, SFdiv_core_binary.
  set (e' := Z.min (fexp (Zdigits2 n + 0 - (Zdigits2 d + 0))) (0 - 0)).
  assert (He' : e' <= 0) by (unfold e'; lia).
  set (m' := match 0 - 0 - e' with
             | 0 => n
             | Zpos _ => Z.shiftl n (0 - 0 - e')
             | Zneg _ => 0
             end).
  assert (Hm' : m' = n * 2 ^ (- e')).
  { unfold m'. replace (0 - 0 - e') with (- e') by lia.
    destruct (- e') as [|k|k] eqn:Hk; [lia| |lia].
    apply Z.shiftl_mul_pow2. lia. }
  destruct (Z.div_eucl m' d) as [q r] eqn:Hdiv.
  assert (Hq : q = m' / d) by (unfold Z.div; rewrite Hdiv; reflexivity).
  assert (Hq0 : 0 <= q).
  { rewrite Hq. apply Z.div_pos; [|lia]. rewrite Hm'.
    apply Z.mul_nonneg_nonneg; [lia | apply Z.pow_nonneg; lia]. }
  destruct (binary_round_aux_pack false q e' (new_location d r) Hq0)
    as (m2 & Hm2 & ->).
  apply pack_small; [assumption|].
  assert (Hdq : Zdigits2 q + e' <= 900).
  { destruct q as [|p|p]; [simpl; lia| |lia]. simpl Zdigits2.
    assert (Zpos p < 2 ^ (900 - e')); [|apply digits_le in H; lia].
    rewrite Hq. apply Z.le_lt_trans with m'.
    - apply Z.div_le_upper_bound; [lia|].
      assert (0 <= m') by (rewrite Hm'; apply Z.mul_nonneg_nonneg;
                           [lia | apply Z.pow_nonneg; lia]).
      nia.
    - rewrite Hm'. replace (900 - e') with (900 + - e') by lia.
      rewrite Z.pow_add_r by lia.
      apply Z.mul_lt_mono_pos_r; [apply Z.pow_pos_nonneg; lia | lia]. }
  rewrite fexp_eq. lia.
Qed.

End Round.

(** ** The matcher *)

Lemma match_many p pat s :
  Re.match_here (Re.Many p :: pat) s =
  match s with
  | c :: r =>
      if p c then
        match Re.match_here (Re.Many p :: pat) r with
        | Some (x :: ps, rest) => Some ((c :: x) :: ps, rest)
        | _ => Re.consume [] (Re.match_here pat s)
        end
      else Re.consume [] (Re.match_here pat s)
  | [] => Re.consume [] (Re.match_here pat s)
  end.
Proof. destruct s; reflexivity. Qed.

Lemma consume_some x m ps rest :
  Re.consume x m = Some (ps, rest) ->
  exists ps', m = Some (ps', rest) /\ ps = x :: ps'.
Proof.
  destruct m as [[ps' rest']|]; simpl; [|discriminate].
  intros H. injection H as <- <-. eauto.
Qed.

(** What the matcher returns is a way to cut the subject along the atoms
    of the pattern. *)
Lemma match_here_sound pat :
  forall s pieces rest,
    Re.match_here pat s = Some (pieces, rest) ->
    Forall2 atom_ok pat pieces /\ s = concat pieces ++ rest.
Proof.
  induction pat as [|a pat IH]; intros s pieces rest H.
  - injection H as <- <-. split; [constructor | reflexivity].
  - destruct a as [p|p| |].
    + destruct s as [|c r]; simpl in H; [discriminate|].
      destruct (p c) eqn:Hp; [|discriminate].
      apply consume_some in H as (ps' & H & ->).
      apply IH in H as [HF ->].
      split; [constructor; [exists c; auto | assumption] | reflexivity].
    + revert pieces rest H.
      induction s as [|c r IHs]; intros pieces rest H;
        rewrite match_many in H.
      * apply consume_some in H as (ps' & H & ->).
        apply IH in H as [HF Hs].
        split; [constructor; [reflexivity | assumption] | exact Hs].
      * assert (Hstop :
          Re.consume [] (Re.match_here pat (c :: r)) = Some (pieces, rest) ->
          Forall2 atom_ok (Re.Many p :: pat) pieces
          /\ c :: r = concat pieces ++ rest).
        { intros H'. apply consume_some in H' as (ps' & H' & ->).
          apply IH in H' as [HF Hs].
          split; [constructor; [reflexivity | assumption] | exact Hs]. }
        destruct (p c) eqn:Hp; [|auto].
        destruct (Re.match_here (Re.Many p :: pat) r)
          as [[[|x ps] rest']|] eqn:Hr; [auto| |auto].
        injection H as <- <-.
        destruct (IHs _ _ eq_refl) as [HF Hs].
        split; [|simpl; rewrite Hs; reflexivity].
        inversion HF as [|a' x' pat' ps' Hx HF']; subst.
        constructor; [|assumption]. simpl. rewrite Hp. exact Hx.
    + simpl in H. apply consume_some in H as (ps' & H & ->).
      apply IH in H as [HF Hs].
      split; [constructor; [reflexivity | assumption] | exact Hs].
    + simpl in H. apply consume_some in H as (ps' & H & ->).
      apply IH in H as [HF Hs].
      split; [constructor; [reflexivity | assumption] | exact Hs].
Qed.

Ltac invert_pieces :=
  repeat match goal with
  | H : Forall2 atom_ok (_ :: _) _ |- _ =>
      let Ha := fresh "Ha" in
      inversion H as [|? ? ? ? Ha ?]; clear H; subst;
      cbv beta iota delta [atom_ok] in Ha
  | H : Forall2 atom_ok [] _ |- _ => inversion H; clear H; subst
  | H : exists c, _ = [c] /\ _ |- _ =>
      let c := fresh "c" in
      let E := fresh "E" in
      destruct H as (c & -> & E)
  | H : (_ =? _)%char = true |- _ => apply Ascii.eqb_eq in H; subst
  end.

Lemma fullmatch_shape t :
  fullmatch SrtToJsx.timestamp t = true -> timestamp_shape t.
Proof.
  unfold fullmatch.
  destruct (Re.match_here SrtToJsx.timestamp t) as [[pieces rest]|] eqn:E;
    [|discriminate].
  destruct rest; [intros _|discriminate].
  apply match_here_sound in E as [HF ->].
  cbv [SrtToJsx.timestamp SrtToJsx.c SrtToJsx.d app map Py.lit
       list_ascii_of_string Re.chr] in HF.
  invert_pieces. simpl.
  constructor. repeat constructor; assumption.
Qed.

Lemma groups_shape line m :
  Re.rematch SrtToJsx.time_range line = Some m ->
  timestamp_shape (SrtToJsx.group m 1) /\ timestamp_shape (SrtToJsx.group m 2).
Proof.
  unfold Re.rematch.
  destruct (Re.match_here SrtToJsx.time_range line)
    as [[pieces rest]|] eqn:E; [|discriminate].
  intros H. injection H as <-.
  apply match_here_sound in E as [HF _].
  cbv [SrtToJsx.time_range SrtToJsx.timestamp SrtToJsx.c SrtToJsx.d
       SrtToJsx.s app map Py.lit list_ascii_of_string Re.chr] in HF |- *.
  invert_pieces.
  split; simpl; constructor; repeat constructor; assumption.
Qed.

(** ** Digits *)

Lemma isdecimal_in c : Py.isdecimal c = true -> In c digits10.
Proof.
  destruct c as [[] [] [] [] [] [] [] []]; intros H;
    try discriminate H; simpl; tauto.
Qed.

Lemma check_int_ok :
  forallb (fun a => forallb (fun b =>
    match PyNum.int_of_str [a; b] with
    | Ok n => (n =? two_digits a b)%Z
    | Raise _ => false
    end) digits10) digits10 = true.
Proof. vm_compute. reflexivity. Qed.

Ltac pick_digit H c Hc :=
  let H' := fresh in
  pose proof (proj1 (forallb_forall _ _) H c (isdecimal_in c Hc)) as H';
  cbv beta in H'; clear H; rename H' into H.

Lemma int_two_digits a b :
  Py.isdecimal a = true -> Py.isdecimal b = true ->
  PyNum.int_of_str [a; b] = Ok (two_digits a b).
Proof.
  intros Ha Hb. pose proof check_int_ok as H.
  pick_digit H a Ha. pick_digit H b Hb.
  destruct (PyNum.int_of_str [a; b]); [|discriminate].
  apply Z.eqb_eq in H. congruence.
Qed.

Lemma digit_facts c :
  Py.isdecimal c = true ->
  PyNum.numspace c = false
  /\ Ascii.eqb c PyNum.underscore = false
  /\ Ascii.eqb c (ascii_of_nat 45) = false
  /\ Ascii.eqb c (ascii_of_nat 43) = false
  /\ Ascii.eqb ","%char c = false
  /\ Ascii.eqb ":"%char c = false
  /\ (0 <= Py.digit_value c <= 9)%Z.
Proof.
  destruct c as [[] [] [] [] [] [] [] []]; intros H;
    try discriminate H; vm_compute; intuition congruence.
Qed.

(** ** Splitting and replacing at one character *)

Lemma startswith_one x c r : Py.startswith [x] (c :: r) = Ascii.eqb x c.
Proof. simpl. apply andb_true_r. Qed.

Lemma replace_char x new s :
  Py.replace [x] new s
  = flat_map (fun c => if Ascii.eqb x c then new else [c]) s.
Proof.
  unfold Py.replace. induction s as [|c r IH]; [reflexivity|].
  cbn [Py.replace_go flat_map]. rewrite startswith_one.
  change (length [x] - 1)%nat with 0%nat. rewrite IH.
  destruct (Ascii.eqb x c); reflexivity.
Qed.

Lemma split_char_cons x c r :
  Py.split [x] (c :: r)
  = if Ascii.eqb x c then [] :: Py.split [x] r
    else Py.push c (Py.split [x] r).
Proof.
  unfold Py.split. cbn [Py.split_go]. rewrite startswith_one. reflexivity.
Qed.

Lemma split_no_sep x a :
  forallb (fun c => negb (Ascii.eqb x c)) a = true -> Py.split [x] a = [a].
Proof.
  induction a as [|c r IH]; [reflexivity|]. cbn [forallb]. intros H.
  apply andb_prop in H as [Hc Hr]. apply negb_true_iff in Hc.
  rewrite split_char_cons, Hc, IH by assumption. reflexivity.
Qed.

Lemma split_at_sep x a b :
  forallb (fun c => negb (Ascii.eqb x c)) a = true ->
  Py.split [x] (a ++ x :: b) = a :: Py.split [x] b.
Proof.
  induction a as [|c r IH]; cbn [forallb app]; intros H.
  - rewrite split_char_cons, Ascii.eqb_refl. reflexivity.
  - apply andb_prop in H as [Hc Hr]. apply negb_true_iff in Hc.
    rewrite split_char_cons, Hc, IH by assumption. reflexivity.
Qed.

Ltac digits_facts :=
  repeat match goal with
  | H : Forall _ (_ :: _) |- _ =>
      let Hd := fresh "Hd" in
      inversion H as [|? ? Hd ?]; clear H; subst;
      pose proof (digit_facts _ Hd) as (? & ? & ? & ? & ? & ? & ?)
  | H : Forall _ [] |- _ => clear H
  end.

(** The three fields of a timestamp. *)
Lemma stamp_fields h1 h2 m1 m2 s1 s2 f1 f2 f3 :
  Forall (fun c => Py.isdecimal c = true)
    [h1; h2; m1; m2; s1; s2; f1; f2; f3] ->
  Py.split (Py.lit ":") (Py.replace (Py.lit ",") (Py.lit ".")
                           (stamp h1 h2 m1 m2 s1 s2 f1 f2 f3))
  = [[h1; h2]; [m1; m2]; [s1; s2; "."%char; f1; f2; f3]].
Proof.
  intros HF. digits_facts.
  change (Py.lit ":") with [":"%char].
  change (Py.lit ",") with [","%char].
  change (Py.lit ".") with ["."%char].
  rewrite replace_char. unfold stamp. cbn [flat_map app].
  repeat match goal with
  | H : Ascii.eqb ","%char _ = false |- _ => rewrite H; clear H
  end.
  change (Ascii.eqb ","%char ":"%char) with false.
  change (Ascii.eqb ","%char ","%char) with true.
  cbn [app].
  change [h1; h2; ":"%char; m1; m2; ":"%char; s1; s2; "."%char; f1; f2; f3]
    with ([h1; h2] ++ ":"%char :: [m1; m2] ++ ":"%char
                   :: [s1; s2; "."%char; f1; f2; f3]).
  rewrite split_at_sep, split_at_sep, split_no_sep;
    [reflexivity | | | ]; cbn [forallb];
    repeat match goal with
    | H : Ascii.eqb ":"%char _ = false |- _ => rewrite H; clear H
    end; reflexivity.
Qed.

Ltac facts :=
  repeat match goal with
  | H : ?x = _ |- context [?x] => rewrite H
  end.

Lemma ieq_length word s :
  length s <> length (Py.lit word) -> PyNum.ieq word s = false.
Proof.
  intros H. unfold PyNum.ieq.
  destruct (list_eq_dec ascii_dec (map PyNum.lower s) (Py.lit word))
    as [E|E]; [|reflexivity].
  exfalso. apply H. rewrite <- E, length_map. reflexivity.
Qed.

(** The seconds field [ab.cde] of a timestamp as a float. *)
Lemma float_seconds a b c d e :
  Forall (fun c => Py.isdecimal c = true) [a; b; c; d; e] ->
  PyNum.float_of_str [a; b; "."%char; c; d; e]
  = Ok (F64.of_decimal false (millis a b c d e) (-3)).
Proof.
  intros HF. digits_facts.
  unfold PyNum.float_of_str.
  assert (Ht : PyNum.trim [a; b; "."%char; c; d; e]
               = [a; b; "."%char; c; d; e]).
  { unfold PyNum.trim. cbn [PyNum.lskip]. facts.
    cbn [rev app PyNum.lskip]. facts. reflexivity. }
  rewrite Ht.
  assert (Hu : PyNum.drop_underscores [a; b; "."%char; c; d; e]
               = [a; b; "."%char; c; d; e]).
  { unfold PyNum.drop_underscores. cbn [filter]. facts. reflexivity. }
  rewrite Hu.
  assert (Ho : PyNum.underscores_ok false [a; b; "."%char; c; d; e] = true).
  { cbn [PyNum.underscores_ok]. facts. reflexivity. }
  rewrite Ho.
  unfold PyNum.take_sign. facts.
  unfold PyNum.unsigned_float.
  rewrite !ieq_length by (simpl; lia).
  cbn [orb PyNum.span_digits]. facts.
  cbn [PyNum.span_digits]. facts.
  cbn [PyNum.span_digits].
  change (Py.isdecimal "."%char) with false. cbv iota.
  change (Ascii.eqb "."%char (ascii_of_nat 46)) with true. cbv iota.
  cbn [PyNum.span_digits]. facts.
  cbn [PyNum.span_digits]. facts.
  cbn [PyNum.span_digits]. facts.
  cbn [PyNum.span_digits Nat.add PyNum.exponent].
  do 2 f_equal; unfold millis; cbn [Z.of_nat]; lia.
Qed.

(** ** The conversion of a timestamp *)

Lemma float_of_int_small n :
  small (F64.of_Z n) = true -> PyNum.float_of_int n = Ok (F64.of_Z n).
Proof.
  unfold PyNum.float_of_int.
  destruct (F64.of_Z n) as [s|s| |s m e]; try reflexivity. discriminate.
Qed.

Lemma small_finite_nonneg x : small x = true -> finite_nonneg x = true.
Proof.
  destruct x as [[|]|[|]| |[|] m e]; try discriminate; reflexivity.
Qed.

Lemma whole_range h1 h2 m1 m2 :
  Forall (fun c => Py.isdecimal c = true) [h1; h2; m1; m2] ->
  0 <= whole_seconds h1 h2 m1 m2 <= 362340.
Proof.
  intros HF. digits_facts. unfold whole_seconds, two_digits. lia.
Qed.

Lemma millis_range a b c d e :
  Forall (fun c => Py.isdecimal c = true) [a; b; c; d; e] ->
  0 <= millis a b c d e <= 99999.
Proof.
  intros HF. digits_facts. unfold millis. lia.
Qed.

Lemma whole_small h1 h2 m1 m2 :
  Forall (fun c => Py.isdecimal c = true) [h1; h2; m1; m2] ->
  small (F64.of_Z (whole_seconds h1 h2 m1 m2)) = true.
Proof.
  intros HF. apply whole_range in HF. apply Round.of_Z_small.
  split; [lia|]. apply Z.le_lt_trans with (2 ^ 20); [lia|].
  apply Z.pow_lt_mono_r; lia.
Qed.

Lemma seconds_small a b c d e :
  Forall (fun c => Py.isdecimal c = true) [a; b; c; d; e] ->
  small (F64.of_decimal false (millis a b c d e) (-3)) = true.
Proof.
  intros HF. apply millis_range in HF. unfold F64.of_decimal.
  destruct (millis a b c d e) as [|p|p]; [reflexivity| |lia].
  change (0 <=? -3) with false. cbv iota.
  apply Round.of_quotient_small; [|reflexivity].
  split; [lia|]. apply Z.le_lt_trans with (2 ^ 20); [lia|].
  apply Z.pow_lt_mono_r; lia.
Qed.

Lemma Forall_sub {A} (P : A -> Prop) (l l' : list A) :
  incl l' l -> Forall P l -> Forall P l'.
Proof.
  intros Hi HF. apply Forall_forall. intros x Hx.
  apply (proj1 (Forall_forall P l) HF). apply Hi. exact Hx.
Qed.

Ltac sub_digits HF :=
  refine (Forall_sub _ _ _ _ HF);
  intros ? ?; simpl in *; tauto.

(** The value of a timestamp: the float of the whole seconds plus the
    float nearest to the seconds with their thousandths. *)
Lemma parse_stamp h1 h2 m1 m2 s1 s2 f1 f2 f3 :
  Forall (fun c => Py.isdecimal c = true)
    [h1; h2; m1; m2; s1; s2; f1; f2; f3] ->
  SrtToJsx.parse_srt_time (stamp h1 h2 m1 m2 s1 s2 f1 f2 f3)
  = Ok (F64.add (F64.of_Z (whole_seconds h1 h2 m1 m2))
          (F64.of_decimal false (millis s1 s2 f1 f2 f3) (-3))).
Proof.
  intros HF. unfold SrtToJsx.parse_srt_time.
  rewrite (stamp_fields _ _ _ _ _ _ _ _ _ HF).
  assert (H4 : Forall (fun c => Py.isdecimal c = true) [h1; h2; m1; m2])
    by sub_digits HF.
  assert (H5 : Forall (fun c => Py.isdecimal c = true) [s1; s2; f1; f2; f3])
    by sub_digits HF.
  cbn [Py.index nth_error bind].
  rewrite (float_seconds _ _ _ _ _ H5).
  pose proof (whole_small _ _ _ _ H4) as Hw.
  digits_facts.
  rewrite !int_two_digits by assumption.
  cbn [bind]. fold (whole_seconds h1 h2 m1 m2).
  rewrite (float_of_int_small _ Hw). reflexivity.
Qed.

Lemma stamp_finite_nonneg h1 h2 m1 m2 s1 s2 f1 f2 f3 :
  Forall (fun c => Py.isdecimal c = true)
    [h1; h2; m1; m2; s1; s2; f1; f2; f3] ->
  finite_nonneg
    (F64.add (F64.of_Z (whole_seconds h1 h2 m1 m2))
       (F64.of_decimal false (millis s1 s2 f1 f2 f3) (-3))) = true.
Proof.
  intros HF. apply Round.add_small.
  - apply whole_small. sub_digits HF.
  - apply seconds_small. sub_digits HF.
Qed.

(** A string of the shape of a timestamp converts, to a finite time that
    is not negative. *)
Lemma shape_converts t :
  timestamp_shape t ->
  exists x, SrtToJsx.parse_srt_time t = Ok x /\ finite_nonneg x = true.
Proof.
  intros [h1 h2 m1 m2 s1 s2 f1 f2 f3 HF].
  eexists. split; [apply parse_stamp | apply stamp_finite_nonneg]; exact HF.
Qed.

Lemma parse_srt_time_same time_str :
  SrtToJsxConverter.parse_srt_time time_str
  = SrtToJsx.parse_srt_time time_str.
Proof. reflexivity. Qed.

(** ** The parser of [srt_to_jsx.py] *)

Lemma index_nth {A} (l : list A) (i : nat) (d : A) :
  (i < length l)%nat -> Py.index l i = Ok (nth i l d).
Proof.
  intros H. unfold Py.index.
  rewrite (nth_error_nth' l d H). reflexivity.
Qed.

Lemma A_parse_lines_acc acc lines :
  SrtToJsx.parse_lines acc lines
  = match SrtToJsx.parse_lines [] lines with
    | Ok l => Ok (acc ++ l)
    | Raise e => Raise e
    end.
Proof.
  unfold SrtToJsx.parse_lines.
  destruct (3 <=? length lines)%nat; [|rewrite app_nil_r; reflexivity].
  destruct (Py.index lines 1) as [time_line|]; [|reflexivity]. cbn [bind].
  destruct (Re.rematch SrtToJsx.time_range time_line) as [m|];
    [|rewrite app_nil_r; reflexivity].
  destruct (SrtToJsx.parse_srt_time (SrtToJsx.group m 1)); [|reflexivity].
  cbn [bind].
  destruct (SrtToJsx.parse_srt_time (SrtToJsx.group m 2)); reflexivity.
Qed.

(** A block is skipped or makes one record with proper times; it never
    raises. *)
Lemma A_parse_lines_total lines :
  if accepted lines
  then exists sub, SrtToJsx.parse_lines [] lines = Ok [sub] /\ times_ok sub
  else SrtToJsx.parse_lines [] lines = Ok [].
Proof.
  unfold accepted, SrtToJsx.parse_lines.
  destruct (Nat.leb_spec 3 (length lines)) as [Hlen|Hlen]; [|reflexivity].
  rewrite (index_nth lines 1 []) by lia. cbn [andb bind].
  destruct (Re.rematch SrtToJsx.time_range (nth 1 lines [])) as [m|] eqn:Hm;
    [|reflexivity].
  apply groups_shape in Hm as [H1 H2].
  apply shape_converts in H1 as (x1 & -> & Hx1).
  apply shape_converts in H2 as (x2 & -> & Hx2).
  cbn [bind app]. eexists. split; [reflexivity|]. split; assumption.
Qed.

Lemma A_parse_block_acc acc block :
  SrtToJsx.parse_block acc block = Ok (acc ++ records_of block).
Proof.
  unfold records_of, SrtToJsx.parse_block.
  rewrite A_parse_lines_acc.
  pose proof (A_parse_lines_total (SrtToJsx.block_lines block)) as H.
  destruct (accepted (SrtToJsx.block_lines block)).
  - destruct H as (sub & -> & _). reflexivity.
  - rewrite H. reflexivity.
Qed.

Lemma A_for_each blocks : forall acc,
  for_each SrtToJsx.parse_block blocks acc
  = Ok (acc ++ flat_map records_of blocks).
Proof.
  induction blocks as [|b bs IH]; intros acc; cbn [for_each flat_map].
  - rewrite app_nil_r. reflexivity.
  - rewrite A_parse_block_acc. cbn [bind]. rewrite IH, app_assoc.
    reflexivity.
Qed.

Lemma records_of_cases block :
  if well_formed block
  then exists sub, records_of block = [sub]
                   /\ SrtToJsx.parse_block [] block = Ok [sub]
                   /\ times_ok sub
  else records_of block = [] /\ SrtToJsx.parse_block [] block = Ok [].
Proof.
  unfold well_formed, records_of, SrtToJsx.parse_block.
  pose proof (A_parse_lines_total (SrtToJsx.block_lines block)) as H.
  destruct (accepted (SrtToJsx.block_lines block)).
  - destruct H as (sub & -> & Ht). eauto.
  - rewrite H. auto.
Qed.

Lemma records_match bs :
  Forall2 (fun block sub => SrtToJsx.parse_block [] block = Ok [sub])
    (filter well_formed bs) (flat_map records_of bs).
Proof.
  induction bs as [|b bs IH]; cbn [filter flat_map]; [constructor|].
  pose proof (records_of_cases b) as H.
  destruct (well_formed b).
  - destruct H as (sub & -> & Hb & _). constructor; assumption.
  - destruct H as [-> _]. exact IH.
Qed.

Lemma records_times bs : Forall times_ok (flat_map records_of bs).
Proof.
  induction bs as [|b bs IH]; cbn [flat_map]; [constructor|].
  pose proof (records_of_cases b) as H.
  destruct (well_formed b).
  - destruct H as (sub & -> & _ & Ht). constructor; assumption.
  - destruct H as [-> _]. exact IH.
Qed.

Lemma A_parse_srt_text content :
  SrtToJsx.parse_srt_text content = Ok (flat_map records_of (blocks content)).
Proof. unfold SrtToJsx.parse_srt_text. apply A_for_each. Qed.

(** ** The parser of [srt_to_jsx_converter.py] *)

Lemma B_parse_lines_acc acc lines :
  SrtToJsxConverter.parse_lines acc lines
  = match SrtToJsxConverter.parse_lines [] lines with
    | Ok l => Ok (acc ++ l)
    | Raise e => Raise e
    end.
Proof.
  unfold SrtToJsxConverter.parse_lines.
  destruct (3 <=? length lines)%nat; [|rewrite app_nil_r; reflexivity].
  destruct (Py.index lines 0) as [line1|]; [|reflexivity]. cbn [bind].
  destruct (Py.index lines 1) as [line2|]; [|reflexivity]. cbn [bind].
  destruct (Py.split (Py.lit " --> ") (Py.strip line2))
    as [|st [|en [|x parts]]]; try reflexivity.
  destruct (SrtToJsxConverter.parse_srt_time st); [|reflexivity].
  cbn [bind].
  destruct (SrtToJsxConverter.parse_srt_time en); reflexivity.
Qed.

(** ** The blocks of a document *)






(** ** The generators *)

Lemma A_entries count ics : forall acc,
  fold_left (SrtToJsx.add_entry count) ics acc
  = acc ++ concat (map (entry_line count) ics).
Proof.
  induction ics as [|[i sub] ics IH]; intros acc; cbn [fold_left map concat].
  - rewrite app_nil_r. reflexivity.
  - rewrite IH. unfold SrtToJsx.add_entry, entry_line. cbn [fst snd].
    destruct (Z.of_nat i <? Z.of_nat count - 1);
      repeat rewrite <- app_assoc; reflexivity.
Qed.

Lemma A_generate subtitles comp_name width height fps :
  SrtToJsx.generate_jsx subtitles comp_name width height fps
  = SrtToJsx.header comp_name width height fps
    ++ concat (map (entry_line (length subtitles)) (enumerate subtitles))
    ++ SrtToJsx.footer.
Proof.
  unfold SrtToJsx.generate_jsx. rewrite A_entries, app_assoc. reflexivity.
Qed.

Lemma B_layers w h ics :
  is_ok (PyNum.truediv w 2) = true ->
  forall acc,
  exists layers,
    Forall2 (fun ic layer =>
               SrtToJsxConverter.layer (fst ic) (snd ic) w h = Ok layer)
      ics layers
    /\ for_each (SrtToJsxConverter.add_layer w h) ics acc
       = Ok (acc ++ concat layers).
Proof.
  intros Hw. induction ics as [|[i cap] ics IH]; intros acc.
  - exists []. split; [constructor|]. cbn. rewrite app_nil_r. reflexivity.
  - cbn [for_each SrtToJsxConverter.add_layer].
    destruct (SrtToJsxConverter.layer i cap w h) as [layer|e] eqn:Hl.
    + cbn [bind]. destruct (IH (acc ++ layer)) as (layers & HF & ->).
      exists (layer :: layers). split; [constructor; assumption|].
      cbn [concat]. rewrite app_assoc. reflexivity.
    + unfold SrtToJsxConverter.layer in Hl.
      destruct (PyNum.truediv w 2); discriminate.
Qed.

Lemma max_nonempty x rest :
  exists latest, PyNum.max (x :: rest) = Ok latest /\ In latest (x :: rest).
Proof.
  unfold PyNum.max. eexists. split; [reflexivity|].
  revert x. induction rest as [|y rest IH]; intros x; cbn [fold_left].
  - left. reflexivity.
  - destruct (F64.ltb x y).
    + right. apply IH.
    + destruct (IH x) as [H|H]; [left; exact H | right; right; exact H].
Qed.

(** [max] returns an item no item exceeds, when they all are numbers. *)
Lemma max_ge l latest :
  Forall (fun x => F64.is_nan x = false) l ->
  PyNum.max l = Ok latest ->
  Forall (fun x => F64.leb x latest = true) l.
Proof.
  destruct l as [|x rest]; [discriminate|].
  unfold PyNum.max. intros HF H. injection H as <-.
  assert (Hgen : forall rest x,
            F64.is_nan x = false ->
            Forall (fun y => F64.is_nan y = false) rest ->
            let m := fold_left
                       (fun m item => if F64.ltb m item then item else m)
                       rest x in
            F64.leb x m = true
            /\ Forall (fun y => F64.leb y m = true) rest).
  { clear. induction rest as [|y rest IH]; intros x Hx HF; cbn [fold_left].
    - split; [apply Round.leb_refl; assumption | constructor].
    - inversion HF as [|? ? Hy HF']; subst.
      destruct (F64.ltb x y) eqn:Hlt.
      + destruct (IH y Hy HF') as [H1 H2].
        split; [|constructor; assumption].
        apply Round.leb_trans with y; [apply Round.ltb_leb|]; assumption.
      + destruct (IH x Hx HF') as [H1 H2].
        split; [assumption|]. constructor; [|assumption].
        apply Round.leb_trans with x; [|assumption].
        apply Round.ltb_false_leb; assumption. }
  inversion HF as [|? ? Hx HF']; subst.
  destruct (Hgen rest x Hx HF') as [H1 H2].
  constructor; assumption.
Qed.

(** ** Text kept as it is *)

Lemma substring_refl x : substring x x.
Proof. exists [], []. rewrite app_nil_r. reflexivity. Qed.

Lemma substring_trans x y z : substring x y -> substring y z -> substring x z.
Proof.
  intros (a & b & ->) (c & d & ->). exists (c ++ a), (b ++ d).
  repeat rewrite <- app_assoc. reflexivity.
Qed.

Lemma lstrip_suffix s : exists pre, s = pre ++ Py.lstrip s.
Proof.
  induction s as [|c r [pre IH]]; [exists []; reflexivity|].
  cbn [Py.lstrip]. destruct (Py.isspace c).
  - exists (c :: pre). cbn [app]. f_equal. exact IH.
  - exists []. reflexivity.
Qed.

Lemma rstrip_prefix s : exists post, s = Py.rstrip s ++ post.
Proof.
  unfold Py.rstrip. destruct (lstrip_suffix (rev s)) as [pre H].
  exists (rev pre). rewrite <- rev_app_distr, <- H, rev_involutive.
  reflexivity.
Qed.

Lemma strip_substring s : substring (Py.strip s) s.
Proof.
  unfold Py.strip. destruct (lstrip_suffix s) as [pre H].
  destruct (rstrip_prefix (Py.lstrip s)) as [post H'].
  exists pre, post. rewrite <- H'. exact H.
Qed.

Lemma split_char_nonempty x s : Py.split [x] s <> [].
Proof.
  induction s as [|c r IH]; [discriminate|]. rewrite split_char_cons.
  destruct (Ascii.eqb x c); [discriminate|].
  destruct (Py.split [x] r); [contradiction | discriminate].
Qed.

(** A text without the separator is one field; otherwise the first field
    ends at the first separator and the rest is split in turn. *)
Lemma split_decompose x s :
  Py.split [x] s = [s]
  \/ exists a s', s = a ++ x :: s' /\ Py.split [x] s = a :: Py.split [x] s'.
Proof.
  induction s as [|c r IH]; [left; reflexivity|].
  rewrite split_char_cons. destruct (Ascii.eqb x c) eqn:Hc.
  - right. apply Ascii.eqb_eq in Hc. subst c. exists [], r. split; reflexivity.
  - destruct IH as [-> | (a & s' & -> & ->)].
    + left. reflexivity.
    + right. exists (c :: a), s'. split; reflexivity.
Qed.

Lemma join_cons sep p rest :
  rest <> [] -> Py.join sep (p :: rest) = p ++ sep ++ Py.join sep rest.
Proof. destruct rest; [contradiction | reflexivity]. Qed.

(** The fields from the [k]-th on, joined again, are the end of the
    text. *)
Lemma join_skipn_suffix x k : forall s,
  exists pre, s = pre ++ Py.join [x] (skipn k (Py.split [x] s)).
Proof.
  induction k as [|k IH]; intros s.
  - exists []. cbn [skipn app].
    assert (Hj : forall n s, length s = n -> Py.join [x] (Py.split [x] s) = s).
    { clear. induction n as [n IHn] using lt_wf_ind. intros s Hn.
      destruct (split_decompose x s) as [-> | (a & s' & -> & ->)];
        [reflexivity|].
      rewrite join_cons by apply split_char_nonempty.
      rewrite (IHn (length s')); [reflexivity| |reflexivity].
      rewrite length_app in Hn. simpl in Hn. lia. }
    symmetry. apply (Hj (length s)). reflexivity.
  - destruct (split_decompose x s) as [-> | (a & s' & -> & ->)].
    + exists s. cbn [skipn]. rewrite skipn_nil. cbn [Py.join].
      rewrite app_nil_r. reflexivity.
    + cbn [skipn]. destruct (IH s') as [pre H]. exists (a ++ x :: pre).
      rewrite <- app_assoc. cbn [app]. rewrite <- H. reflexivity.
Qed.

(** The text of a cue from its third line on, stripped, stands in the
    block as it is. *)
Lemma cue_text_verbatim block :
  substring
    (Py.strip (Py.join [Py.nl]
                 (skipn 2 (SrtToJsxConverter.block_lines block))))
    block.
Proof.
  unfold SrtToJsxConverter.block_lines.
  destruct (join_skipn_suffix Py.nl 2 (Py.strip block)) as [pre H].
  apply substring_trans with (Py.strip block); [|apply strip_substring].
  apply substring_trans
    with (Py.join [Py.nl] (skipn 2 (Py.split [Py.nl] (Py.strip block))));
    [apply strip_substring|].
  exists pre, []. rewrite app_nil_r. exact H.
Qed.

Lemma flat_map_flat_map {A B C} (f : B -> list C) (g : A -> list B) l :
  flat_map f (flat_map g l) = flat_map (fun a => flat_map f (g a)) l.
Proof.
  induction l as [|a l IH]; [reflexivity|].
  cbn [flat_map]. rewrite flat_map_app, IH. reflexivity.
Qed.

(** The two replacements of the generators, character by character. *)
Lemma escape_replace line_break t :
  Py.replace [Py.nl] [Py.backslash; line_break]
    (Py.replace [Py.dquote] [Py.backslash; Py.dquote] t)
  = flat_map (escape line_break) t.
Proof.
  rewrite !replace_char, flat_map_flat_map.
  apply flat_map_ext. intros c. unfold escape.
  destruct (Ascii.eqb Py.dquote c); [reflexivity|].
  cbn [flat_map]. rewrite app_nil_r. reflexivity.
Qed.

Lemma safe_text_escape t :
  SrtToJsxConverter.safe_text t = flat_map (escape "n"%char) t.
Proof. apply escape_replace. Qed.

(** The records of the two parsers. *)
Lemma B_parse_lines_record lines l :
  SrtToJsxConverter.parse_lines [] lines = Ok l ->
  l = []
  \/ exists x y,
       l = [{| SrtToJsxConverter.sequence := Py.strip (nth 0 lines []);
               SrtToJsxConverter.start := x;
               SrtToJsxConverter.end_ := y;
               SrtToJsxConverter.text :=
                 Py.strip (Py.join [Py.nl] (skipn 2 lines)) |}].
Proof.
  unfold SrtToJsxConverter.parse_lines.
  destruct (Nat.leb_spec 3 (length lines)) as [Hlen|Hlen].
  - rewrite (index_nth lines 0 []), (index_nth lines 1 []) by lia.
    cbn [bind].
    destruct (Py.split (Py.lit " --> ") (Py.strip (nth 1 lines [])))
      as [|st [|en [|z parts]]]; try discriminate.
    destruct (SrtToJsxConverter.parse_srt_time st) as [x|]; [|discriminate].
    cbn [bind].
    destruct (SrtToJsxConverter.parse_srt_time en) as [y|]; [|discriminate].
    cbn [bind app]. intros H. injection H as <-. right. eauto.
  - intros H. injection H as <-. left. reflexivity.
Qed.

Lemma A_parse_lines_record lines l :
  SrtToJsx.parse_lines [] lines = Ok l ->
  l = []
  \/ exists x y,
       l = [{| SrtToJsx.start := x;
               SrtToJsx.end_ := y;
               SrtToJsx.text :=
                 flat_map (escape "r"%char)
                   (Py.strip (Py.join (Py.lit " ") (skipn 2 lines))) |}].
Proof.
  unfold SrtToJsx.parse_lines.
  destruct (3 <=? length lines)%nat.
  - destruct (Py.index lines 1) as [time_line|]; [|discriminate].
    cbn [bind].
    destruct (Re.rematch SrtToJsx.time_range time_line) as [m|].
    + destruct (SrtToJsx.parse_srt_time (SrtToJsx.group m 1)) as [x|];
        [|discriminate].
      cbn [bind].
      destruct (SrtToJsx.parse_srt_time (SrtToJsx.group m 2)) as [y|];
        [|discriminate].
      cbn [bind app]. intros H. injection H as <-. right.
      exists x, y. rewrite <- escape_replace. reflexivity.
    + intros H. injection H as <-. left. reflexivity.
  - intros H. injection H as <-. left. reflexivity.
Qed.

Lemma unlines_cons a rest : unlines (a :: rest) = a ++ [Py.nl] ++ unlines rest.
Proof. unfold unlines. cbn [map concat]. rewrite <- app_assoc. reflexivity. Qed.

Lemma Ok_inj {A} (a b : A) : Ok a = Ok b -> a = b.
Proof. intros H. injection H as ->. reflexivity. Qed.

(** The statement of a layer that creates it with its text. *)
Lemma layer_text i cap w h layer :
  SrtToJsxConverter.layer i cap w h = Ok layer ->
  substring
    (Py.lit "comp.layers.addText(" ++ [Py.dquote]
     ++ flat_map (escape "n"%char) (SrtToJsxConverter.text cap)
     ++ [Py.dquote] ++ Py.lit ");")
    layer.
Proof.
  unfold SrtToJsxConverter.layer.
  destruct (PyNum.truediv w 2) as [half|]; [|discriminate].
  cbn [bind]. intros H. apply Ok_inj in H. subst layer.
  rewrite safe_text_escape.
  do 3 rewrite unlines_cons.
  match goal with
  | |- context [unlines ?r] => generalize (unlines r)
  end.
  intros tail.
  generalize (flat_map (escape "n"%char) (SrtToJsxConverter.text cap)).
  generalize (PyFmt.str_of_int (Z.of_nat i + 1)).
  generalize (SrtToJsxConverter.sequence cap).
  intros sequence n safe.
  replace (Py.lit " = comp.layers.addText(")
    with (Py.lit " = " ++ Py.lit "comp.layers.addText(") by reflexivity.
  exists ([] ++ [Py.nl]
          ++ (Py.lit "// Caption " ++ n ++ Py.lit ": " ++ sequence)
          ++ [Py.nl] ++ Py.lit "var textLayer" ++ n ++ Py.lit " = "),
         ([Py.nl] ++ tail).
  repeat rewrite <- app_assoc. reflexivity.
Qed.

(** ** White space and stripping *)

Lemma lstrip_blank (s : str) :
  forallb Py.isspace s = true -> Py.lstrip s = [].
Proof.
  induction s as [|c r IH]; simpl; [reflexivity|].
  intros H. apply andb_prop in H as [Hc Hr]. rewrite Hc. auto.
Qed.

Lemma strip_blank (s : str) :
  forallb Py.isspace s = true -> Py.strip s = [].
Proof.
  intros H. unfold Py.strip. rewrite (lstrip_blank s H). reflexivity.
Qed.

(** ** Floats of integers and the latest of the ends *)

Lemma float_of_int_cases n :
  PyNum.float_of_int n = Ok (F64.of_Z n)
  \/ PyNum.float_of_int n = Raise OverflowError.
Proof.
  unfold PyNum.float_of_int. destruct (F64.of_Z n); auto.
Qed.


(** ** Escaped text *)

Lemma escape_cases line_break c :
  (c = Py.dquote /\ escape line_break c = [Py.backslash; Py.dquote])
  \/ (c = Py.nl /\ escape line_break c = [Py.backslash; line_break])
  \/ (c <> Py.dquote /\ c <> Py.nl /\ escape line_break c = [c]).
Proof.
  unfold escape.
  destruct (Ascii.eqb_spec Py.dquote c) as [<-|Hq]; [auto|].
  destruct (Ascii.eqb_spec Py.nl c) as [<-|Hn]; [auto|].
  right. right. repeat split; congruence.
Qed.

Lemma escape_no_newline line_break t :
  line_break <> Py.nl -> ~ In Py.nl (flat_map (escape line_break) t).
Proof.
  intros Hl. induction t as [|c t IH]; [auto|].
  cbn [flat_map]. rewrite in_app_iff. intros [H|H]; [|auto].
  destruct (escape_cases line_break c)
    as [[_ E]|[[_ E]|(_ & Hn & E)]]; rewrite E in H; cbn [In] in H.
  - destruct H as [H|[H|[]]]; discriminate.
  - destruct H as [H|[H|[]]]; [discriminate | congruence].
  - destruct H as [H|[]]. congruence.
Qed.

Lemma escape_quotes line_break t :
  line_break <> Py.dquote -> quotes_escaped (flat_map (escape line_break) t).
Proof.
  intros Hl. induction t as [|c t IH]; intros pre post H.
  - destruct pre; discriminate.
  - cbn [flat_map] in H.
    destruct (escape_cases line_break c)
      as [[_ E]|[[_ E]|(Hq & _ & E)]]; rewrite E in H; cbn [app] in H.
    + destruct pre as [|a [|b pre]]; cbn [app] in H.
      * discriminate.
      * exists []. injection H as <- _. reflexivity.
      * injection H as <- <- H. destruct (IH _ _ H) as (pre' & ->).
        exists (Py.backslash :: Py.dquote :: pre'). reflexivity.
    + destruct pre as [|a [|b pre]]; cbn [app] in H.
      * discriminate.
      * injection H as _ H _. congruence.
      * injection H as <- <- H. destruct (IH _ _ H) as (pre' & ->).
        exists (Py.backslash :: line_break :: pre'). reflexivity.
    + destruct pre as [|a pre]; cbn [app] in H.
      * injection H as H _. congruence.
      * injection H as <- H. destruct (IH _ _ H) as (pre' & ->).
        exists (c :: pre'). reflexivity.
Qed.

Lemma escape_plain line_break t :
  forallb plain t = true -> flat_map (escape line_break) t = t.
Proof.
  induction t as [|c t IH]; [reflexivity|].
  cbn [forallb flat_map]. intros H. apply andb_prop in H as [Hc Ht].
  rewrite (IH Ht). unfold plain in Hc. apply andb_prop in Hc as [Hq Hn].
  unfold escape.
  destruct (Ascii.eqb Py.dquote c); [discriminate|].
  destruct (Ascii.eqb Py.nl c); [discriminate|]. reflexivity.
Qed.

(** ** Lines *)

Lemma push_no x c l :
  c <> x -> Forall (fun f => ~ In x f) l ->
  Forall (fun f => ~ In x f) (Py.push c l).
Proof.
  intros Hc H. destruct H as [|f fs Hf Hfs]; cbn [Py.push].
  - constructor; [|constructor]. intros [E|[]]. congruence.
  - constructor; [|assumption]. intros [E|E]; [congruence | auto].
Qed.

Lemma split_lines_no x s : Forall (fun f => ~ In x f) (Py.split [x] s).
Proof.
  induction s as [|c r IH].
  - constructor; [auto | constructor].
  - rewrite split_char_cons. destruct (Ascii.eqb_spec x c) as [E|E].
    + constructor; [auto | assumption].
    + apply push_no; [congruence | assumption].
Qed.

Lemma skipn_Forall {A} (P : A -> Prop) k : forall l,
  Forall P l -> Forall P (skipn k l).
Proof.
  induction k as [|k IH]; intros l H; [assumption|].
  destruct H; cbn [skipn]; [constructor | auto].
Qed.

Lemma join_no x sep l :
  ~ In x sep -> Forall (fun f => ~ In x f) l -> ~ In x (Py.join sep l).
Proof.
  intros Hs H. induction H as [|f fs Hf Hfs IH]; [auto|].
  destruct fs as [|g fs]; [assumption|].
  rewrite join_cons by discriminate. rewrite !in_app_iff. tauto.
Qed.

Lemma lstrip_incl x s : In x (Py.lstrip s) -> In x s.
Proof.
  destruct (lstrip_suffix s) as (pre & E). intros H. rewrite E.
  apply in_or_app. auto.
Qed.

Lemma strip_incl x s : In x (Py.strip s) -> In x s.
Proof.
  intros H. destruct (strip_substring s) as (pre & post & E). rewrite E.
  rewrite !in_app_iff. auto.
Qed.

Lemma escape_no_line_break line_break t :
  ~ In Py.nl t ->
  flat_map (escape line_break) t
  = Py.replace [Py.dquote] [Py.backslash; Py.dquote] t.
Proof.
  rewrite replace_char. induction t as [|c t IH]; [reflexivity|].
  intros H. cbn [flat_map]. rewrite IH by (intros H'; apply H; right; exact H').
  f_equal. unfold escape. destruct (Ascii.eqb Py.dquote c); [reflexivity|].
  destruct (Ascii.eqb_spec Py.nl c) as [E|E]; [|reflexivity].
  exfalso. apply H. left. congruence.
Qed.

Lemma A_raw_text_no_newline block :
  ~ In Py.nl (Py.strip (Py.join (Py.lit " ")
                          (skipn 2 (SrtToJsx.block_lines block)))).
Proof.
  intros H. apply strip_incl in H. revert H. apply join_no.
  - intros [E|[]]. discriminate.
  - apply skipn_Forall. apply split_lines_no.
Qed.

(** ** The array of [generate_jsx] *)

Lemma entry_lines_join count subtitles : forall k,
  (k + length subtitles = count)%nat ->
  concat (map (entry_line count) (combine (seq k (length subtitles)) subtitles))
  = Py.join (Py.lit "," ++ [Py.nl]) (map SrtToJsx.entry subtitles)
    ++ match subtitles with [] => [] | _ => [Py.nl] end.
Proof.
  induction subtitles as [|sub rest IH]; intros k Hk; [reflexivity|].
  cbn [length seq combine map concat]. cbn [length] in Hk.
  rewrite (IH (S k)) by lia. unfold entry_line at 1. cbn [fst snd].
  destruct rest as [|sub' rest].
  - cbn [length] in Hk. destruct (Z.ltb_spec (Z.of_nat k) (Z.of_nat count - 1));
      [lia|]. cbn [map Py.join]. rewrite !app_nil_r, app_nil_l. reflexivity.
  - cbn [length] in Hk. destruct (Z.ltb_spec (Z.of_nat k) (Z.of_nat count - 1));
      [|lia].
    change (map SrtToJsx.entry (sub :: sub' :: rest))
      with (SrtToJsx.entry sub :: map SrtToJsx.entry (sub' :: rest)).
    rewrite join_cons by discriminate.
    rewrite <- !app_assoc. reflexivity.
Qed.

(** ** The generator of [srt_to_jsx_converter.py] *)

Lemma of_quotient_finite neg n d :
  0 < n < 2 ^ 900 -> 0 < d ->
  F64.is_finite (F64.of_quotient neg n d) = true.
Proof.
  intros Hn Hd. unfold F64.of_quotient, SFdiv_core_binary.
  set (e' := Z.min (fexp (Zdigits2 n + 0 - (Zdigits2 d + 0))) (0 - 0)).
  assert (He' : e' <= 0) by (unfold e'; lia).
  set (m' := match 0 - 0 - e' with
             | 0 => n
             | Zpos _ => Z.shiftl n (0 - 0 - e')
             | Zneg _ => 0
             end).
  assert (Hm' : m' = n * 2 ^ (- e')).
  { unfold m'. replace (0 - 0 - e') with (- e') by lia.
    destruct (- e') as [|k|k] eqn:Hk; [lia| |lia].
    apply Z.shiftl_mul_pow2. lia. }
  destruct (Z.div_eucl m' d) as [q r] eqn:Hdiv.
  assert (Hq : q = m' / d) by (unfold Z.div; rewrite Hdiv; reflexivity).
  assert (Hm0 : 0 <= m').
  { rewrite Hm'. apply Z.mul_nonneg_nonneg; [lia | apply Z.pow_nonneg; lia]. }
  assert (Hq0 : 0 <= q) by (rewrite Hq; apply Z.div_pos; lia).
  destruct (Round.binary_round_aux_pack neg q e' (new_location d r) Hq0)
    as (m2 & Hm2 & ->).
  apply Round.pack_finite; [lia|].
  assert (Hdq : Zdigits2 q + e' <= 900).
  { destruct q as [|p|p]; [simpl; lia| |lia]. simpl Zdigits2.
    assert (Zpos p < 2 ^ (900 - e')); [|apply Round.digits_le in H; lia].
    rewrite Hq. apply Z.le_lt_trans with m'.
    - apply Z.div_le_upper_bound; [lia|]. nia.
    - rewrite Hm'. replace (900 - e') with (900 + - e') by lia.
      rewrite Z.pow_add_r by lia.
      apply Z.mul_lt_mono_pos_r; [apply Z.pow_pos_nonneg; lia | lia]. }
  rewrite Round.fexp_eq. lia.
Qed.

Lemma truediv_two_cases w :
  is_ok (PyNum.truediv w 2) = true
  \/ PyNum.truediv w 2 = Raise OverflowError.
Proof.
  unfold PyNum.truediv. cbn [Z.eqb].
  destruct w; [auto| |];
    match goal with
    | |- context [F64.of_quotient ?s ?n ?d] =>
        destruct (F64.of_quotient s n d); auto
    end.
Qed.

Lemma truediv_two_small w :
  - 2 ^ 900 < w < 2 ^ 900 -> is_ok (PyNum.truediv w 2) = true.
Proof.
  intros Hw. unfold PyNum.truediv. cbn [Z.eqb].
  destruct w as [|p|p]; [reflexivity| |].
  - pose proof (of_quotient_finite (xorb (Zpos p <? 0) (2 <? 0))
                  (Z.abs (Zpos p)) (Z.abs 2)) as H.
    destruct (F64.of_quotient _ _ _); try reflexivity.
    discriminate H; cbn [Z.abs]; lia.
  - pose proof (of_quotient_finite (xorb (Zneg p <? 0) (2 <? 0))
                  (Z.abs (Zneg p)) (Z.abs 2)) as H.
    destruct (F64.of_quotient _ _ _); try reflexivity.
    discriminate H; cbn [Z.abs]; lia.
Qed.

(** ** The conversions *)

Lemma records_none bs :
  flat_map records_of bs = [] <-> existsb well_formed bs = false.
Proof.
  induction bs as [|b bs IH]; [tauto|].
  cbn [flat_map existsb]. pose proof (records_of_cases b) as H.
  destruct (well_formed b).
  - destruct H as (sub & -> & _). cbn [orb app]. split; discriminate.
  - destruct H as [-> _]. cbn [orb app]. exact IH.
Qed.

Lemma A_convert_found fs srt_path jsx_path content :
  Os.lookup fs srt_path = Some content ->
  SrtToJsx.convert_srt_to_jsx fs srt_path jsx_path
  = let out := captions_path srt_path jsx_path in
    let subtitles := flat_map records_of (blocks content) in
    let said := [SrtToJsx.SayConverting; SrtToJsx.SayInput srt_path;
                 SrtToJsx.SayOutput out;
                 SrtToJsx.SayFound (length subtitles)] in
    if existsb well_formed (blocks content)
    then (true, said ++ [SrtToJsx.SayComplete out],
          Os.write fs out
            (SrtToJsx.generate_jsx subtitles SrtToJsx.default_comp_name
               SrtToJsx.default_width SrtToJsx.default_height
               SrtToJsx.default_fps))
    else (false, said ++ [SrtToJsx.SayNoValid], fs).
Proof.
  intros Hf. unfold SrtToJsx.convert_srt_to_jsx, SrtToJsx.parse_srt_file,
    Os.exists_, Os.read. rewrite Hf. cbn [negb bind].
  rewrite A_parse_srt_text. cbv zeta. fold (captions_path srt_path jsx_path).
  pose proof (records_none (blocks content)) as Hn.
  destruct (flat_map records_of (blocks content)) as [|sub subs].
  - rewrite (proj1 Hn eq_refl). reflexivity.
  - destruct (existsb well_formed (blocks content)); [reflexivity|].
    destruct Hn as [_ Hn]. discriminate (Hn eq_refl).
Qed.

Lemma A_convert_missing fs srt_path jsx_path :
  Os.lookup fs srt_path = None ->
  SrtToJsx.convert_srt_to_jsx fs srt_path jsx_path
  = (false, [SrtToJsx.SayNotFound srt_path], fs).
Proof.
  intros Hf. unfold SrtToJsx.convert_srt_to_jsx, Os.exists_. rewrite Hf.
  reflexivity.
Qed.

Lemma str_eqb_eq a b : Os.str_eqb a b = true <-> a = b.
Proof.
  unfold Os.str_eqb. destruct (list_eq_dec ascii_dec a b); split;
    congruence.
Qed.

Lemma lookup_write_same fs path text :
  Os.lookup (Os.write fs path text) path = Some text.
Proof.
  unfold Os.write. cbn [Os.lookup].
  destruct (Os.str_eqb path path) eqn:E; [reflexivity|].
  assert (Os.str_eqb path path = true) by (apply str_eqb_eq; reflexivity).
  congruence.
Qed.

Lemma B_parse_block_count acc block l :
  SrtToJsxConverter.parse_block acc block = Ok l ->
  length l = (length acc + if long_enough block then 1 else 0)%nat.
Proof.
  unfold SrtToJsxConverter.parse_block, long_enough.
  generalize (SrtToJsxConverter.block_lines block). intros lines.
  unfold SrtToJsxConverter.parse_lines.
  destruct (3 <=? length lines)%nat; [|intros H; apply Ok_inj in H; subst; lia].
  destruct (Py.index lines 0) as [line1|]; cbn [bind]; [|discriminate].
  destruct (Py.index lines 1) as [line2|]; cbn [bind]; [|discriminate].
  destruct (Py.split (Py.lit " --> ") (Py.strip line2))
    as [|a [|b [|c r]]]; try discriminate.
  destruct (SrtToJsxConverter.parse_srt_time a); cbn [bind]; [|discriminate].
  destruct (SrtToJsxConverter.parse_srt_time b); cbn [bind]; [|discriminate].
  intros H. apply Ok_inj in H. subst l. rewrite length_app. reflexivity.
Qed.


(** ** The paths of the scripts written *)

Lemma replace_absent old new s :
  occurs old s = false -> Py.replace old new s = s.
Proof.
  unfold Py.replace. induction s as [|c r IH]; [reflexivity|].
  cbn [occurs Py.replace_go]. intros H. apply orb_false_elim in H as [H1 H2].
  rewrite H1, (IH H2). reflexivity.
Qed.

Lemma srt_not_at_end c r :
  occurs (Py.lit ".srt") (c :: r) = false ->
  Py.startswith (Py.lit ".srt") (c :: r ++ Py.lit ".srt") = false.
Proof.
  cbn [occurs]. intros H. apply orb_false_elim in H as [H _].
  unfold Py.lit in *. cbn [list_ascii_of_string] in *.
  destruct r as [|x [|y [|z r]]]; cbn [app Py.startswith] in *.
  - destruct (Ascii.eqb "." c); reflexivity.
  - destruct (Ascii.eqb "." c); [|reflexivity].
    destruct (Ascii.eqb "s" x); reflexivity.
  - destruct (Ascii.eqb "." c); [|reflexivity].
    destruct (Ascii.eqb "s" x); [|reflexivity].
    destruct (Ascii.eqb "r" y); reflexivity.
  - exact H.
Qed.

Lemma replace_srt_suffix new stem :
  occurs (Py.lit ".srt") stem = false ->
  Py.replace (Py.lit ".srt") new (stem ++ Py.lit ".srt") = stem ++ new.
Proof.
  unfold Py.replace. induction stem as [|c r IH]; intros H.
  - cbn. apply app_nil_r.
  - pose proof (srt_not_at_end c r H) as Hs.
    change ((c :: r) ++ Py.lit ".srt") with (c :: r ++ Py.lit ".srt").
    cbn [Py.replace_go]. rewrite Hs.
    cbn [occurs] in H. apply orb_false_elim in H as [_ H].
    rewrite (IH H). reflexivity.
Qed.

Lemma after_last_none c s : has c s = false -> Os.after_last c s = s.
Proof.
  destruct s as [|a r]; [reflexivity|]. cbn [existsb Os.after_last].
  intros H. apply orb_false_elim in H as [Ha Hr]. rewrite Hr, Ha.
  reflexivity.
Qed.

Lemma has_app c a b : has c (a ++ b) = has c a || has c b.
Proof. apply existsb_app. Qed.

Lemma has_here c x : has c (c :: x) = true.
Proof. cbn [existsb]. rewrite Ascii.eqb_refl. reflexivity. Qed.

Lemma after_last_app c pre x :
  has c x = false -> Os.after_last c (pre ++ c :: x) = x.
Proof.
  intros Hx. induction pre as [|a pre IH].
  - cbn [app Os.after_last]. rewrite Hx, Ascii.eqb_refl. reflexivity.
  - cbn [app Os.after_last]. rewrite has_app, has_here, orb_true_r.
    exact IH.
Qed.

Lemma after_last_no c s : has c (Os.after_last c s) = false.
Proof.
  induction s as [|a r IH]; [reflexivity|]. cbn [Os.after_last].
  destruct (has c r) eqn:Hr; [exact IH|].
  destruct (Ascii.eqb c a) eqn:Ha; [exact Hr|].
  cbn [existsb]. rewrite Ha, Hr. reflexivity.
Qed.

Lemma after_last_split c s :
  has c s = true -> exists pre, s = pre ++ c :: Os.after_last c s.
Proof.
  induction s as [|a r IH]; [discriminate|]. cbn [existsb Os.after_last].
  intros H. destruct (has c r) eqn:Hr.
  - destruct (IH eq_refl) as (pre & E). exists (a :: pre).
    cbn [app]. f_equal. exact E.
  - rewrite orb_false_r in H. rewrite H. exists [].
    apply Ascii.eqb_eq in H. subst a. reflexivity.
Qed.

Lemma upto_last_none c s : has c s = false -> Os.upto_last c s = [].
Proof.
  intros H. unfold Os.upto_last. rewrite (after_last_none c s H).
  rewrite Nat.sub_diag. reflexivity.
Qed.

Lemma upto_last_app c pre x :
  has c x = false -> Os.upto_last c (pre ++ c :: x) = pre ++ [c].
Proof.
  intros H. unfold Os.upto_last. rewrite (after_last_app c pre x H).
  replace (pre ++ c :: x) with ((pre ++ [c]) ++ x)
    by (rewrite <- app_assoc; reflexivity).
  rewrite length_app.
  replace (length (pre ++ [c]) + length x - length x)%nat
    with (length (pre ++ [c]) + 0)%nat by lia.
  rewrite firstn_app_2. cbn [firstn]. apply app_nil_r.
Qed.

Lemma rstrip_chr_snoc c s : Os.rstrip_chr c (s ++ [c]) = Os.rstrip_chr c s.
Proof.
  induction s as [|a s IH].
  - cbn. rewrite Ascii.eqb_refl. reflexivity.
  - cbn [app Os.rstrip_chr]. rewrite IH. reflexivity.
Qed.

Lemma rstrip_chr_idem c s :
  Os.rstrip_chr c (Os.rstrip_chr c s) = Os.rstrip_chr c s.
Proof.
  induction s as [|a r IH]; [reflexivity|]. cbn [Os.rstrip_chr].
  destruct (Os.rstrip_chr c r) as [|b r'] eqn:Hr.
  - destruct (Ascii.eqb a c) eqn:Ha; [reflexivity|].
    cbn [Os.rstrip_chr]. rewrite Ha. reflexivity.
  - cbn [Os.rstrip_chr]. cbn [Os.rstrip_chr] in IH. rewrite IH.
    reflexivity.
Qed.

Lemma rstrip_chr_nil c s :
  Os.rstrip_chr c s = [] -> forallb (Ascii.eqb c) s = true.
Proof.
  induction s as [|a r IH]; [reflexivity|]. cbn [Os.rstrip_chr forallb].
  destruct (Os.rstrip_chr c r) as [|b r'].
  - destruct (Ascii.eqb a c) eqn:Ha; [|discriminate]. intros _.
    rewrite Ascii.eqb_sym, Ha. apply IH. reflexivity.
  - discriminate.
Qed.

Lemma rstrip_chr_mixed c s :
  forallb (Ascii.eqb c) s = false ->
  forallb (Ascii.eqb c) (Os.rstrip_chr c s) = false.
Proof.
  induction s as [|a r IH]; [discriminate|]. cbn [Os.rstrip_chr forallb].
  intros H. destruct (Os.rstrip_chr c r) as [|b r'] eqn:Hr.
  - rewrite (rstrip_chr_nil c r Hr), andb_true_r in H.
    rewrite Ascii.eqb_sym, H. cbn [forallb]. rewrite H. reflexivity.
  - cbn [forallb]. destruct (Ascii.eqb c a); [|reflexivity].
    cbn [andb] in H |- *. apply IH in H. exact H.
Qed.

Lemma rstrip_chr_last c s l t :
  rev (Os.rstrip_chr c s) = l :: t -> Ascii.eqb l c = false.
Proof.
  revert l t. induction s as [|a r IH]; intros l t; [discriminate|].
  cbn [Os.rstrip_chr]. destruct (Os.rstrip_chr c r) as [|b r'] eqn:Hr.
  - destruct (Ascii.eqb a c) eqn:Ha; [discriminate|].
    cbn. intros H. injection H as <- _. exact Ha.
  - change (rev (a :: b :: r')) with (rev (b :: r') ++ [a]).
    destruct (rev (b :: r')) as [|l' t'] eqn:Hrev.
    + apply (f_equal (@length ascii)) in Hrev. rewrite length_rev in Hrev.
      discriminate.
    + cbn [app]. intros H. injection H as <- _. apply (IH l' t' eq_refl).
Qed.

Lemma has_firstn c k s : has c s = false -> has c (firstn k s) = false.
Proof.
  revert k. induction s as [|a r IH]; intros [|k] H; try reflexivity.
  cbn [firstn existsb] in *. apply orb_false_elim in H as [Ha Hr].
  rewrite Ha, (IH k Hr). reflexivity.
Qed.

Lemma splitext_root_no_slash b :
  has Os.slash b = false -> has Os.slash (Os.splitext_root b) = false.
Proof.
  intros H. unfold Os.splitext_root.
  destruct (has Os.dot b); [|exact H].
  destruct (forallb _ _); [exact H|]. apply has_firstn. exact H.
Qed.

Lemma startswith_slash x :
  has Os.slash x = false -> Py.startswith [Os.slash] x = false.
Proof.
  destruct x as [|a r]; [reflexivity|]. cbn [existsb Py.startswith].
  intros H. apply orb_false_elim in H as [-> _]. reflexivity.
Qed.

Lemma forallb_snoc_slash pre :
  forallb (Ascii.eqb Os.slash) (pre ++ [Os.slash])
  = forallb (Ascii.eqb Os.slash) pre.
Proof. rewrite forallb_app. cbn. apply andb_true_r. Qed.

Lemma join_beside d x :
  has Os.slash x = false ->
  (d = []
   \/ (exists pre, d = pre ++ [Os.slash]
                   /\ forallb (Ascii.eqb Os.slash) pre = true)
   \/ (d = Os.rstrip_chr Os.slash d
       /\ forallb (Ascii.eqb Os.slash) d = false)) ->
  Os.basename (Os.join d x) = x /\ Os.dirname (Os.join d x) = d.
Proof.
  intros Hx Hd. unfold Os.join. rewrite (startswith_slash x Hx).
  destruct Hd as [-> | [(pre & -> & Hpre) | [Hfix Hmix]]].
  - cbn [rev]. unfold Os.basename, Os.dirname.
    rewrite (after_last_none _ _ Hx), (upto_last_none _ _ Hx).
    split; reflexivity.
  - rewrite rev_app_distr. cbn [rev app]. rewrite Ascii.eqb_refl.
    rewrite <- app_assoc. cbn [app]. unfold Os.basename, Os.dirname.
    rewrite (after_last_app _ pre x Hx), (upto_last_app _ pre x Hx).
    rewrite forallb_snoc_slash, Hpre. split; reflexivity.
  - destruct (rev d) as [|l t] eqn:Hrev.
    + apply (f_equal (@length ascii)) in Hrev. rewrite length_rev in Hrev.
      destruct d; discriminate.
    + rewrite Hfix in Hrev. rewrite (rstrip_chr_last _ _ _ _ Hrev).
      cbn [app]. unfold Os.basename, Os.dirname.
      rewrite (after_last_app _ d x Hx), (upto_last_app _ d x Hx).
      rewrite forallb_snoc_slash, Hmix, rstrip_chr_snoc.
      split; [reflexivity | symmetry; exact Hfix].
Qed.

Lemma dirname_cases p :
  Os.dirname p = []
  \/ (exists pre, Os.dirname p = pre ++ [Os.slash]
                  /\ forallb (Ascii.eqb Os.slash) pre = true)
  \/ (Os.dirname p = Os.rstrip_chr Os.slash (Os.dirname p)
      /\ forallb (Ascii.eqb Os.slash) (Os.dirname p) = false).
Proof.
  unfold Os.dirname. destruct (has Os.slash p) eqn:Hp.
  - destruct (after_last_split _ _ Hp) as (pre & E).
    pose proof (after_last_no Os.slash p) as Hb.
    pose proof (upto_last_app Os.slash pre _ Hb) as Hu.
    rewrite <- E in Hu. rewrite Hu.
    destruct (forallb (Ascii.eqb Os.slash) (pre ++ [Os.slash])) eqn:Hall.
    + right. left. exists pre. split; [reflexivity|].
      rewrite forallb_snoc_slash in Hall. exact Hall.
    + right. right. split; [symmetry; apply rstrip_chr_idem|].
      apply rstrip_chr_mixed. exact Hall.
  - rewrite (upto_last_none _ _ Hp). left. reflexivity.
Qed.

Lemma splitext_root_srt stem :
  stem <> [] -> has Os.dot stem = false ->
  Os.splitext_root (stem ++ Py.lit ".srt") = stem.
Proof.
  intros Hne Hd. unfold Os.splitext_root.
  rewrite has_app. replace (has Os.dot (Py.lit ".srt")) with true
    by reflexivity.
  rewrite orb_true_r.
  change (Py.lit ".srt") with (Os.dot :: Py.lit "srt").
  rewrite (upto_last_app Os.dot stem (Py.lit "srt") eq_refl).
  rewrite length_app. cbn [length].
  replace (length stem + 1 - 1)%nat with (length stem + 0)%nat by lia.
  rewrite firstn_app_2. cbn [firstn]. rewrite app_nil_r.
  destruct stem as [|a r]; [contradiction|].
  cbn [existsb] in Hd. apply orb_false_elim in Hd as [Ha _].
  cbn [forallb]. rewrite Ha. reflexivity.
Qed.

(** ** White space around the document *)

Lemma lstrip_app s t :
  Py.lstrip (s ++ t)
  = match Py.lstrip s with
    | [] => Py.lstrip t
    | l => l ++ t
    end.
Proof.
  induction s as [|c r IH]; [reflexivity|]. cbn [app Py.lstrip].
  destruct (Py.isspace c); [exact IH | reflexivity].
Qed.

Lemma forallb_rev {A} (f : A -> bool) l : forallb f (rev l) = forallb f l.
Proof.
  induction l as [|a l IH]; [reflexivity|]. cbn [rev forallb].
  rewrite forallb_app, IH. cbn [forallb]. rewrite andb_true_r.
  apply andb_comm.
Qed.

Lemma rstrip_app_blank s ws :
  forallb Py.isspace ws = true -> Py.rstrip (s ++ ws) = Py.rstrip s.
Proof.
  intros H. unfold Py.rstrip. rewrite rev_app_distr, lstrip_app.
  rewrite lstrip_blank by (rewrite forallb_rev; exact H). reflexivity.
Qed.

Lemma strip_around before content after :
  forallb Py.isspace before = true -> forallb Py.isspace after = true ->
  Py.strip (before ++ content ++ after) = Py.strip content.
Proof.
  intros Hb Ha. unfold Py.strip. rewrite lstrip_app, (lstrip_blank _ Hb).
  rewrite lstrip_app. destruct (Py.lstrip content) as [|c r].
  - rewrite (lstrip_blank _ Ha). reflexivity.
  - apply rstrip_app_blank. exact Ha.
Qed.

(** ** The timing line of [srt_to_jsx.py] *)

Lemma digit_not_space c : Py.isdecimal c = true -> Py.isspace c = false.
Proof.
  destruct c as [[] [] [] [] [] [] [] []]; intros H;
    try discriminate H; reflexivity.
Qed.

Lemma many_run p pat ws s ps rest :
  forallb p ws = true ->
  match s with [] => True | c :: _ => p c = false end ->
  Re.match_here pat s = Some (ps, rest) ->
  Re.match_here (Re.Many p :: pat) (ws ++ s) = Some (ws :: ps, rest).
Proof.
  intros Hws Hs Hm. induction ws as [|a ws IH].
  - cbn [app]. rewrite match_many. destruct s as [|c r].
    + rewrite Hm. reflexivity.
    + rewrite Hs, Hm. reflexivity.
  - cbn [forallb] in Hws. apply andb_prop in Hws as [Ha Hws].
    cbn [app]. rewrite match_many, Ha, (IH Hws). reflexivity.
Qed.

Lemma match_stamp pat h1 h2 m1 m2 s1 s2 f1 f2 f3 s ps rest :
  Forall (fun c => Py.isdecimal c = true)
    [h1; h2; m1; m2; s1; s2; f1; f2; f3] ->
  Re.match_here pat s = Some (ps, rest) ->
  Re.match_here (Re.GOpen :: SrtToJsx.timestamp ++ Re.GClose :: pat)
    (stamp h1 h2 m1 m2 s1 s2 f1 f2 f3 ++ s)
  = Some ([] :: [h1] :: [h2] :: [":"%char] :: [m1] :: [m2] :: [":"%char]
             :: [s1] :: [s2] :: [","%char] :: [f1] :: [f2] :: [f3] :: []
             :: ps, rest).
Proof.
  intros HF Hm.
  repeat match goal with
  | H : Forall _ (_ :: _) |- _ =>
      let Hd := fresh "Hd" in
      inversion H as [|? ? Hd ?]; clear H; subst
  | H : Forall _ [] |- _ => clear H
  end.
  cbv [SrtToJsx.timestamp SrtToJsx.c SrtToJsx.d app map Py.lit
       list_ascii_of_string Re.chr stamp].
  cbn [Re.match_here app].
  repeat match goal with
  | H : Py.isdecimal ?h = true |- _ => rewrite H; clear H
  end.
  rewrite !Ascii.eqb_refl, Hm. reflexivity.
Qed.

Lemma arrow_matches pat s ps rest :
  Re.match_here pat s = Some (ps, rest) ->
  Re.match_here (SrtToJsx.c "-->" ++ pat) (Py.lit "-->" ++ s)
  = Some (["-"%char] :: ["-"%char] :: [">"%char] :: ps, rest).
Proof.
  intros Hm.
  cbv [SrtToJsx.c app map Py.lit list_ascii_of_string Re.chr].
  cbn [Re.match_here]. rewrite !Ascii.eqb_refl, Hm. reflexivity.
Qed.

Lemma timing_line_matches line t1 t2 :
  timing_line line t1 t2 ->
  Re.rematch SrtToJsx.time_range line = Some [t1; t2].
Proof.
  intros [t1' ws1 ws2 t2' rest H1 H2 Hw1 Hw2].
  destruct H1 as [h1 h2 m1 m2 s1 s2 f1 f2 f3 HF1].
  destruct H2 as [h1' h2' m1' m2' s1' s2' f1' f2' f3' HF2].
  assert (Hd : Py.isspace h1' = false).
  { inversion HF2; subst. apply digit_not_space. assumption. }
  unfold Re.rematch, SrtToJsx.time_range.
  change ([Re.GOpen] ++ SrtToJsx.timestamp ++ [Re.GClose] ++ [SrtToJsx.s]
          ++ SrtToJsx.c "-->" ++ [SrtToJsx.s] ++ [Re.GOpen]
          ++ SrtToJsx.timestamp ++ [Re.GClose])
    with (Re.GOpen :: SrtToJsx.timestamp ++ Re.GClose
            :: Re.Many Py.isspace
            :: SrtToJsx.c "-->" ++ Re.Many Py.isspace
            :: Re.GOpen :: SrtToJsx.timestamp ++ Re.GClose :: []).
  pose proof (match_stamp [] _ _ _ _ _ _ _ _ _ rest [] rest HF2 eq_refl)
    as M4.
  pose proof (many_run _ _ ws2
                (stamp h1' h2' m1' m2' s1' s2' f1' f2' f3' ++ rest) _ _
                Hw2 Hd M4) as M3.
  pose proof (arrow_matches _ _ _ _ M3) as M2.
  pose proof (many_run _ _ ws1
                (Py.lit "-->" ++ ws2
                 ++ stamp h1' h2' m1' m2' s1' s2' f1' f2' f3' ++ rest) _ _
                Hw1 eq_refl M2) as M1.
  rewrite (match_stamp _ _ _ _ _ _ _ _ _ _ _ _ _ HF1 M1).
  reflexivity.
Qed.

Lemma rematch_timing_line line m :
  Re.rematch SrtToJsx.time_range line = Some m ->
  exists t1 t2, timing_line line t1 t2 /\ m = [t1; t2].
Proof.
  unfold Re.rematch.
  destruct (Re.match_here SrtToJsx.time_range line)
    as [[pieces rest]|] eqn:E; [|discriminate].
  intros H. injection H as <-.
  apply match_here_sound in E as [HF ->].
  cbv [SrtToJsx.time_range SrtToJsx.timestamp SrtToJsx.c SrtToJsx.d
       SrtToJsx.s app map Py.lit list_ascii_of_string Re.chr] in HF.
  invert_pieces.
  match goal with
  | |- exists t1 t2, timing_line
         (concat [_; [?a1]; [?a2]; _; [?a3]; [?a4]; _; [?a5]; [?a6]; _;
                  [?a7]; [?a8]; [?a9]; _; ?w1; _; _; _; ?w2; _;
                  [?b1]; [?b2]; _; [?b3]; [?b4]; _; [?b5]; [?b6]; _;
                  [?b7]; [?b8]; [?b9]; _] ++ ?r) _ _ /\ _ =>
      exists (stamp a1 a2 a3 a4 a5 a6 a7 a8 a9),
        (stamp b1 b2 b3 b4 b5 b6 b7 b8 b9);
      split; [|reflexivity];
      match goal with
      | |- timing_line ?l _ _ =>
          replace l
            with (stamp a1 a2 a3 a4 a5 a6 a7 a8 a9 ++ w1 ++ Py.lit "-->"
                  ++ w2 ++ stamp b1 b2 b3 b4 b5 b6 b7 b8 b9 ++ r)
      end
  end.
  - constructor; try assumption; constructor; repeat constructor; assumption.
  - cbn [concat app stamp Py.lit list_ascii_of_string].
    repeat (rewrite <- app_assoc; cbn [app]). reflexivity.
Qed.

Lemma A_parse_lines_timing (lines : list str) t1 t2 :
  (3 <= length lines)%nat ->
  timing_line (nth 1 lines []) t1 t2 ->
  exists x1 x2,
    SrtToJsx.parse_srt_time t1 = Ok x1
    /\ SrtToJsx.parse_srt_time t2 = Ok x2
    /\ SrtToJsx.parse_lines [] lines
       = Ok [{| SrtToJsx.start := x1; SrtToJsx.end_ := x2;
                SrtToJsx.text :=
                  flat_map (escape "r"%char)
                    (Py.strip (Py.join (Py.lit " ") (skipn 2 lines))) |}].
Proof.
  intros Hl Ht. pose proof (timing_line_matches _ _ _ Ht) as Hm.
  assert (H1 : timestamp_shape t1) by (destruct Ht; assumption).
  assert (H2 : timestamp_shape t2) by (destruct Ht; assumption).
  destruct (shape_converts t1 H1) as (x1 & E1 & _).
  destruct (shape_converts t2 H2) as (x2 & E2 & _).
  exists x1, x2. split; [exact E1|]. split; [exact E2|].
  unfold SrtToJsx.parse_lines.
  destruct (Nat.leb_spec 3 (length lines)) as [_|]; [|lia].
  rewrite (index_nth lines 1 []) by lia. cbn [bind]. rewrite Hm.
  change (SrtToJsx.group [t1; t2] 1) with t1.
  change (SrtToJsx.group [t1; t2] 2) with t2.
  rewrite E1, E2. cbn [bind].
  change (Py.backslash :: Py.lit "r") with [Py.backslash; "r"%char].
  rewrite escape_replace. reflexivity.
Qed.

(** ** The two parsers on the same block *)

Lemma startswith_app x s : Py.startswith x (x ++ s) = true.
Proof.
  induction x as [|a x IH]; [reflexivity|]. cbn [app Py.startswith].
  rewrite Ascii.eqb_refl. exact IH.
Qed.

Lemma split_go_skip sep x s :
  Py.split_go sep (length x) (x ++ s) = Py.split_go sep 0 s.
Proof.
  induction x as [|c x IH]; [reflexivity|]. exact IH.
Qed.

Lemma split_sep_first a sep pre s :
  forallb (fun c => negb (Ascii.eqb a c)) pre = true ->
  Py.split (a :: sep) (pre ++ a :: sep ++ s)
  = pre :: Py.split (a :: sep) s.
Proof.
  unfold Py.split. intros H. induction pre as [|c pre IH].
  - cbn [app Py.split_go]. cbn [Py.startswith].
    rewrite Ascii.eqb_refl, startswith_app. cbn [andb].
    replace (length (a :: sep) - 1)%nat with (length sep)
      by (cbn [length]; lia).
    rewrite split_go_skip. reflexivity.
  - cbn [forallb] in H. apply andb_prop in H as [Hc H].
    cbn [app Py.split_go Py.startswith].
    destruct (Ascii.eqb a c); [discriminate|]. cbn [andb].
    rewrite (IH H). reflexivity.
Qed.

Lemma split_no_first a sep s :
  forallb (fun c => negb (Ascii.eqb a c)) s = true ->
  Py.split (a :: sep) s = [s].
Proof.
  unfold Py.split. induction s as [|c s IH]; [reflexivity|].
  cbn [forallb]. intros H. apply andb_prop in H as [Hc H].
  cbn [Py.split_go Py.startswith].
  destruct (Ascii.eqb a c); [discriminate|]. cbn [andb].
  rewrite (IH H). reflexivity.
Qed.

Lemma digit_not_blank c :
  Py.isdecimal c = true -> Ascii.eqb " "%char c = false.
Proof.
  destruct c as [[] [] [] [] [] [] [] []]; intros H;
    try discriminate H; reflexivity.
Qed.

Lemma stamp_no_blank t :
  timestamp_shape t ->
  forallb (fun c => negb (Ascii.eqb " "%char c)) t = true.
Proof.
  intros [h1 h2 m1 m2 s1 s2 f1 f2 f3 HF].
  repeat match goal with
  | H : Forall _ (_ :: _) |- _ =>
      let Hd := fresh "Hd" in
      inversion H as [|? ? Hd ?]; clear H; subst;
      apply digit_not_blank in Hd
  | H : Forall _ [] |- _ => clear H
  end.
  unfold stamp. cbn [forallb].
  repeat match goal with
  | H : Ascii.eqb " "%char _ = false |- _ => rewrite H; clear H
  end.
  reflexivity.
Qed.

Lemma arrow_fields t1 t2 :
  timestamp_shape t1 -> timestamp_shape t2 ->
  Py.split (Py.lit " --> ") (t1 ++ Py.lit " --> " ++ t2) = [t1; t2].
Proof.
  intros H1 H2.
  change (t1 ++ Py.lit " --> " ++ t2)
    with (t1 ++ " "%char :: Py.lit "--> " ++ t2).
  change (Py.lit " --> ") with (" "%char :: Py.lit "--> ").
  rewrite split_sep_first by (apply stamp_no_blank; exact H1).
  rewrite split_no_first by (apply stamp_no_blank; exact H2).
  reflexivity.
Qed.

Lemma strip_timing t1 t2 ws :
  timestamp_shape t1 -> timestamp_shape t2 ->
  forallb Py.isspace ws = true ->
  Py.strip (t1 ++ Py.lit " --> " ++ t2 ++ ws) = t1 ++ Py.lit " --> " ++ t2.
Proof.
  intros H1 H2 Hw.
  destruct H1 as [h1 h2 m1 m2 s1 s2 f1 f2 f3 HF1].
  destruct H2 as [h1' h2' m1' m2' s1' s2' f1' f2' f3' HF2].
  assert (Ha : Py.isspace h1 = false).
  { inversion HF1; subst. apply digit_not_space. assumption. }
  assert (Hb : Py.isspace f3' = false).
  { apply digit_not_space.
    apply (proj1 (Forall_forall _ _) HF2). cbn. tauto. }
  unfold Py.strip.
  replace (stamp h1 h2 m1 m2 s1 s2 f1 f2 f3 ++ Py.lit " --> "
           ++ stamp h1' h2' m1' m2' s1' s2' f1' f2' f3' ++ ws)
    with ((stamp h1 h2 m1 m2 s1 s2 f1 f2 f3 ++ Py.lit " --> "
           ++ stamp h1' h2' m1' m2' s1' s2' f1' f2' f3') ++ ws)
    by (rewrite <- !app_assoc; reflexivity).
  remember (stamp h1 h2 m1 m2 s1 s2 f1 f2 f3 ++ Py.lit " --> "
            ++ stamp h1' h2' m1' m2' s1' s2' f1' f2' f3') as line eqn:E.
  assert (Hl : Py.lstrip line = line).
  { rewrite E. unfold stamp. cbn [app Py.lstrip]. rewrite Ha. reflexivity. }
  assert (Hr : Py.rstrip line = line).
  { rewrite E. unfold Py.rstrip, stamp, Py.lit.
    cbn [app rev list_ascii_of_string Py.lstrip]. rewrite Hb. reflexivity. }
  rewrite lstrip_app, Hl.
  destruct line as [|c r]; [discriminate E|].
  rewrite rstrip_app_blank by exact Hw. exact Hr.
Qed.

Lemma spaced_id s : ~ In Py.nl s -> spaced s = s.
Proof.
  induction s as [|c s IH]; [reflexivity|]. intros H. cbn [spaced map].
  fold (spaced s). rewrite IH by (intros H'; apply H; right; exact H').
  destruct (Ascii.eqb_spec Py.nl c) as [E|E]; [|reflexivity].
  exfalso. apply H. left. congruence.
Qed.

Lemma spaced_app a b : spaced (a ++ b) = spaced a ++ spaced b.
Proof. apply map_app. Qed.

Lemma spaced_join l :
  Forall (fun f => ~ In Py.nl f) l ->
  spaced (Py.join [Py.nl] l) = Py.join (Py.lit " ") l.
Proof.
  induction 1 as [|f fs Hf Hfs IH]; [reflexivity|].
  destruct fs as [|g fs]; [apply spaced_id; exact Hf|].
  rewrite !join_cons by discriminate.
  rewrite !spaced_app, IH, (spaced_id f Hf). reflexivity.
Qed.

Lemma spaced_isspace c :
  Py.isspace (if Ascii.eqb Py.nl c then " "%char else c) = Py.isspace c.
Proof.
  destruct (Ascii.eqb_spec Py.nl c) as [<-|]; reflexivity.
Qed.

Lemma spaced_lstrip s : Py.lstrip (spaced s) = spaced (Py.lstrip s).
Proof.
  induction s as [|c s IH]; [reflexivity|].
  cbn [spaced map Py.lstrip]. fold (spaced s). rewrite spaced_isspace.
  destruct (Py.isspace c); [exact IH | reflexivity].
Qed.

Lemma spaced_strip s : Py.strip (spaced s) = spaced (Py.strip s).
Proof.
  unfold Py.strip, Py.rstrip. rewrite spaced_lstrip.
  unfold spaced at 1. rewrite <- map_rev. fold (spaced (rev (Py.lstrip s))).
  rewrite spaced_lstrip. unfold spaced. rewrite map_rev. reflexivity.
Qed.

Lemma texts_agree (lines : list str) :
  Forall (fun f => ~ In Py.nl f) lines ->
  Py.strip (Py.join (Py.lit " ") (skipn 2 lines))
  = spaced (Py.strip (Py.join [Py.nl] (skipn 2 lines))).
Proof.
  intros H. rewrite <- spaced_strip, spaced_join; [reflexivity|].
  apply skipn_Forall. exact H.
Qed.

Lemma B_parse_lines_timing (lines : list str) t1 t2 ws :
  (3 <= length lines)%nat ->
  timestamp_shape t1 -> timestamp_shape t2 ->
  forallb Py.isspace ws = true ->
  nth 1 lines [] = t1 ++ Py.lit " --> " ++ t2 ++ ws ->
  exists x1 x2,
    SrtToJsx.parse_srt_time t1 = Ok x1
    /\ SrtToJsx.parse_srt_time t2 = Ok x2
    /\ SrtToJsxConverter.parse_lines [] lines
       = Ok [{| SrtToJsxConverter.sequence := Py.strip (nth 0 lines []);
                SrtToJsxConverter.start := x1;
                SrtToJsxConverter.end_ := x2;
                SrtToJsxConverter.text :=
                  Py.strip (Py.join [Py.nl] (skipn 2 lines)) |}].
Proof.
  intros Hl H1 H2 Hw E.
  destruct (shape_converts t1 H1) as (x1 & E1 & _).
  destruct (shape_converts t2 H2) as (x2 & E2 & _).
  exists x1, x2. split; [exact E1|]. split; [exact E2|].
  unfold SrtToJsxConverter.parse_lines.
  destruct (Nat.leb_spec 3 (length lines)) as [_|]; [|lia].
  rewrite (index_nth lines 0 []), (index_nth lines 1 []) by lia.
  cbn [bind]. rewrite E, (strip_timing t1 t2 ws H1 H2 Hw).
  rewrite (arrow_fields t1 t2 H1 H2), parse_srt_time_same, E1.
  cbn [bind]. rewrite parse_srt_time_same, E2. reflexivity.
Qed.

Lemma timing_of_canonical t1 t2 ws :
  timestamp_shape t1 -> timestamp_shape t2 ->
  timing_line (t1 ++ Py.lit " --> " ++ t2 ++ ws) t1 t2.
Proof.
  intros H1 H2.
  exact (TimingLine t1 [" "%char] [" "%char] t2 ws H1 H2 eq_refl eq_refl).
Qed.

Lemma canonical_block_agrees block :
  canonical block ->
  exists subs caps,
    SrtToJsx.parse_block [] block = Ok subs
    /\ SrtToJsxConverter.parse_block [] block = Ok caps
    /\ Forall2 same_cue subs caps.
Proof.
  unfold canonical, long_enough.
  unfold SrtToJsx.parse_block, SrtToJsxConverter.parse_block.
  change (SrtToJsxConverter.block_lines block)
    with (SrtToJsx.block_lines block).
  assert (Hno : Forall (fun f => ~ In Py.nl f) (SrtToJsx.block_lines block))
    by apply split_lines_no.
  revert Hno. generalize (SrtToJsx.block_lines block). intros lines Hno.
  destruct (Nat.leb_spec 3 (length lines)) as [Hl|Hl].
  - intros [H|(t1 & t2 & ws & H1 & H2 & Hw & E)]; [discriminate|].
    destruct (B_parse_lines_timing lines t1 t2 ws Hl H1 H2 Hw E)
      as (x1 & x2 & E1 & E2 & EB).
    pose proof (timing_of_canonical t1 t2 ws H1 H2) as Ht.
    rewrite <- E in Ht.
    destruct (A_parse_lines_timing lines t1 t2 Hl Ht)
      as (y1 & y2 & F1 & F2 & EA).
    rewrite E1 in F1. rewrite E2 in F2.
    apply Ok_inj in F1. apply Ok_inj in F2. subst y1 y2.
    do 2 eexists. split; [exact EA|]. split; [exact EB|].
    constructor; [|constructor]. unfold same_cue.
    cbn [SrtToJsx.start SrtToJsx.end_ SrtToJsx.text SrtToJsxConverter.start
         SrtToJsxConverter.end_ SrtToJsxConverter.text].
    rewrite (texts_agree lines Hno). auto.
  - intros _. exists [], [].
    unfold SrtToJsx.parse_lines, SrtToJsxConverter.parse_lines.
    destruct (Nat.leb_spec 3 (length lines)); [lia|].
    repeat split. constructor.
Qed.

Lemma B_for_each_agrees bs : forall acc acc',
  Forall canonical bs ->
  Forall2 same_cue acc acc' ->
  exists subs caps,
    for_each SrtToJsx.parse_block bs acc = Ok subs
    /\ for_each SrtToJsxConverter.parse_block bs acc' = Ok caps
    /\ Forall2 same_cue subs caps.
Proof.
  induction bs as [|b bs IH]; intros acc acc' Hc Hacc.
  - exists acc, acc'. repeat split. exact Hacc.
  - inversion Hc as [|? ? Hb Hbs]; subst.
    destruct (canonical_block_agrees b Hb) as (subs & caps & EA & EB & HF).
    cbn [for_each]. rewrite A_parse_block_acc.
    unfold SrtToJsxConverter.parse_block in *.
    rewrite B_parse_lines_acc, EB. cbn [bind].
    unfold records_of. rewrite EA.
    apply IH; [exact Hbs|]. apply Forall2_app; assumption.
Qed.

(** ** The accuracy of the conversion *)

Module Accuracy.

Lemma pow2_split a b : 0 <= a -> 0 <= b -> 2 ^ (a + b) = 2 ^ a * 2 ^ b.
Proof. intros. apply Z.pow_add_r; assumption. Qed.

Lemma units_pack m2 E :
  0 <= m2 <= 2 ^ 53 -> -1074 <= E <= 970 ->
  units (pack false m2 E) = m2 * 2 ^ (E + 1074).
Proof.
  intros Hm HE. unfold pack. destruct m2 as [|q|q]; [reflexivity| |lia].
  destruct (Z.eqb_spec (Zpos q) (2 ^ 53)) as [Hq|Hq].
  - destruct (Z.leb_spec (E + 1) 971); [|lia].
    unfold units. rewrite Round.cond_Zopp_false, Hq.
    replace (E + 1 + 1074) with (1 + (E + 1074)) by lia.
    rewrite (pow2_split 1 (E + 1074)) by lia.
    change (Zpos (2 ^ 52)) with (2 ^ 52). change (2 ^ 53) with (2 ^ 52 * 2 ^ 1).
    ring.
  - destruct (Z.leb_spec E 971); [|lia]. reflexivity.
Qed.

Lemma valid_finite m e :
  valid (S754_finite false m e) = true <->
  fexp (Zpos (digits2_pos m) + e) = e /\ e <= 971.
Proof.
  unfold valid, valid_binary, bounded, canonical_mantissa.
  rewrite andb_true_iff, Z.eqb_eq, Z.leb_le. reflexivity.
Qed.

Lemma digits_53 q : 2 ^ 52 <= Zpos q < 2 ^ 53 -> Zpos (digits2_pos q) = 53.
Proof.
  intros [H1 H2]. apply Round.digits_le in H2. apply Round.digits_ge in H1.
  lia.
Qed.

(** A mantissa of 53 bits, or any mantissa at the smallest exponent,
    makes a number of the format. *)
Lemma pack_modest m2 E :
  0 <= m2 <= 2 ^ 53 -> -1074 <= E <= -31 ->
  E = -1074 \/ 2 ^ 52 <= m2 ->
  modest (pack false m2 E).
Proof.
  intros Hm HE Hc. unfold pack. destruct m2 as [|q|q]; [exact I| |lia].
  destruct (Z.eqb_spec (Zpos q) (2 ^ 53)) as [Hq|Hq].
  - destruct (Z.leb_spec (E + 1) 971); [|lia].
    unfold modest. split; [|lia]. apply valid_finite.
    rewrite Round.fexp_eq. change (Zpos (digits2_pos (2 ^ 52))) with 53. lia.
  - destruct (Z.leb_spec E 971); [|lia].
    unfold modest. split; [|lia]. apply valid_finite.
    rewrite Round.fexp_eq. destruct Hc as [->|Hc].
    + assert (Zpos (digits2_pos q) <= 53) by (apply Round.digits_le; lia).
      lia.
    + rewrite (digits_53 q) by lia. lia.
Qed.

Lemma value_digits p e t :
  -1074 <= e -> Zpos p * 2 ^ (e + 1074) < 2 ^ (t + 1074) ->
  Zpos (digits2_pos p) + e <= t.
Proof.
  intros He H. pose proof (Round.digits_bounds p) as [Hp _].
  destruct (Z_le_gt_dec (Zpos (digits2_pos p) + e) t) as [|Hgt]; [assumption|].
  exfalso.
  assert (Hd : 0 < Zpos (digits2_pos p)) by lia.
  assert (2 ^ (t + 1074) <= 2 ^ (Zpos (digits2_pos p) - 1 + (e + 1074))).
  { destruct (Z_lt_le_dec (t + 1074) 0) as [Hneg|Hnn].
    - rewrite (Z.pow_neg_r 2 _ Hneg). apply Z.pow_nonneg. lia.
    - apply Z.pow_le_mono_r; lia. }
  rewrite (pow2_split (Zpos (digits2_pos p) - 1) (e + 1074)) in H0 by lia.
  assert (0 < 2 ^ (e + 1074)) by (apply Z.pow_pos_nonneg; lia).
  nia.
Qed.

Lemma scaled_large p e :
  let E := fexp (Zpos (digits2_pos p) + e) in
  E = -1074 \/ 2 ^ 52 <= scaled p e E.
Proof.
  cbv zeta. rewrite Round.fexp_eq.
  pose proof (Round.digits_bounds p) as [Hp _].
  set (D := Zpos (digits2_pos p)) in *.
  assert (HD : 0 < D) by (unfold D; lia).
  destruct (Z_le_gt_dec (D + e - 53) (-1074)) as [|Hn]; [left; lia|].
  right. rewrite Z.max_l by lia. unfold scaled.
  destruct (Z.leb_spec (D + e - 53) e) as [H|H].
  - replace (e - (D + e - 53)) with (53 - D) by lia.
    replace 52 with ((D - 1) + (53 - D)) by lia.
    rewrite pow2_split by lia.
    apply Z.mul_le_mono_nonneg_r; [apply Z.pow_nonneg; lia | assumption].
  - replace (D + e - 53 - e) with (D - 53) by lia.
    apply Z.div_le_lower_bound; [apply Z.pow_pos_nonneg; lia|].
    rewrite <- pow2_split by lia.
    replace (D - 53 + 52) with (D - 1) by lia. assumption.
Qed.

Lemma scaled_error p e E :
  -1074 <= e -> -1074 <= E ->
  scaled p e E * 2 ^ (E + 1074) <= Zpos p * 2 ^ (e + 1074)
  /\ Zpos p * 2 ^ (e + 1074) < (scaled p e E + 1) * 2 ^ (E + 1074).
Proof.
  intros He HE. unfold scaled.
  assert (Hpe : 0 < 2 ^ (e + 1074)) by (apply Z.pow_pos_nonneg; lia).
  assert (HpE : 0 < 2 ^ (E + 1074)) by (apply Z.pow_pos_nonneg; lia).
  destruct (Z.leb_spec E e) as [H|H].
  - replace (e + 1074) with ((e - E) + (E + 1074)) in * by lia.
    rewrite (pow2_split (e - E) (E + 1074)) in * by lia.
    assert (Hs : 0 < 2 ^ (e - E)) by (apply Z.pow_pos_nonneg; lia).
    set (A := 2 ^ (e - E)) in *. set (B := 2 ^ (E + 1074)) in *.
    split; nia.
  - replace (E + 1074) with ((E - e) + (e + 1074)) in * by lia.
    rewrite (pow2_split (E - e) (e + 1074)) in * by lia.
    assert (Hs : 0 < 2 ^ (E - e)) by (apply Z.pow_pos_nonneg; lia).
    pose proof (Z.div_mod (Zpos p) (2 ^ (E - e)) ltac:(lia)) as Hdm.
    pose proof (Z.mod_pos_bound (Zpos p) (2 ^ (E - e)) Hs) as Hmod.
    set (q := Zpos p / 2 ^ (E - e)) in *.
    set (r := Zpos p mod 2 ^ (E - e)) in *.
    set (A := 2 ^ (E - e)) in *. set (B := 2 ^ (e + 1074)) in *.
    split; nia.
Qed.

(** Rounding a positive number below [2^t]: a number of the format, at most
    [2^(t-53)] away. *)
Lemma binary_round_near p e t :
  -1074 <= e -> Zpos p * 2 ^ (e + 1074) < 2 ^ (t + 1074) ->
  -1021 <= t <= 22 ->
  modest (binary_round F64.prec F64.emax false p e)
  /\ Z.abs (units (binary_round F64.prec F64.emax false p e)
            - Zpos p * 2 ^ (e + 1074)) <= 2 ^ (t - 53 + 1074).
Proof.
  intros He Hv Ht. pose proof (value_digits p e t He Hv) as HD.
  destruct (Round.binary_round_spec false p e) as (m2 & Hm2 & ->).
  pose proof (Round.scaled_bound p e) as Hq.
  pose proof (scaled_large p e) as Hl. cbv zeta in Hl.
  destruct (Round.fexp_ge (Zpos (digits2_pos p) + e)) as [HE1 _].
  assert (HE2 : fexp (Zpos (digits2_pos p) + e) <= t - 53)
    by (rewrite Round.fexp_eq; lia).
  pose proof (scaled_error p e _ He HE1) as [Hlo Hhi].
  set (E := fexp (Zpos (digits2_pos p) + e)) in *.
  set (q := scaled p e E) in *.
  assert (Hm : 0 <= m2 <= 2 ^ 53) by (destruct Hm2; lia).
  split.
  - apply pack_modest; [assumption | lia | destruct Hm2, Hl; lia].
  - rewrite units_pack by lia.
    assert (Hmono : 2 ^ (E + 1074) <= 2 ^ (t - 53 + 1074))
      by (apply Z.pow_le_mono_r; lia).
    assert (HpE : 0 < 2 ^ (E + 1074)) by (apply Z.pow_pos_nonneg; lia).
    destruct Hm2 as [-> | ->]; lia.
Qed.

Lemma modest_exponent m e :
  modest (S754_finite false m e) -> -1074 <= e <= -30.
Proof.
  intros [Hv He]. apply valid_finite in Hv as [Hc _].
  destruct (Round.fexp_ge (Zpos (digits2_pos m) + e)). lia.
Qed.

Lemma units_nonneg x : modest x -> 0 <= units x.
Proof.
  destruct x as [[|]|[|]| |[|] m e]; cbn [modest units];
    try contradiction; try lia.
  intros _. rewrite Round.cond_Zopp_false.
  apply Z.mul_nonneg_nonneg; [lia | apply Z.pow_nonneg; lia].
Qed.

(** The sum of two numbers, below [2^t]: a number of the format, at most
    [2^(t-53)] away from the sum. *)
Lemma add_near x y t :
  modest x -> modest y ->
  units x + units y < 2 ^ (t + 1074) -> -1021 <= t <= 22 ->
  modest (F64.add x y)
  /\ Z.abs (units (F64.add x y) - (units x + units y))
     <= 2 ^ (t - 53 + 1074).
Proof.
  intros Hx Hy Hs Ht.
  assert (Hp : 0 <= 2 ^ (t - 53 + 1074)) by (apply Z.pow_nonneg; lia).
  destruct x as [[|]|[|]| |[|] m1 e1]; try contradiction;
    destruct y as [[|]|[|]| |[|] m2 e2]; try contradiction.
  - split; [exact I | cbn; lia].
  - split; [exact Hy |].
    change (F64.add (S754_zero false) (S754_finite false m2 e2))
      with (S754_finite false m2 e2).
    cbn [units]. rewrite Round.cond_Zopp_false.
    rewrite Z.add_0_l, Z.sub_diag. cbn. lia.
  - split; [exact Hx |].
    change (F64.add (S754_finite false m1 e1) (S754_zero false))
      with (S754_finite false m1 e1).
    cbn [units]. rewrite Round.cond_Zopp_false.
    rewrite Z.add_0_r, Z.sub_diag. cbn. lia.
  - pose proof (modest_exponent _ _ Hx) as He1.
    pose proof (modest_exponent _ _ Hy) as He2.
    rewrite Round.add_finite, !Round.cond_Zopp_false.
    cbn [units] in *. rewrite !Round.cond_Zopp_false in *.
    set (ez := Z.min e1 e2) in *.
    assert (Ha : 0 < Zpos m1 * 2 ^ (e1 - ez))
      by (apply Z.mul_pos_pos; [lia | apply Z.pow_pos_nonneg; lia]).
    assert (Hb : 0 < Zpos m2 * 2 ^ (e2 - ez))
      by (apply Z.mul_pos_pos; [lia | apply Z.pow_pos_nonneg; lia]).
    assert (Hsum : (Zpos m1 * 2 ^ (e1 - ez) + Zpos m2 * 2 ^ (e2 - ez))
                   * 2 ^ (ez + 1074)
                   = Zpos m1 * 2 ^ (e1 + 1074) + Zpos m2 * 2 ^ (e2 + 1074)).
    { replace (e1 + 1074) with ((e1 - ez) + (ez + 1074)) by lia.
      replace (e2 + 1074) with ((e2 - ez) + (ez + 1074)) by lia.
      rewrite (pow2_split (e1 - ez) (ez + 1074)) by lia.
      rewrite (pow2_split (e2 - ez) (ez + 1074)) by lia. ring. }
    destruct (Zpos m1 * 2 ^ (e1 - ez) + Zpos m2 * 2 ^ (e2 - ez))
      as [|p|p] eqn:E; try lia.
    unfold binary_normalize. rewrite <- Hsum.
    apply binary_round_near; [lia | rewrite Hsum; exact Hs | exact Ht].
Qed.

(** The float of an integer below [2^t]. *)
Lemma of_Z_near n t :
  0 <= n < 2 ^ t -> 0 <= t <= 22 ->
  modest (F64.of_Z n)
  /\ Z.abs (units (F64.of_Z n) - n * 2 ^ 1074) <= 2 ^ (t - 53 + 1074).
Proof.
  intros Hn Ht. unfold F64.of_Z, binary_normalize.
  destruct n as [|p|p]; [|  |lia].
  - split; [exact I|]. cbn [units]. rewrite Z.sub_diag.
    apply Z.pow_nonneg. lia.
  - change (2 ^ 1074) with (2 ^ (0 + 1074)).
    apply binary_round_near; [lia | | lia].
    rewrite (pow2_split t 1074) by lia.
    apply Z.mul_lt_mono_pos_r; [reflexivity | lia].
Qed.

(** Rounding a mantissa that has bits to spare: the integer part of the
    scaled mantissa or the next integer, at the exponent of the format. *)
Lemma binary_round_aux_near mx ex lx :
  0 <= mx -> ex <= fexp (Zdigits2 mx + ex) ->
  let E := fexp (Zdigits2 mx + ex) in
  exists m2,
    (m2 = mx / 2 ^ (E - ex) \/ m2 = mx / 2 ^ (E - ex) + 1)
    /\ 0 <= m2 <= 2 ^ 53
    /\ binary_round_aux F64.prec F64.emax false mx ex lx = pack false m2 E.
Proof.
  intros Hmx Hle. cbv zeta.
  destruct (Round.fexp_ge (Zdigits2 mx + ex)) as [HE HD].
  assert (Hdig : mx < 2 ^ Zdigits2 mx \/ mx = 0).
  { destruct mx as [|p|p]; [auto | left | lia]. apply Round.digits_bounds. }
  assert (Hd0 : 0 <= Zdigits2 mx).
  { destruct mx as [|p|p]; simpl; lia. }
  unfold binary_round_aux, shr_fexp at 1.
  destruct (Z_le_gt_dec (fexp (Zdigits2 mx + ex) - ex) 0) as [Hn|Hn].
  - rewrite Round.shr_nonpos by assumption. rewrite Round.shr_record_m.
    replace (fexp (Zdigits2 mx + ex)) with ex in * by lia.
    rewrite Z.sub_diag, Z.pow_0_r, Z.div_1_r.
    set (m2 := round_nearest_even mx
                 (loc_of_shr_record (shr_record_of_loc mx lx))).
    assert (Hc : m2 = mx \/ m2 = mx + 1)
      by apply Round.round_nearest_even_cases.
    assert (Hm2 : 0 <= m2 <= 2 ^ 53).
    { assert (mx < 2 ^ 53).
      { destruct Hdig as [Hdig| ->]; [|lia].
        apply Z.lt_le_trans with (1 := Hdig).
        apply Z.pow_le_mono_r; lia. }
      destruct Hc as [-> | ->]; lia. }
    exists m2. split; [exact Hc|]. split; [exact Hm2|].
    apply Round.finish; [assumption | lia].
  - destruct (Round.shr_pos (shr_record_of_loc mx lx) ex
                (fexp (Zdigits2 mx + ex) - ex))
      as (r' & Hr & Hm); [lia | rewrite Round.shr_record_m; assumption |].
    rewrite Hr. rewrite Round.shr_record_m in Hm.
    replace (ex + (fexp (Zdigits2 mx + ex) - ex))
      with (fexp (Zdigits2 mx + ex)) by lia.
    set (m2 := round_nearest_even (shr_m r') (loc_of_shr_record r')).
    assert (Hc : m2 = shr_m r' \/ m2 = shr_m r' + 1)
      by apply Round.round_nearest_even_cases.
    assert (Hm2 : 0 <= m2 <= 2 ^ 53).
    { assert (0 <= shr_m r' < 2 ^ 53).
      { rewrite Hm.
        split; [apply Z.div_pos; [lia|apply Z.pow_pos_nonneg; lia]|].
        apply Z.div_lt_upper_bound; [apply Z.pow_pos_nonneg; lia|].
        rewrite <- Z.pow_add_r by lia.
        destruct Hdig as [Hdig| ->]; [|apply Z.pow_pos_nonneg; lia].
        apply Z.lt_le_trans with (1 := Hdig).
        apply Z.pow_le_mono_r; lia. }
      destruct Hc as [-> | ->]; lia. }
    exists m2. rewrite <- Hm. split; [exact Hc|]. split; [exact Hm2|].
    apply Round.finish; [assumption | lia].
Qed.

Lemma digits_gap n d t :
  0 < n -> 0 < d -> n < d * 2 ^ t -> d <= n * 2 ^ 1000 -> 0 <= t ->
  -1001 <= Zdigits2 n - Zdigits2 d <= t.
Proof.
  intros Hn Hd Hlt Hge Ht.
  destruct n as [|pn|pn]; try lia. destruct d as [|pd|pd]; try lia.
  cbn [Zdigits2].
  pose proof (Round.digits_bounds pn) as [Hn1 Hn2].
  pose proof (Round.digits_bounds pd) as [Hd1 Hd2].
  set (dn := Zpos (digits2_pos pn)) in *.
  set (dd := Zpos (digits2_pos pd)) in *.
  assert (0 < dn) by (unfold dn; lia). assert (0 < dd) by (unfold dd; lia).
  assert (Hpt : 0 < 2 ^ t) by (apply Z.pow_pos_nonneg; lia).
  split.
  - destruct (Z_le_gt_dec (-1001) (dn - dd)) as [|Hc]; [assumption|].
    exfalso.
    assert (2 ^ (dn + 1000) <= 2 ^ (dd - 1))
      by (apply Z.pow_le_mono_r; lia).
    rewrite (pow2_split dn 1000) in H1 by lia.
    assert (0 < 2 ^ 1000) by (apply Z.pow_pos_nonneg; lia).
    nia.
  - destruct (Z_le_gt_dec (dn - dd) t) as [|Hc]; [assumption|].
    exfalso.
    assert (2 ^ (dd + t) <= 2 ^ (dn - 1))
      by (apply Z.pow_le_mono_r; lia).
    rewrite (pow2_split dd t) in H1 by lia.
    nia.
Qed.

(** The float of a quotient below [2^t]: a number of the format, at most
    [2^(t-53)] away from the quotient. *)
Lemma of_quotient_near n d t :
  0 < n -> 0 < d -> n < d * 2 ^ t -> d <= n * 2 ^ 1000 -> 0 <= t <= 22 ->
  modest (F64.of_quotient false n d)
  /\ Z.abs (units (F64.of_quotient false n d) * d - n * 2 ^ 1074)
     <= d * 2 ^ (t - 53 + 1074).
Proof.
  intros Hn Hd Hlt Hge Ht.
  pose proof (digits_gap n d t Hn Hd Hlt Hge ltac:(lia)) as Hgap.
  unfold F64.of_quotient, SFdiv_core_binary.
  set (e' := Z.min (fexp (Zdigits2 n + 0 - (Zdigits2 d + 0))) (0 - 0)).
  assert (He' : e' = Zdigits2 n - Zdigits2 d - 53).
  { unfold e'. rewrite Round.fexp_eq. lia. }
  set (m' := match 0 - 0 - e' with
             | 0 => n
             | Zpos _ => Z.shiftl n (0 - 0 - e')
             | Zneg _ => 0
             end).
  assert (Hm' : m' = n * 2 ^ (- e')).
  { unfold m'. replace (0 - 0 - e') with (- e') by lia.
    destruct (- e') as [|k|k] eqn:Hk; [lia| |lia].
    apply Z.shiftl_mul_pow2. lia. }
  clearbody e' m'.
  destruct (Z.div_eucl m' d) as [q r] eqn:Hdiv.
  assert (Hq : q = m' / d) by (unfold Z.div; rewrite Hdiv; reflexivity).
  clear Hdiv.
  assert (Hs0 : 0 < 2 ^ (- e')) by (apply Z.pow_pos_nonneg; lia).
  assert (Hm0 : 0 < m') by (rewrite Hm'; apply Z.mul_pos_pos; lia).
  pose proof (Z.div_mod m' d ltac:(lia)) as Hdm.
  pose proof (Z.mod_pos_bound m' d Hd) as Hmod.
  rewrite <- Hq in Hdm.
  (* the quotient has 53 bits or more *)
  assert (Hq52 : 2 ^ 52 <= q).
  { rewrite Hq. apply Z.div_le_lower_bound; [lia|].
    destruct n as [|pn|pn]; try lia. destruct d as [|pd|pd]; try lia.
    cbn [Zdigits2] in *.
    pose proof (Round.digits_bounds pn) as [Hn1 _].
    pose proof (Round.digits_bounds pd) as [_ Hd2].
    set (dn := Zpos (digits2_pos pn)) in *.
    set (dd := Zpos (digits2_pos pd)) in *.
    assert (0 < dn) by (unfold dn; lia). assert (0 < dd) by (unfold dd; lia).
    rewrite Hm'.
    assert (H52 : 2 ^ (dd + 52) = 2 ^ (dn - 1) * 2 ^ (- e')).
    { rewrite <- pow2_split by lia. f_equal. lia. }
    rewrite (pow2_split dd 52) in H52 by lia.
    assert (0 < 2 ^ 52) by reflexivity.
    nia. }
  assert (Hqpos : 0 <= q) by lia.
  destruct q as [|pq|pq]; try lia.
  assert (Hdq : 53 <= Zpos (digits2_pos pq))
    by (apply (Round.digits_ge pq 52) in Hq52; lia).
  (* and is below 2^t at its exponent *)
  assert (Hqt : Zpos (digits2_pos pq) + e' <= t).
  { assert (Zpos pq < 2 ^ (t - e')); [|apply Round.digits_le in H; lia].
    replace (t - e') with (t + - e') by lia.
    rewrite (pow2_split t (- e')) by lia.
    assert (0 < 2 ^ t) by (apply Z.pow_pos_nonneg; lia).
    nia. }
  assert (HE : fexp (Zdigits2 (Zpos pq) + e')
               = Zpos (digits2_pos pq) + e' - 53).
  { cbn [Zdigits2]. rewrite Round.fexp_eq. lia. }
  destruct (binary_round_aux_near (Zpos pq) e' (new_location d r)
              ltac:(lia) ltac:(rewrite HE; lia))
    as (m2 & Hc & Hm2 & ->).
  rewrite HE in *.
  set (E := Zpos (digits2_pos pq) + e' - 53) in *.
  replace (E - e') with (Zpos (digits2_pos pq) - 53) in Hc by (unfold E; lia).
  set (sh := Zpos (digits2_pos pq) - 53) in *.
  assert (Hsh : 0 < 2 ^ sh) by (apply Z.pow_pos_nonneg; lia).
  pose proof (Z.div_mod (Zpos pq) (2 ^ sh) ltac:(lia)) as Hkm.
  pose proof (Z.mod_pos_bound (Zpos pq) (2 ^ sh) Hsh) as Hkmod.
  set (k := Zpos pq / 2 ^ sh) in *.
  assert (Hk52 : 2 ^ 52 <= k).
  { unfold k. apply Z.div_le_lower_bound; [lia|].
    pose proof (Round.digits_bounds pq) as [Hq1 _].
    rewrite <- pow2_split by lia.
    replace (sh + 52) with (Zpos (digits2_pos pq) - 1) by (unfold sh; lia).
    exact Hq1. }
  split.
  - apply pack_modest; [exact Hm2 | unfold E; lia | right; lia].
  - rewrite units_pack by (unfold E; lia).
    assert (HB : 0 < 2 ^ (e' + 1074)) by (apply Z.pow_pos_nonneg; lia).
    assert (HEB : 2 ^ (E + 1074) = 2 ^ sh * 2 ^ (e' + 1074)).
    { rewrite <- pow2_split by lia. f_equal. unfold E, sh. lia. }
    assert (HAB : 2 ^ 1074 = 2 ^ (- e') * 2 ^ (e' + 1074)).
    { rewrite <- pow2_split by lia. f_equal. lia. }
    assert (Hmono : 2 ^ (E + 1074) <= 2 ^ (t - 53 + 1074))
      by (apply Z.pow_le_mono_r; unfold E; lia).
    apply Z.le_trans with (d * 2 ^ (E + 1074));
      [|apply Z.mul_le_mono_nonneg_l; lia].
    rewrite HEB, HAB.
    set (S := 2 ^ sh) in *. set (B := 2 ^ (e' + 1074)) in *.
    set (A := 2 ^ (- e')) in *. set (R := m' mod d) in *.
    set (R' := Zpos pq mod S) in *.
    assert (Hlo : k * S * d <= n * A) by nia.
    assert (Hhi : n * A < (k + 1) * S * d) by nia.
    replace (m2 * (S * B) * d - n * (A * B))
      with ((m2 * S * d - n * A) * B) by ring.
    replace (d * (S * B)) with ((S * d) * B) by ring.
    rewrite Z.abs_mul, (Z.abs_eq B) by lia.
    apply Z.mul_le_mono_nonneg_r; [lia|].
    destruct Hc as [-> | ->]; lia.
Qed.

(** The integer nearest to a quotient is [q] when the quotient is less
    than one half away from [q]. *)
Lemma round_half_even_near n d q :
  0 < d -> 2 * Z.abs (n - q * d) < d -> PyFmt.round_half_even n d = q.
Proof.
  intros Hd H. unfold PyFmt.round_half_even.
  pose proof (Z.div_mod n d ltac:(lia)) as Hdm.
  pose proof (Z.mod_pos_bound n d Hd) as Hmod.
  set (q0 := n / d) in *. set (r := n mod d) in *.
  assert (Hq : q0 = q \/ q0 + 1 = q).
  { destruct (Z_lt_le_dec q0 (q - 1)); [nia|].
    destruct (Z_lt_le_dec q q0); [nia|]. lia. }
  destruct (Z.compare_spec (2 * r) d) as [He|Hl|Hg];
    destruct Hq as [Hq|Hq]; subst q; try reflexivity; nia.
Qed.

(** A small float that is less than half a thousandth away from [N]
    thousandths prints as [N] thousandths. *)
Lemma fixed3_near x N :
  modest x -> 0 <= N ->
  2 * Z.abs (units x * 1000 - N * 2 ^ 1074) < 2 ^ 1074 ->
  PyFmt.fixed3 x
  = PyFmt.digits (N / 1000) ++ Py.lit "."
    ++ PyFmt.zfill 3 (PyFmt.digits (N mod 1000)).
Proof.
  intros Hx HN H.
  assert (HP : 0 < 2 ^ 1074) by reflexivity.
  destruct x as [[|]|[|]| |[|] m e]; try contradiction.
  - cbn [units] in H. assert (N = 0) by nia. subst N. reflexivity.
  - pose proof (modest_exponent _ _ Hx) as He.
    cbn [units] in H. rewrite Round.cond_Zopp_false in H.
    unfold PyFmt.fixed3. destruct (Z.leb_spec 0 e) as [|_]; [lia|].
    rewrite (round_half_even_near (Zpos m * 1000) (2 ^ (- e)) N);
      [reflexivity | apply Z.pow_pos_nonneg; lia |].
    assert (HA : 0 < 2 ^ (- e)) by (apply Z.pow_pos_nonneg; lia).
    assert (HB : 0 < 2 ^ (e + 1074)) by (apply Z.pow_pos_nonneg; lia).
    assert (HAB : 2 ^ 1074 = 2 ^ (- e) * 2 ^ (e + 1074)).
    { rewrite <- pow2_split by lia. f_equal. lia. }
    rewrite HAB in H. clear HAB HP.
    set (A := 2 ^ (- e)) in *. set (B := 2 ^ (e + 1074)) in *.
    replace (Zpos m * B * 1000 - N * (A * B))
      with ((Zpos m * 1000 - N * A) * B) in H by ring.
    rewrite Z.abs_mul, (Z.abs_eq B) in H by lia.
    nia.
Qed.

(** The order of two small floats is the order of their values. *)
Lemma ltb_units x y :
  modest x -> modest y -> units x < units y -> F64.ltb x y = true.
Proof.
  intros Hx Hy H.
  pose proof (units_nonneg x Hx) as Hux.
  destruct x as [[|]|[|]| |[|] m1 e1]; try contradiction;
    destruct y as [[|]|[|]| |[|] m2 e2]; try contradiction;
    try reflexivity.
  - cbn [units] in H. lia.
  - cbn [units] in H, Hux. lia.
  - pose proof (modest_exponent _ _ Hx) as He1.
    pose proof (modest_exponent _ _ Hy) as He2.
    destruct Hx as [Hv1 _]. destruct Hy as [Hv2 _].
    apply valid_finite in Hv1 as [Hc1 _]. apply valid_finite in Hv2 as [Hc2 _].
    rewrite Round.fexp_eq in Hc1, Hc2.
    cbn [units] in H. rewrite !Round.cond_Zopp_false in H.
    pose proof (Round.digits_bounds m1) as [Hl1 Hh1].
    pose proof (Round.digits_bounds m2) as [Hl2 Hh2].
    unfold F64.ltb, SFltb, SFcompare.
    destruct (Z.compare_spec e1 e2) as [He|He|He]; [| reflexivity |].
    + subst e2. assert (HB : 0 < 2 ^ (e1 + 1074))
        by (apply Z.pow_pos_nonneg; lia).
      assert (Hm : Zpos m1 < Zpos m2) by nia.
      change (Pos.compare_cont Eq m1 m2) with (m1 ?= m2)%positive.
      rewrite (proj2 (Pos.compare_lt_iff m1 m2)) by lia. reflexivity.
    + exfalso.
      assert (Hd1 : Zpos (digits2_pos m1) = 53) by lia.
      assert (Hd2 : Zpos (digits2_pos m2) <= 53) by lia.
      rewrite Hd1 in Hl1. change (2 ^ (53 - 1)) with (2 ^ 52) in Hl1.
      assert (Hm2 : Zpos m2 < 2 ^ 53).
      { apply Z.lt_le_trans with (1 := Hh2). apply Z.pow_le_mono_r; lia. }
      replace (e1 + 1074) with ((e1 - e2) + (e2 + 1074)) in H by lia.
      rewrite (pow2_split (e1 - e2) (e2 + 1074)) in H by lia.
      assert (HB : 0 < 2 ^ (e2 + 1074)) by (apply Z.pow_pos_nonneg; lia).
      assert (HS : 2 <= 2 ^ (e1 - e2)).
      { change 2 with (2 ^ 1) at 1. apply Z.pow_le_mono_r; lia. }
      change (2 ^ 53) with (2 * 2 ^ 52) in Hm2.
      set (S := 2 ^ (e1 - e2)) in *. set (B := 2 ^ (e2 + 1074)) in *.
      set (T := 2 ^ 52) in *.
      assert (Zpos m2 * B < Zpos m1 * S * B); [|nia].
      apply Z.mul_lt_mono_pos_r; [exact HB|]. nia.
Qed.

(** The seconds of a timestamp. *)
Lemma seconds_near M :
  0 <= M <= 99999 ->
  modest (F64.of_decimal false M (-3))
  /\ Z.abs (units (F64.of_decimal false M (-3)) * 1000 - M * 2 ^ 1074)
     <= 1000 * 2 ^ 1028.
Proof.
  intros HM. destruct M as [|p|p]; [| |lia].
  - split; [exact I|]. cbn [F64.of_decimal units].
    change (0 * 1000 - 0 * 2 ^ 1074) with 0. cbn [Z.abs].
    apply Z.mul_nonneg_nonneg; [lia | apply Z.pow_nonneg; lia].
  - change (F64.of_decimal false (Zpos p) (-3))
      with (F64.of_quotient false (Zpos p) 1000).
    apply (of_quotient_near (Zpos p) 1000 7); lia.
Qed.

(** The value of a timestamp: less than half a thousandth away from its
    thousandths. *)
Lemma stamp_near W M :
  0 <= W <= 362340 -> 0 <= M <= 99999 ->
  modest (F64.add (F64.of_Z W) (F64.of_decimal false M (-3)))
  /\ 2 * Z.abs (units (F64.add (F64.of_Z W) (F64.of_decimal false M (-3)))
                * 1000 - (1000 * W + M) * 2 ^ 1074) < 2 ^ 1074.
Proof.
  intros HW HM.
  destruct (of_Z_near W 19) as [Hw1 Hw2];
    [change (2 ^ 19) with 524288; lia | lia |].
  destruct (seconds_near M HM) as [Hs1 Hs2].
  pose proof (units_nonneg _ Hw1) as Hw0.
  pose proof (units_nonneg _ Hs1) as Hs0.
  change (2 ^ (19 - 53 + 1074)) with (4096 * 2 ^ 1028) in Hw2.
  change (2 ^ 1074) with (70368744177664 * 2 ^ 1028) in *.
  assert (HP : 0 < 2 ^ 1028) by reflexivity.
  destruct (add_near (F64.of_Z W) (F64.of_decimal false M (-3)) 21 Hw1 Hs1)
    as [Hx1 Hx2].
  - change (2 ^ (21 + 1074)) with (147573952589676412928 * 2 ^ 1028).
    set (P := 2 ^ 1028) in *. lia.
  - lia.
  - split; [exact Hx1|].
    change (2 ^ (21 - 53 + 1074)) with (16384 * 2 ^ 1028) in Hx2.
    set (P := 2 ^ 1028) in *. lia.
Qed.

End Accuracy.

(** ** Times to the millisecond *)

Lemma check_thousandths :
  forallb (fun a => forallb (fun b => forallb (fun c =>
    Os.str_eqb
      (PyFmt.zfill 3
         (PyFmt.digits (100 * Py.digit_value a + 10 * Py.digit_value b
                        + Py.digit_value c)))
      [a; b; c]) digits10) digits10) digits10 = true.
Proof. vm_compute. reflexivity. Qed.

Lemma thousandths_digits a b c :
  Py.isdecimal a = true -> Py.isdecimal b = true -> Py.isdecimal c = true ->
  PyFmt.zfill 3
    (PyFmt.digits (100 * Py.digit_value a + 10 * Py.digit_value b
                   + Py.digit_value c))
  = [a; b; c].
Proof.
  intros Ha Hb Hc. pose proof check_thousandths as H.
  pick_digit H a Ha. pick_digit H b Hb. pick_digit H c Hc.
  apply str_eqb_eq in H. exact H.
Qed.

Lemma stamp_thousandths h1 h2 m1 m2 s1 s2 f1 f2 f3 :
  Forall (fun c => Py.isdecimal c = true)
    [h1; h2; m1; m2; s1; s2; f1; f2; f3] ->
  0 <= whole_seconds h1 h2 m1 m2 <= 362340
  /\ 0 <= millis s1 s2 f1 f2 f3 <= 99999
  /\ thousandths h1 h2 m1 m2 s1 s2 f1 f2 f3 / 1000
     = whole_seconds h1 h2 m1 m2 + two_digits s1 s2
  /\ thousandths h1 h2 m1 m2 s1 s2 f1 f2 f3 mod 1000
     = 100 * Py.digit_value f1 + 10 * Py.digit_value f2 + Py.digit_value f3.
Proof.
  intros HF.
  assert (H4 : Forall (fun c => Py.isdecimal c = true) [h1; h2; m1; m2])
    by sub_digits HF.
  assert (H5 : Forall (fun c => Py.isdecimal c = true) [s1; s2; f1; f2; f3])
    by sub_digits HF.
  pose proof (whole_range _ _ _ _ H4) as HW.
  pose proof (millis_range _ _ _ _ _ H5) as HM.
  split; [exact HW|]. split; [exact HM|].
  clear H4 H5. digits_facts.
  unfold thousandths, millis, two_digits in *.
  set (W := whole_seconds h1 h2 m1 m2) in *.
  replace (1000 * W
           + (10000 * Py.digit_value s1 + 1000 * Py.digit_value s2
              + 100 * Py.digit_value f1 + 10 * Py.digit_value f2
              + Py.digit_value f3))
    with (100 * Py.digit_value f1 + 10 * Py.digit_value f2
          + Py.digit_value f3
          + (W + (10 * Py.digit_value s1 + Py.digit_value s2)) * 1000)
    by ring.
  rewrite Z.div_add, Z.mod_add by lia.
  rewrite Z.div_small, Z.mod_small by lia. split; reflexivity.
Qed.

Lemma stamp_digits h1 h2 m1 m2 s1 s2 f1 f2 f3 :
  timestamp_shape (stamp h1 h2 m1 m2 s1 s2 f1 f2 f3) ->
  Forall (fun c => Py.isdecimal c = true)
    [h1; h2; m1; m2; s1; s2; f1; f2; f3].
Proof.
  intros H. remember (stamp h1 h2 m1 m2 s1 s2 f1 f2 f3) as t eqn:E.
  destruct H as [a1 a2 a3 a4 a5 a6 a7 a8 a9 HF].
  unfold stamp in E. injection E as -> -> -> -> -> -> -> -> ->. exact HF.
Qed.

Lemma timing_line_shapes line t1 t2 :
  timing_line line t1 t2 -> timestamp_shape t1 /\ timestamp_shape t2.
Proof. intros H. destruct H. split; assumption. Qed.

(** The text of a time of a timestamp in the array [captions]. *)
Lemma stamp_prints h1 h2 m1 m2 s1 s2 f1 f2 f3 :
  Forall (fun c => Py.isdecimal c = true)
    [h1; h2; m1; m2; s1; s2; f1; f2; f3] ->
  exists x,
    SrtToJsx.parse_srt_time (stamp h1 h2 m1 m2 s1 s2 f1 f2 f3) = Ok x
    /\ modest x
    /\ 2 * Z.abs (units x * 1000
                  - thousandths h1 h2 m1 m2 s1 s2 f1 f2 f3 * 2 ^ 1074)
       < 2 ^ 1074
    /\ PyFmt.fixed3 x
       = PyFmt.str_of_int (whole_seconds h1 h2 m1 m2 + two_digits s1 s2)
         ++ Py.lit "." ++ [f1; f2; f3].
Proof.
  intros HF. eexists. split; [apply parse_stamp; exact HF|].
  destruct (stamp_thousandths _ _ _ _ _ _ _ _ _ HF) as (HW & HM & Hd & Hm).
  destruct (Accuracy.stamp_near _ _ HW HM) as [Hx Hn].
  split; [exact Hx|]. split; [exact Hn|].
  rewrite (Accuracy.fixed3_near _ (thousandths h1 h2 m1 m2 s1 s2 f1 f2 f3)
             Hx);
    [| unfold thousandths; lia | exact Hn].
  rewrite Hd, Hm.
  assert (Hd3 : Forall (fun c => Py.isdecimal c = true) [f1; f2; f3])
    by sub_digits HF.
  assert (H2 : Forall (fun c => Py.isdecimal c = true) [s1; s2])
    by sub_digits HF.
  inversion Hd3 as [|? ? Ha Hd2]; subst. inversion Hd2 as [|? ? Hb Hd1]; subst.
  inversion Hd1 as [|? ? Hc _]; subst.
  rewrite (thousandths_digits f1 f2 f3 Ha Hb Hc).
  unfold PyFmt.str_of_int.
  destruct (Z.ltb_spec (whole_seconds h1 h2 m1 m2 + two_digits s1 s2) 0)
    as [Hneg|]; [|reflexivity].
  exfalso. clear Hd3 Hd2 Hd1. digits_facts. unfold two_digits in Hneg. lia.
Qed.

(** ** The duration on canonical documents *)

Lemma shape_modest t :
  timestamp_shape t ->
  exists x, SrtToJsx.parse_srt_time t = Ok x /\ modest x.
Proof.
  intros [h1 h2 m1 m2 s1 s2 f1 f2 f3 HF].
  destruct (stamp_prints _ _ _ _ _ _ _ _ _ HF) as (x & E & Hx & _).
  exists x. split; assumption.
Qed.

Lemma modest_valid x : modest x -> valid x = true /\ F64.is_nan x = false.
Proof.
  destruct x as [[|]|[|]| |[|] m e]; cbn [modest]; try contradiction.
  - intros _. split; reflexivity.
  - intros [Hv _]. split; [exact Hv | reflexivity].
Qed.

Lemma B_canonical_block acc block caps :
  canonical block ->
  SrtToJsxConverter.parse_block acc block = Ok caps ->
  Forall (fun cap => modest (SrtToJsxConverter.end_ cap)) acc ->
  Forall (fun cap => modest (SrtToJsxConverter.end_ cap)) caps.
Proof.
  unfold canonical, long_enough, SrtToJsxConverter.parse_block.
  change (SrtToJsx.block_lines block)
    with (SrtToJsxConverter.block_lines block).
  generalize (SrtToJsxConverter.block_lines block). intros lines Hc H Hacc.
  rewrite B_parse_lines_acc in H.
  destruct (Nat.leb_spec 3 (length lines)) as [Hl|Hl].
  - destruct Hc as [Hc|(t1 & t2 & ws & H1 & H2 & Hw & E)]; [discriminate|].
    destruct (B_parse_lines_timing lines t1 t2 ws Hl H1 H2 Hw E)
      as (x1 & x2 & E1 & E2 & EB).
    rewrite EB in H. apply Ok_inj in H. subst caps.
    apply Forall_app. split; [exact Hacc|].
    constructor; [|constructor]. cbn [SrtToJsxConverter.end_].
    destruct (shape_modest t2 H2) as (y & F & Hy).
    rewrite E2 in F. apply Ok_inj in F. subst y. exact Hy.
  - unfold SrtToJsxConverter.parse_lines in H.
    destruct (Nat.leb_spec 3 (length lines)); [lia|].
    apply Ok_inj in H. subst caps. rewrite app_nil_r. exact Hacc.
Qed.

Lemma B_canonical_blocks bs : forall acc caps,
  Forall canonical bs ->
  for_each SrtToJsxConverter.parse_block bs acc = Ok caps ->
  Forall (fun cap => modest (SrtToJsxConverter.end_ cap)) acc ->
  Forall (fun cap => modest (SrtToJsxConverter.end_ cap)) caps.
Proof.
  induction bs as [|b bs IH]; intros acc caps Hc H Hacc.
  - apply Ok_inj in H. subst. exact Hacc.
  - inversion Hc as [|? ? Hb Hbs]; subst. cbn [for_each] in H.
    destruct (SrtToJsxConverter.parse_block acc b) as [acc'|] eqn:E;
      cbn [bind] in H; [|discriminate].
    apply (IH acc' caps Hbs H).
    apply (B_canonical_block acc b acc' Hb E Hacc).
Qed.

(** ** The errors of the conversion of a timestamp *)

Lemma int_of_str_raises p e :
  PyNum.int_of_str p = Raise e -> e = ValueError (BadIntLiteral p).
Proof.
  unfold PyNum.int_of_str.
  destruct (PyNum.take_sign (PyNum.trim p)) as [neg body].
  destruct (PyNum.digitpart body); [discriminate|]. intros H.
  injection H as <-. reflexivity.
Qed.

Lemma float_of_str_raises p e :
  PyNum.float_of_str p = Raise e -> e = ValueError (BadFloatLiteral p).
Proof.
  unfold PyNum.float_of_str.
  destruct (PyNum.take_sign (PyNum.drop_underscores (PyNum.trim p)))
    as [neg body].
  destruct (if PyNum.underscores_ok false (PyNum.trim p)
            then PyNum.unsigned_float neg body else None); [discriminate|].
  intros H. injection H as <-. reflexivity.
Qed.

(** ** The records of a document *)

(** A block raises in [srt_to_jsx_converter.py] exactly when it has three
    lines or more and its second line does not give two times. *)
Lemma B_parse_block_ok acc block :
  is_ok (SrtToJsxConverter.parse_block acc block)
  = negb (long_enough block) || timed block.
Proof.
  unfold SrtToJsxConverter.parse_block, long_enough, timed.
  generalize (SrtToJsxConverter.block_lines block). intros lines.
  unfold SrtToJsxConverter.parse_lines.
  destruct (Nat.leb_spec 3 (length lines)) as [Hlen|Hlen]; [|reflexivity].
  rewrite (index_nth lines 0 []), (index_nth lines 1 []) by lia.
  cbn [bind negb orb].
  destruct (Py.split (Py.lit " --> ") (Py.strip (nth 1 lines [])))
    as [|a [|b [|c r]]]; try reflexivity.
  destruct (SrtToJsxConverter.parse_srt_time a); cbn [bind is_ok andb];
    [|reflexivity].
  destruct (SrtToJsxConverter.parse_srt_time b); reflexivity.
Qed.

Lemma B_for_each_ok bs : forall acc,
  is_ok (for_each SrtToJsxConverter.parse_block bs acc)
  = forallb (fun block => negb (long_enough block) || timed block) bs.
Proof.
  induction bs as [|b bs IH]; intros acc; cbn [for_each forallb];
    [reflexivity|].
  rewrite <- (B_parse_block_ok acc b).
  destruct (SrtToJsxConverter.parse_block acc b) as [acc'|e];
    cbn [bind is_ok andb]; [apply IH | reflexivity].
Qed.

(** The captions of a document are, in their order, the captions of its
    blocks of three lines or more. *)
Lemma B_records bs : forall acc captions,
  for_each SrtToJsxConverter.parse_block bs acc = Ok captions ->
  exists new,
    captions = acc ++ new
    /\ Forall2 (fun block cap =>
                  SrtToJsxConverter.parse_block [] block = Ok [cap])
         (filter long_enough bs) new.
Proof.
  induction bs as [|b bs IH]; intros acc captions H; cbn [for_each] in H.
  - apply Ok_inj in H. subst. exists []. rewrite app_nil_r.
    split; [reflexivity | constructor].
  - unfold SrtToJsxConverter.parse_block at 1 in H.
    rewrite B_parse_lines_acc in H.
    fold (SrtToJsxConverter.parse_block [] b) in H.
    destruct (SrtToJsxConverter.parse_block [] b) as [l|e] eqn:Hb;
      cbn [bind] in H; [|discriminate].
    pose proof (B_parse_block_count [] b l Hb) as Hl. cbn [length] in Hl.
    destruct (IH _ _ H) as (new & -> & HF). cbn [filter].
    destruct (long_enough b).
    + destruct l as [|cap [|cap' l]]; try discriminate.
      exists (cap :: new). rewrite <- app_assoc.
      split; [reflexivity|]. constructor; assumption.
    + destruct l as [|cap l]; [|discriminate].
      exists new. rewrite app_nil_r. split; [reflexivity | exact HF].
Qed.

Lemma B_caption_fields block cap :
  SrtToJsxConverter.parse_block [] block = Ok [cap] ->
  SrtToJsxConverter.sequence cap
  = Py.strip (nth 0 (SrtToJsxConverter.block_lines block) [])
  /\ SrtToJsxConverter.text cap
     = Py.strip (Py.join [Py.nl]
                   (skipn 2 (SrtToJsxConverter.block_lines block))).
Proof.
  intros H. apply B_parse_lines_record in H.
  destruct H as [H | (x & y & H)]; [discriminate|].
  injection H as ->. split; reflexivity.
Qed.

Lemma A_record_text block sub :
  SrtToJsx.parse_block [] block = Ok [sub] ->
  SrtToJsx.text sub
  = flat_map (escape "r"%char)
      (Py.strip (Py.join (Py.lit " ")
                   (skipn 2 (SrtToJsx.block_lines block)))).
Proof.
  intros H. apply A_parse_lines_record in H.
  destruct H as [H | (x & y & H)]; [discriminate|].
  injection H as ->. reflexivity.
Qed.

(** The first line of a block is not looked at by [srt_to_jsx.py]. *)
Lemma A_first_line_skipped acc lines :
  SrtToJsx.parse_lines acc lines = SrtToJsx.parse_lines acc ([] :: tl lines).
Proof. destruct lines as [|line1 rest]; reflexivity. Qed.

Lemma records_after_first bs bs' :
  map after_first bs = map after_first bs' ->
  flat_map records_of bs = flat_map records_of bs'.
Proof.
  revert bs'. induction bs as [|b bs IH]; intros [|b' bs'] H;
    try discriminate; [reflexivity|].
  cbn [map] in H. injection H as Hb Hbs. cbn [flat_map].
  rewrite (IH _ Hbs). f_equal.
  unfold records_of, SrtToJsx.parse_block.
  rewrite (A_first_line_skipped [] (SrtToJsx.block_lines b)),
    (A_first_line_skipped [] (SrtToJsx.block_lines b')).
  unfold after_first in Hb. rewrite Hb. reflexivity.
Qed.

(** ** The layers of a script *)

Lemma Forall2_combine_seq {A B} (R : A -> B -> Prop) (l : list A) :
  forall k (l' : list B),
    Forall2 (fun ic b => R (snd ic) b) (combine (seq k (length l)) l) l' ->
    Forall2 R l l'.
Proof.
  induction l as [|a l IH]; intros k l' H; cbn [length seq combine] in H.
  - inversion H. constructor.
  - inversion H as [|ic b ics bs Hab Hrest]; subst.
    constructor; [exact Hab | exact (IH _ _ Hrest)].
Qed.

Lemma Forall2_enumerate {A B} (R : A -> B -> Prop) (l : list A)
  (l' : list B) :
  Forall2 (fun ic b => R (snd ic) b) (enumerate l) l' -> Forall2 R l l'.
Proof. apply Forall2_combine_seq. Qed.

Lemma B_layers_ok w h ics : forall acc out,
  for_each (SrtToJsxConverter.add_layer w h) ics acc = Ok out ->
  exists layers,
    Forall2 (fun ic layer =>
               SrtToJsxConverter.layer (fst ic) (snd ic) w h = Ok layer)
      ics layers
    /\ out = acc ++ concat layers.
Proof.
  induction ics as [|[i cap] ics IH]; intros acc out H; cbn [for_each] in H.
  - apply Ok_inj in H. subst. exists []. split; [constructor|].
    cbn [concat]. rewrite app_nil_r. reflexivity.
  - unfold SrtToJsxConverter.add_layer at 1 in H.
    destruct (SrtToJsxConverter.layer i cap w h) as [layer|e] eqn:Hl;
      cbn [bind] in H; [|discriminate].
    destruct (IH _ _ H) as (layers & HF & ->).
    exists (layer :: layers). split; [constructor; assumption|].
    cbn [concat]. rewrite app_assoc. reflexivity.
Qed.

(** The script of [srt_to_jsx_converter.py]: its head, one layer for each
    caption, its foot. *)
Lemma B_generate now captions comp_name w h fps script :
  SrtToJsxConverter.generate_jsx_script now captions comp_name w h fps
  = Ok script ->
  exists latest layers,
    PyNum.max (map SrtToJsxConverter.end_ captions) = Ok latest
    /\ Forall2 (fun ic layer =>
                  SrtToJsxConverter.layer (fst ic) (snd ic) w h = Ok layer)
         (enumerate captions) layers
    /\ script
       = SrtToJsxConverter.header now
           (F64.add latest (F64.of_Z SrtToJsxConverter.padding))
           comp_name w h fps
         ++ concat layers ++ SrtToJsxConverter.footer.
Proof.
  unfold SrtToJsxConverter.generate_jsx_script, SrtToJsxConverter.duration.
  destruct (PyNum.max (map SrtToJsxConverter.end_ captions)) as [latest|];
    cbn [bind]; [|discriminate].
  destruct (for_each (SrtToJsxConverter.add_layer w h) (enumerate captions) _)
    as [out|] eqn:Hf; cbn [bind]; [|discriminate].
  intros H. apply Ok_inj in H. subst script.
  destruct (B_layers_ok _ _ _ _ _ Hf) as (layers & HF & ->).
  exists latest, layers. split; [reflexivity|]. split; [exact HF|].
  rewrite <- app_assoc. reflexivity.
Qed.




(** ** The value of a timestamp *)

(** The value of a timestamp is less than a millionth of a thousandth of
    a second away from its thousandths. *)
Lemma stamp_close W M :
  0 <= W <= 362340 -> 0 <= M <= 99999 ->
  1000000
  * Z.abs (units (F64.add (F64.of_Z W) (F64.of_decimal false M (-3))) * 1000
           - (1000 * W + M) * 2 ^ 1074) < 2 ^ 1074.
Proof.
  intros HW HM.
  destruct (Accuracy.of_Z_near W 19) as [Hw1 Hw2];
    [change (2 ^ 19) with 524288; lia | lia |].
  destruct (Accuracy.seconds_near M HM) as [Hs1 Hs2].
  pose proof (Accuracy.units_nonneg _ Hw1) as Hw0.
  pose proof (Accuracy.units_nonneg _ Hs1) as Hs0.
  change (2 ^ (19 - 53 + 1074)) with (4096 * 2 ^ 1028) in Hw2.
  change (2 ^ 1074) with (70368744177664 * 2 ^ 1028) in *.
  assert (HP : 0 < 2 ^ 1028) by reflexivity.
  destruct (Accuracy.add_near (F64.of_Z W) (F64.of_decimal false M (-3)) 21
              Hw1 Hs1) as [Hx1 Hx2].
  - change (2 ^ (21 + 1074)) with (147573952589676412928 * 2 ^ 1028).
    set (P := 2 ^ 1028) in *. lia.
  - lia.
  - change (2 ^ (21 - 53 + 1074)) with (16384 * 2 ^ 1028) in Hx2.
    set (P := 2 ^ 1028) in *. lia.
Qed.

Lemma stamp_accurate h1 h2 m1 m2 s1 s2 f1 f2 f3 :
  Forall (fun c => Py.isdecimal c = true)
    [h1; h2; m1; m2; s1; s2; f1; f2; f3] ->
  exists x,
    SrtToJsx.parse_srt_time (stamp h1 h2 m1 m2 s1 s2 f1 f2 f3) = Ok x
    /\ x = F64.add
             (F64.of_Z (two_digits h1 h2 * 3600 + two_digits m1 m2 * 60))
             (F64.of_decimal false (millis s1 s2 f1 f2 f3) (-3))
    /\ modest x
    /\ 1000000
       * Z.abs (units x * 1000
                - thousandths h1 h2 m1 m2 s1 s2 f1 f2 f3 * 2 ^ 1074)
       < 2 ^ 1074
    /\ PyFmt.fixed3 x
       = PyFmt.str_of_int (whole_seconds h1 h2 m1 m2 + two_digits s1 s2)
         ++ Py.lit "." ++ [f1; f2; f3].
Proof.
  intros HF.
  destruct (stamp_prints _ _ _ _ _ _ _ _ _ HF) as (x & E & Hx & _ & Hp).
  pose proof (parse_stamp _ _ _ _ _ _ _ _ _ HF) as E'.
  rewrite E in E'. apply Ok_inj in E'.
  exists x. split; [exact E|]. split; [exact E'|]. split; [exact Hx|].
  split; [|exact Hp].
  destruct (stamp_thousandths _ _ _ _ _ _ _ _ _ HF) as (HW & HM & _ & _).
  rewrite E'. exact (stamp_close _ _ HW HM).
Qed.

(** The float of a later timestamp is greater. *)
Lemma stamp_order h1 h2 m1 m2 s1 s2 f1 f2 f3
  h1' h2' m1' m2' s1' s2' f1' f2' f3' :
  Forall (fun c => Py.isdecimal c = true)
    [h1; h2; m1; m2; s1; s2; f1; f2; f3] ->
  Forall (fun c => Py.isdecimal c = true)
    [h1'; h2'; m1'; m2'; s1'; s2'; f1'; f2'; f3'] ->
  thousandths h1 h2 m1 m2 s1 s2 f1 f2 f3
  < thousandths h1' h2' m1' m2' s1' s2' f1' f2' f3' ->
  exists x y,
    SrtToJsx.parse_srt_time (stamp h1 h2 m1 m2 s1 s2 f1 f2 f3) = Ok x
    /\ SrtToJsx.parse_srt_time
         (stamp h1' h2' m1' m2' s1' s2' f1' f2' f3') = Ok y
    /\ F64.ltb x y = true.
Proof.
  intros HF1 HF2 Hlt.
  destruct (stamp_prints _ _ _ _ _ _ _ _ _ HF1) as (x & E1 & Hx & Nx & _).
  destruct (stamp_prints _ _ _ _ _ _ _ _ _ HF2) as (y & E2 & Hy & Ny & _).
  exists x, y. split; [exact E1|]. split; [exact E2|].
  apply Accuracy.ltb_units; [exact Hx | exact Hy |].
  assert (HP : 0 < 2 ^ 1074) by reflexivity.
  set (P := 2 ^ 1074) in *.
  set (N1 := thousandths h1 h2 m1 m2 s1 s2 f1 f2 f3) in *.
  set (N2 := thousandths h1' h2' m1' m2' s1' s2' f1' f2' f3') in *.
  nia.
Qed.

(** * The claims *)

(** C1.  [srt_to_jsx.py] does what the claim says: for every document
    its parser raises nothing and returns, in their order, exactly one
    record for each block that has three lines or more and a second line
    matched by the pattern of the time range; a block that is not so is
    passed over.  [srt_to_jsx_converter.py] does not: its parser returns
    records only when every block of three lines or more has a second
    line that gives two times, and raises otherwise; on a document with
    one well-formed block and one garbled timing line, where
    [srt_to_jsx.py] returns the record of the well-formed block, it
    raises [ValueError]. *)
Theorem malformed_block_tolerance :
  (forall content,
     exists subtitles,
       SrtToJsx.parse_srt_text content = Ok subtitles
       /\ Forall2 (fun block sub => SrtToJsx.parse_block [] block = Ok [sub])
            (filter well_formed (blocks content)) subtitles
       /\ length subtitles = length (filter well_formed (blocks content)))
  /\ (forall content,
        is_ok (SrtToJsxConverter.parse_srt_text content)
        = forallb (fun block => negb (long_enough block) || timed block)
            (blocks content))
  /\ map well_formed (blocks sample_garbled) = [true; false]
  /\ map long_enough (blocks sample_garbled) = [true; true]
  /\ map timed (blocks sample_garbled) = [true; false]
  /\ SrtToJsx.parse_srt_text sample_garbled
     = Ok [{| SrtToJsx.start := F64.of_Z 1;
              SrtToJsx.end_ := F64.of_Z 3;
              SrtToJsx.text := Py.lit "Hello world" |}]
  /\ SrtToJsxConverter.parse_srt_text sample_garbled
     = Raise (ValueError (UnpackCount 1)).
Proof.
  split; [|split; [|repeat split; vm_compute; reflexivity]].
  - intros content. exists (flat_map records_of (blocks content)).
    pose proof (records_match (blocks content)) as HF.
    split; [apply A_parse_srt_text|]. split; [exact HF|].
    symmetry. apply (Forall2_length HF).
  - intros content. unfold SrtToJsxConverter.parse_srt_text.
    apply B_for_each_ok.
Qed.

(** C1, as stated, fails on [srt_to_jsx_converter.py]: a document with one
    well-formed block and one block with a garbled timing line yields no
    record but an exception. *)
Lemma converter_aborts_on_garbled_block :
  map well_formed (blocks sample_garbled) = [true; false]
  /\ SrtToJsxConverter.parse_srt_text sample_garbled
     = Raise (ValueError (UnpackCount 1)).
Proof. split; vm_compute; reflexivity. Qed.

(** C2 (amended).  The conversion fails exactly when the string splits on
    the colon into fewer than three fields, or [int] fails on the first
    or the second field, or [float] fails on the third (the comma
    replaced by a period), or the whole seconds are too large for a
    float; fields after the third are not looked at.  It is the same
    function in the two scripts. *)
Theorem conversion_fails_iff (time_str : str) :
  (is_ok (SrtToJsx.parse_srt_time time_str) = false <->
     (length (fields time_str) < 3)%nat
     \/ is_ok (PyNum.int_of_str (nth 0 (fields time_str) [])) = false
     \/ is_ok (PyNum.int_of_str (nth 1 (fields time_str) [])) = false
     \/ is_ok (PyNum.float_of_str (nth 2 (fields time_str) [])) = false
     \/ exists hours minutes,
          PyNum.int_of_str (nth 0 (fields time_str) []) = Ok hours
          /\ PyNum.int_of_str (nth 1 (fields time_str) []) = Ok minutes
          /\ PyNum.float_of_int (hours * 3600 + minutes * 60)
             = Raise OverflowError)
  /\ SrtToJsxConverter.parse_srt_time time_str
     = SrtToJsx.parse_srt_time time_str.
Proof.
  split; [|reflexivity].
  unfold SrtToJsx.parse_srt_time. fold (fields time_str).
  destruct (fields time_str) as [|p0 [|p1 [|p2 rest]]];
    cbn [Py.index nth_error nth bind length].
  - split; [intros _; left; lia | reflexivity].
  - destruct (PyNum.int_of_str p0) as [hours|]; cbn [bind is_ok].
    + split; [intros _; left; lia | reflexivity].
    + split; [intros _; left; lia | reflexivity].
  - destruct (PyNum.int_of_str p0) as [hours|]; cbn [bind is_ok];
      [|split; [intros _; left; lia | reflexivity]].
    destruct (PyNum.int_of_str p1) as [minutes|]; cbn [bind is_ok];
      split; try reflexivity; intros _; left; lia.
  - destruct (PyNum.int_of_str p0) as [hours|]; cbn [bind is_ok];
      [|split; [intros _; right; left; reflexivity | reflexivity]].
    destruct (PyNum.int_of_str p1) as [minutes|]; cbn [bind is_ok];
      [|split; [intros _; right; right; left; reflexivity | reflexivity]].
    destruct (PyNum.float_of_str p2) as [seconds|]; cbn [bind is_ok];
      [|split; [intros _; do 3 right; left; reflexivity | reflexivity]].
    destruct (float_of_int_cases (hours * 3600 + minutes * 60)) as [E | E];
      rewrite E; cbn [bind is_ok].
    + split; [discriminate|].
      intros [H|[H|[H|[H|(h & m & Hh & Hm & H)]]]]; try discriminate.
      * lia.
      * injection Hh as <-. injection Hm as <-. rewrite E in H.
        discriminate.
    + split; [|reflexivity]. intros _. do 4 right. eauto.
Qed.

(** C2, as stated, fails: a string of four fields converts, the fourth
    field ignored. *)
Lemma fourth_field_ignored :
  length (fields (Py.lit "00:00:01,000:99")) = 4%nat
  /\ SrtToJsx.parse_srt_time (Py.lit "00:00:01,000:99") = Ok (F64.of_Z 1)
  /\ SrtToJsxConverter.parse_srt_time (Py.lit "00:00:01,000:99")
     = Ok (F64.of_Z 1).
Proof. repeat split; vm_compute; reflexivity. Qed.

(** C3 (amended).  In [srt_to_jsx.py] every record of every document has
    a start and an end that are finite and not negative (the pattern
    admits digits only); the parse never raises.  Nothing compares the
    end with the start. *)
Theorem parsed_times_finite_nonneg (content : str) :
  exists subtitles,
    SrtToJsx.parse_srt_text content = Ok subtitles
    /\ Forall times_ok subtitles.
Proof.
  exists (flat_map records_of (blocks content)).
  split; [apply A_parse_srt_text | apply records_times].
Qed.

(** C3, as stated, fails: a block whose end is before its start makes a
    record in both scripts, and [srt_to_jsx_converter.py] also takes an
    infinite start and an end that is not a number. *)
Lemma backwards_cue_kept :
  (exists sub,
     SrtToJsx.parse_srt_text sample_backwards = Ok [sub]
     /\ F64.ltb (SrtToJsx.end_ sub) (SrtToJsx.start sub) = true)
  /\ (exists cap,
        SrtToJsxConverter.parse_srt_text sample_backwards = Ok [cap]
        /\ F64.ltb (SrtToJsxConverter.end_ cap) (SrtToJsxConverter.start cap)
           = true)
  /\ (exists cap,
        SrtToJsxConverter.parse_srt_text sample_infinite = Ok [cap]
        /\ F64.is_finite (SrtToJsxConverter.start cap) = false
        /\ F64.is_nan (SrtToJsxConverter.end_ cap) = true).
Proof.
  repeat split; eexists; (split; [vm_compute; reflexivity|]);
    try split; reflexivity.
Qed.

(** C4 (amended).  The captions [srt_to_jsx_converter.py] returns for a
    document are, in their order, those of its blocks of three lines or
    more, each with the text of the cue as it stands in the block (the
    lines from the third on, joined by the newline and stripped); its
    generator writes each text with every quote preceded by a backslash
    and every newline as backslash-n.  The records of [srt_to_jsx.py]
    hold the text with the replacement already made by the parser (quote
    to backslash-quote, newline to backslash-r, on the lines joined by a
    space), and its generator writes the text of each record as it is. *)
Theorem quotes_escaped_once :
  (forall content captions,
     SrtToJsxConverter.parse_srt_text content = Ok captions ->
     Forall2 (fun block cap =>
                SrtToJsxConverter.text cap
                = Py.strip (Py.join [Py.nl]
                              (skipn 2 (SrtToJsxConverter.block_lines block)))
                /\ substring (SrtToJsxConverter.text cap) block)
       (filter long_enough (blocks content)) captions)
  /\ (forall now captions comp_name comp_width comp_height fps script,
        SrtToJsxConverter.generate_jsx_script now captions comp_name
          comp_width comp_height fps = Ok script ->
        exists length_ layers,
          script
          = SrtToJsxConverter.header now length_ comp_name comp_width
              comp_height fps
            ++ concat layers ++ SrtToJsxConverter.footer
          /\ Forall2 (fun cap layer =>
                        substring
                          (Py.lit "comp.layers.addText(" ++ [Py.dquote]
                           ++ flat_map (escape "n"%char)
                                (SrtToJsxConverter.text cap)
                           ++ [Py.dquote] ++ Py.lit ");")
                          layer)
               captions layers)
  /\ (forall content,
        exists subtitles,
          SrtToJsx.parse_srt_text content = Ok subtitles
          /\ Forall2 (fun block sub =>
                        SrtToJsx.text sub
                        = flat_map (escape "r"%char)
                            (Py.strip
                               (Py.join (Py.lit " ")
                                  (skipn 2 (SrtToJsx.block_lines block)))))
               (filter well_formed (blocks content)) subtitles)
  /\ (forall subtitles comp_name width height fps,
        SrtToJsx.generate_jsx subtitles comp_name width height fps
        = SrtToJsx.header comp_name width height fps
          ++ concat (map (entry_line (length subtitles))
                       (enumerate subtitles))
          ++ SrtToJsx.footer
        /\ Forall (fun i_sub =>
                     substring
                       ([Py.dquote] ++ SrtToJsx.text (snd i_sub)
                        ++ [Py.dquote])
                       (entry_line (length subtitles) i_sub))
             (enumerate subtitles)).
Proof.
  split; [|split; [|split]].
  - intros content captions H.
    unfold SrtToJsxConverter.parse_srt_text in H.
    destruct (B_records _ _ _ H) as (new & -> & HF). cbn [app].
    eapply Forall2_impl; [|exact HF]. intros block cap Hb.
    destruct (B_caption_fields _ _ Hb) as [_ Ht].
    split; [exact Ht|]. rewrite Ht. apply cue_text_verbatim.
  - intros now captions comp_name comp_width comp_height fps script H.
    destruct (B_generate _ _ _ _ _ _ _ H) as (latest & layers & _ & HF & ->).
    exists (F64.add latest (F64.of_Z SrtToJsxConverter.padding)), layers.
    split; [reflexivity|].
    apply Forall2_enumerate. eapply Forall2_impl; [|exact HF].
    intros [i cap] layer Hl. cbn [fst snd] in *.
    exact (layer_text _ _ _ _ _ Hl).
  - intros content. exists (flat_map records_of (blocks content)).
    split; [apply A_parse_srt_text|].
    eapply Forall2_impl; [|exact (records_match (blocks content))].
    intros block sub Hb. exact (A_record_text _ _ Hb).
  - intros subtitles comp_name width height fps.
    split; [apply A_generate|].
    apply Forall_forall. intros [i sub] _.
    unfold entry_line, SrtToJsx.entry. cbn [fst snd].
    exists (Py.lit "    {start: " ++ PyFmt.fixed3 (SrtToJsx.start sub)
            ++ Py.lit ", end: " ++ PyFmt.fixed3 (SrtToJsx.end_ sub)
            ++ Py.lit ", text: "),
           (Py.lit "}"
            ++ (if Z.of_nat i <? Z.of_nat (length subtitles) - 1
                then Py.lit "," else [])
            ++ [Py.nl]).
    repeat rewrite <- app_assoc. reflexivity.
Qed.

Lemma quotes_escaped_once_witness :
  Forall2 (fun block cap =>
             SrtToJsxConverter.text cap
             = Py.strip (Py.join [Py.nl]
                           (skipn 2 (SrtToJsxConverter.block_lines block)))
             /\ substring (SrtToJsxConverter.text cap) block)
    (filter long_enough (blocks sample_quotes))
    [{| SrtToJsxConverter.sequence := Py.lit "1";
        SrtToJsxConverter.start := F64.of_Z 1;
        SrtToJsxConverter.end_ := F64.of_Z 3;
        SrtToJsxConverter.text :=
          Py.lit "He said " ++ [Py.dquote] ++ Py.lit "hi" ++ [Py.dquote] |}].
Proof.
  apply (proj1 quotes_escaped_once sample_quotes).
  vm_compute. reflexivity.
Defined.

(** C4, as stated, fails on [srt_to_jsx.py]: the text of its record has
    the quotes of the cue already escaped. *)
Lemma quotes_escaped_at_parse_time :
  exists sub,
    SrtToJsx.parse_srt_text sample_quotes = Ok [sub]
    /\ SrtToJsx.text sub
       = Py.lit "He said " ++ [Py.backslash; Py.dquote] ++ Py.lit "hi"
         ++ [Py.backslash; Py.dquote]
    /\ SrtToJsx.text sub
       <> Py.lit "He said " ++ [Py.dquote] ++ Py.lit "hi" ++ [Py.dquote].
Proof.
  eexists. split; [vm_compute; reflexivity|].
  split; [reflexivity | discriminate].
Qed.




(** C6 (amended).  The captions [srt_to_jsx_converter.py] returns for a
    document are, in their order, those of its blocks of three lines or
    more, each with the first line of the block as its sequence
    identifier, as text, with the white space around it removed.
    [srt_to_jsx.py] does not keep the first line: two documents whose
    blocks have the same lines after the first give the same records. *)
Theorem sequence_id_kept_as_text :
  (forall content captions,
     SrtToJsxConverter.parse_srt_text content = Ok captions ->
     Forall2 (fun block cap =>
                SrtToJsxConverter.sequence cap
                = Py.strip (nth 0 (SrtToJsxConverter.block_lines block) []))
       (filter long_enough (blocks content)) captions)
  /\ (forall content content',
        map after_first (blocks content) = map after_first (blocks content') ->
        SrtToJsx.parse_srt_text content = SrtToJsx.parse_srt_text content').
Proof.
  split.
  - intros content captions H.
    unfold SrtToJsxConverter.parse_srt_text in H.
    destruct (B_records _ _ _ H) as (new & -> & HF). cbn [app].
    eapply Forall2_impl; [|exact HF]. intros block cap Hb.
    exact (proj1 (B_caption_fields _ _ Hb)).
  - intros content content' H. rewrite !A_parse_srt_text.
    rewrite (records_after_first _ _ H). reflexivity.
Qed.

Lemma sequence_id_kept_as_text_witness :
  Forall2 (fun block cap =>
             SrtToJsxConverter.sequence cap
             = Py.strip (nth 0 (SrtToJsxConverter.block_lines block) []))
    (filter long_enough (blocks sample_padded_id))
    [{| SrtToJsxConverter.sequence := Py.lit "1";
        SrtToJsxConverter.start := F64.of_Z 1;
        SrtToJsxConverter.end_ := F64.of_Z 2;
        SrtToJsxConverter.text := Py.lit "Hi" |}]
  /\ SrtToJsx.parse_srt_text sample_padded_id
     = SrtToJsx.parse_srt_text sample_renumbered.
Proof.
  split.
  - apply (proj1 sequence_id_kept_as_text sample_padded_id).
    vm_compute. reflexivity.
  - apply (proj2 sequence_id_kept_as_text sample_padded_id
             sample_renumbered).
    vm_compute. reflexivity.
Defined.

(** C6, as stated, fails: the sequence identifier of
    [srt_to_jsx_converter.py] is the first line stripped, not the first
    line as it is. *)
Lemma sequence_id_stripped :
  nth 0 (SrtToJsxConverter.block_lines sample_padded_id) [] = Py.lit "1 "
  /\ exists cap,
       SrtToJsxConverter.parse_srt_text sample_padded_id = Ok [cap]
       /\ SrtToJsxConverter.sequence cap = Py.lit "1"
       /\ SrtToJsxConverter.sequence cap
          <> nth 0 (SrtToJsxConverter.block_lines sample_padded_id) [].
Proof.
  split; [reflexivity|]. eexists. split; [vm_compute; reflexivity|].
  split; [reflexivity | discriminate].
Qed.

(** C7 (amended).  A timestamp [HH:MM:SS,mmm] converts, in the two
    scripts, to the float sum of the whole seconds
    [hours * 3600 + minutes * 60] and of the float nearest to [SS.mmm].
    This float is less than a millionth of a millisecond away from
    [hours * 3600 + minutes * 60 + seconds], so that it prints with three
    decimals as that number, and a later timestamp converts to a greater
    float; it is not that number exactly for every timestamp.
    [01:02:03,500] converts to 3723.5 exactly. *)
Theorem timestamp_value :
  (forall h1 h2 m1 m2 s1 s2 f1 f2 f3,
     Forall (fun c => Py.isdecimal c = true)
       [h1; h2; m1; m2; s1; s2; f1; f2; f3] ->
     exists x,
       SrtToJsx.parse_srt_time (stamp h1 h2 m1 m2 s1 s2 f1 f2 f3) = Ok x
       /\ SrtToJsxConverter.parse_srt_time
            (stamp h1 h2 m1 m2 s1 s2 f1 f2 f3) = Ok x
       /\ x = F64.add
                (F64.of_Z (two_digits h1 h2 * 3600 + two_digits m1 m2 * 60))
                (F64.of_decimal false (millis s1 s2 f1 f2 f3) (-3))
       /\ finite_nonneg x = true
       /\ 1000000
          * Z.abs (units x * 1000
                   - thousandths h1 h2 m1 m2 s1 s2 f1 f2 f3 * 2 ^ 1074)
          < 2 ^ 1074
       /\ PyFmt.fixed3 x
          = PyFmt.str_of_int (whole_seconds h1 h2 m1 m2 + two_digits s1 s2)
            ++ Py.lit "." ++ [f1; f2; f3])
  /\ (forall h1 h2 m1 m2 s1 s2 f1 f2 f3
        h1' h2' m1' m2' s1' s2' f1' f2' f3',
        Forall (fun c => Py.isdecimal c = true)
          [h1; h2; m1; m2; s1; s2; f1; f2; f3] ->
        Forall (fun c => Py.isdecimal c = true)
          [h1'; h2'; m1'; m2'; s1'; s2'; f1'; f2'; f3'] ->
        thousandths h1 h2 m1 m2 s1 s2 f1 f2 f3
        < thousandths h1' h2' m1' m2' s1' s2' f1' f2' f3' ->
        exists x y,
          SrtToJsx.parse_srt_time (stamp h1 h2 m1 m2 s1 s2 f1 f2 f3) = Ok x
          /\ SrtToJsx.parse_srt_time
               (stamp h1' h2' m1' m2' s1' s2' f1' f2' f3') = Ok y
          /\ F64.ltb x y = true)
  /\ exists seconds,
       SrtToJsx.parse_srt_time (Py.lit "01:02:03,500") = Ok seconds
       /\ SrtToJsxConverter.parse_srt_time (Py.lit "01:02:03,500")
          = Ok seconds
       /\ exactly seconds 37235 10.
Proof.
  split; [|split].
  - intros h1 h2 m1 m2 s1 s2 f1 f2 f3 HF.
    destruct (stamp_accurate _ _ _ _ _ _ _ _ _ HF)
      as (x & E & Hx & Hm & Hn & Hp).
    exists x. split; [exact E|]. split; [exact E|]. split; [exact Hx|].
    split; [|split; assumption].
    clear - Hm. destruct x as [[|]|[|]| |[|] m e]; try contradiction;
      reflexivity.
  - exact stamp_order.
  - eexists. split; [vm_compute; reflexivity|].
    split; [vm_compute; reflexivity|]. vm_compute. reflexivity.
Qed.

Lemma timestamp_value_witness :
  exists x,
    SrtToJsx.parse_srt_time (Py.lit "00:01:01,029") = Ok x
    /\ 1000000 * Z.abs (units x * 1000 - 61029 * 2 ^ 1074) < 2 ^ 1074
    /\ PyFmt.fixed3 x = Py.lit "61.029".
Proof.
  destruct (proj1 timestamp_value
              "0" "0" "0" "1" "0" "1" "0" "2" "9")%char
    as (x & E & _ & _ & _ & Hn & Hp); [repeat constructor|].
  exists x. split; [exact E|]. split; [exact Hn | exact Hp].
Defined.

(** C7, as stated, fails: [00:01:01,029] converts to a float that is not
    61029 thousandths, nor the float nearest to it; [repr] prints it as
    61.028999999999996. *)
Lemma timestamp_not_exact :
  exists x,
    SrtToJsx.parse_srt_time (Py.lit "00:01:01,029") = Ok x
    /\ SrtToJsxConverter.parse_srt_time (Py.lit "00:01:01,029") = Ok x
    /\ ~ exactly x 61029 1000
    /\ x <> F64.of_decimal false 61029 (-3)
    /\ PyFmt.repr x = Py.lit "61.028999999999996"
    /\ PyFmt.repr (F64.of_decimal false 61029 (-3)) = Py.lit "61.029".
Proof.
  eexists. split; [vm_compute; reflexivity|].
  split; [vm_compute; reflexivity|].
  split; [vm_compute; intros H; discriminate H|].
  split; [vm_compute; intros H; discriminate H|].
  split; vm_compute; reflexivity.
Qed.

(** C8.  For a document that is empty or all white space, the two parsers
    return no record and raise nothing; the conversion of
    [srt_to_jsx.py] then says that no valid subtitle was found and
    returns [False], the conversion of [srt_to_jsx_converter.py] raises
    the error of no captions found, and neither writes a file. *)
Theorem blank_document_no_captions
  (content : str) (fs : Os.filesystem) (srt_path now : str)
  (out : option str) :
  forallb Py.isspace content = true ->
  Os.lookup fs srt_path = Some content ->
  SrtToJsx.parse_srt_text content = Ok []
  /\ SrtToJsxConverter.parse_srt_text content = Ok []
  /\ SrtToJsx.convert_srt_to_jsx fs srt_path out
     = (false,
        [SrtToJsx.SayConverting; SrtToJsx.SayInput srt_path;
         SrtToJsx.SayOutput
           match out with
           | None => Py.replace (Py.lit ".srt") (Py.lit "_captions.jsx")
                       srt_path
           | Some p => p
           end;
         SrtToJsx.SayFound 0; SrtToJsx.SayNoValid],
        fs)
  /\ SrtToJsxConverter.convert_srt_to_jsx now fs srt_path out
     = (Raise (ValueError NoCaptionsFound), fs).
Proof.
  intros Hblank Hfile.
  assert (HA : SrtToJsx.parse_srt_text content = Ok []).
  { unfold SrtToJsx.parse_srt_text. rewrite (strip_blank _ Hblank).
    reflexivity. }
  assert (HB : SrtToJsxConverter.parse_srt_text content = Ok []).
  { unfold SrtToJsxConverter.parse_srt_text. rewrite (strip_blank _ Hblank).
    reflexivity. }
  repeat split; trivial.
  - unfold SrtToJsx.convert_srt_to_jsx, SrtToJsx.parse_srt_file, Os.exists_,
      Os.read.
    rewrite Hfile. simpl. rewrite HA. reflexivity.
  - unfold SrtToJsxConverter.convert_srt_to_jsx,
      SrtToJsxConverter.parse_srt_file, Os.exists_, Os.read.
    rewrite Hfile. simpl. rewrite HB. reflexivity.
Qed.

Lemma blank_document_no_captions_witness :
  SrtToJsx.parse_srt_text (Py.lit "  ") = Ok []
  /\ SrtToJsxConverter.convert_srt_to_jsx (Py.lit "2025-01-01 12:00:00")
       [(Py.lit "in.srt", Py.lit "  ")] (Py.lit "in.srt") None
     = (Raise (ValueError NoCaptionsFound), [(Py.lit "in.srt", Py.lit "  ")]).
Proof.
  destruct (blank_document_no_captions (Py.lit "  ")
              [(Py.lit "in.srt", Py.lit "  ")] (Py.lit "in.srt")
              (Py.lit "2025-01-01 12:00:00") None)
    as (HA & _ & _ & HB); [reflexivity | reflexivity |].
  split; [exact HA | exact HB].
Defined.




(** C10.  In [srt_to_jsx.py], a string the pattern
    [\d{2}:\d{2}:\d{2},\d{3}] matches converts: it has three fields, [int]
    reads the first two, [float] reads the third, and the sum is a float;
    so do the two groups of a timing line the parser matched. *)
Theorem matched_timestamp_converts :
  (forall t,
     fullmatch SrtToJsx.timestamp t = true ->
     exists f0 f1 f2 hours minutes seconds,
       fields t = [f0; f1; f2]
       /\ PyNum.int_of_str f0 = Ok hours
       /\ PyNum.int_of_str f1 = Ok minutes
       /\ PyNum.float_of_str f2 = Ok seconds
       /\ SrtToJsx.parse_srt_time t
          = Ok (F64.add (F64.of_Z (hours * 3600 + minutes * 60)) seconds))
  /\ (forall time_line time_match,
        Re.rematch SrtToJsx.time_range time_line = Some time_match ->
        is_ok (SrtToJsx.parse_srt_time (SrtToJsx.group time_match 1)) = true
        /\ is_ok (SrtToJsx.parse_srt_time (SrtToJsx.group time_match 2))
           = true).
Proof.
  split.
  - intros t Ht. apply fullmatch_shape in Ht.
    destruct Ht as [h1 h2 m1 m2 s1 s2 f1 f2 f3 HF].
    exists [h1; h2], [m1; m2], [s1; s2; "."%char; f1; f2; f3],
      (two_digits h1 h2), (two_digits m1 m2),
      (F64.of_decimal false (millis s1 s2 f1 f2 f3) (-3)).
    split; [apply stamp_fields; exact HF|].
    assert (H5 : Forall (fun c => Py.isdecimal c = true)
                   [s1; s2; f1; f2; f3]) by sub_digits HF.
    pose proof (parse_stamp _ _ _ _ _ _ _ _ _ HF) as Hp.
    pose proof (float_seconds _ _ _ _ _ H5) as Hs. clear H5.
    digits_facts.
    repeat split; try (apply int_two_digits; assumption).
    + exact Hs.
    + exact Hp.
  - intros time_line time_match Hm. apply groups_shape in Hm as [H1 H2].
    apply shape_converts in H1 as (x1 & -> & _).
    apply shape_converts in H2 as (x2 & -> & _).
    split; reflexivity.
Qed.

Lemma matched_timestamp_converts_witness :
  exists seconds,
    SrtToJsx.parse_srt_time (Py.lit "00:00:01,500") = Ok seconds.
Proof.
  destruct (proj1 matched_timestamp_converts (Py.lit "00:00:01,500"))
    as (f0 & f1 & f2 & hours & minutes & seconds & _ & _ & _ & _ & H);
    [reflexivity|].
  eexists. exact H.
Defined.

(** * Further properties *)

(** X1.  The text [generate_jsx_script] writes between the quotes of
    [addText] holds no newline, and every quote in it has a backslash
    before it; a text with neither a quote nor a newline is written as it
    is, so a backslash of the caption is not doubled. *)
Theorem safe_text_one_line (caption_text : str) :
  ~ In Py.nl (SrtToJsxConverter.safe_text caption_text)
  /\ quotes_escaped (SrtToJsxConverter.safe_text caption_text)
  /\ (forallb plain caption_text = true ->
      SrtToJsxConverter.safe_text caption_text = caption_text).
Proof.
  rewrite safe_text_escape. split; [|split].
  - apply escape_no_newline. discriminate.
  - apply escape_quotes. discriminate.
  - apply escape_plain.
Qed.

Lemma safe_text_one_line_witness :
  SrtToJsxConverter.safe_text (Py.lit "a\b") = Py.lit "a\b".
Proof.
  apply (proj2 (proj2 (safe_text_one_line (Py.lit "a\b")))). reflexivity.
Defined.

(** X2.  In [srt_to_jsx.py] the text of a record is the lines of the cue
    from the third on, joined by spaces and stripped, with a backslash
    before every quote: it holds no newline, so the replacement of the
    newline by backslash-r never changes anything. *)
Theorem record_text_one_line :
  (forall block l,
     SrtToJsx.parse_block [] block = Ok l ->
     Forall (fun sub =>
               SrtToJsx.text sub
               = Py.replace [Py.dquote] [Py.backslash; Py.dquote]
                   (Py.strip (Py.join (Py.lit " ")
                                (skipn 2 (SrtToJsx.block_lines block))))) l)
  /\ (forall content subtitles,
        SrtToJsx.parse_srt_text content = Ok subtitles ->
        Forall (fun sub =>
                  ~ In Py.nl (SrtToJsx.text sub)
                  /\ quotes_escaped (SrtToJsx.text sub)) subtitles).
Proof.
  assert (Hblock : forall block l,
             SrtToJsx.parse_block [] block = Ok l ->
             Forall (fun sub =>
               SrtToJsx.text sub
               = flat_map (escape "r"%char)
                   (Py.strip (Py.join (Py.lit " ")
                                (skipn 2 (SrtToJsx.block_lines block))))) l).
  { intros block l H. apply A_parse_lines_record in H.
    destruct H as [-> | (x & y & ->)]; constructor; [|constructor].
    reflexivity. }
  split.
  - intros block l H. apply Hblock in H.
    apply Forall_impl with (2 := H). intros sub ->.
    apply escape_no_line_break. apply A_raw_text_no_newline.
  - intros content subtitles H. rewrite A_parse_srt_text in H.
    apply Ok_inj in H. subst subtitles.
    apply Forall_flat_map. apply Forall_forall. intros block _.
    assert (Hr : SrtToJsx.parse_block [] block = Ok (records_of block)).
    { rewrite A_parse_block_acc. reflexivity. }
    apply Hblock in Hr. apply Forall_impl with (2 := Hr). intros sub ->.
    split; [apply escape_no_newline | apply escape_quotes]; discriminate.
Qed.

Lemma record_text_one_line_witness :
  Forall (fun sub =>
            ~ In Py.nl (SrtToJsx.text sub)
            /\ quotes_escaped (SrtToJsx.text sub))
    [{| SrtToJsx.start := F64.of_Z 1;
        SrtToJsx.end_ := F64.of_Z 3;
        SrtToJsx.text :=
          Py.lit "He said " ++ [Py.backslash; Py.dquote] ++ Py.lit "hi"
          ++ [Py.backslash; Py.dquote] |}].
Proof.
  apply (proj2 record_text_one_line sample_quotes). vm_compute. reflexivity.
Defined.

(** X3.  [generate_jsx] writes its head, the entries of the array
    [captions] with a comma and a newline between two entries and a
    newline after the last, and its foot; no entry at all for no
    records. *)
Theorem captions_array_commas (subtitles : list SrtToJsx.subtitle)
  (comp_name : str) (width height fps : Z) :
  SrtToJsx.generate_jsx subtitles comp_name width height fps
  = SrtToJsx.header comp_name width height fps
    ++ Py.join (Py.lit "," ++ [Py.nl]) (map SrtToJsx.entry subtitles)
    ++ match subtitles with [] => [] | _ => [Py.nl] end
    ++ SrtToJsx.footer.
Proof.
  rewrite A_generate. unfold enumerate.
  rewrite (entry_lines_join (length subtitles) subtitles 0) by lia.
  rewrite <- !app_assoc. reflexivity.
Qed.

(** X4.  With sizes the interpreter prints, [generate_jsx_script] raises
    the [ValueError] of [max] on no captions; on captions it raises
    [OverflowError] when half the width is no float, and it returns a
    script when the width is below [2^900] in size. *)
Theorem generator_raises (now : str)
  (captions : list SrtToJsxConverter.caption) (comp_name : str)
  (comp_width comp_height fps : Z) :
  printable comp_width -> printable comp_height ->
  printable (comp_height - 100) -> printable fps ->
  (captions = [] ->
   SrtToJsxConverter.generate_jsx_script now captions comp_name comp_width
     comp_height fps = Raise (ValueError EmptyMax))
  /\ (captions <> [] ->
      is_ok (PyNum.truediv comp_width 2) = false ->
      SrtToJsxConverter.generate_jsx_script now captions comp_name comp_width
        comp_height fps = Raise OverflowError)
  /\ (captions <> [] ->
      - 2 ^ 900 < comp_width < 2 ^ 900 ->
      is_ok (SrtToJsxConverter.generate_jsx_script now captions comp_name
               comp_width comp_height fps) = true).
Proof.
  intros _ _ _ _. split; [|split].
  - intros ->. reflexivity.
  - intros Hne Hw. destruct captions as [|cap0 caps]; [contradiction|].
    destruct (truediv_two_cases comp_width) as [H|H]; [congruence|].
    destruct (max_nonempty (SrtToJsxConverter.end_ cap0)
                (map SrtToJsxConverter.end_ caps)) as (latest & Hmax & _).
    unfold SrtToJsxConverter.generate_jsx_script, SrtToJsxConverter.duration.
    cbn [map]. rewrite Hmax. cbn [bind]. unfold enumerate.
    cbn [length seq combine for_each].
    unfold SrtToJsxConverter.add_layer at 1, SrtToJsxConverter.layer.
    rewrite H. reflexivity.
  - intros Hne Hw. destruct captions as [|cap0 caps]; [contradiction|].
    destruct (max_nonempty (SrtToJsxConverter.end_ cap0)
                (map SrtToJsxConverter.end_ caps)) as (latest & Hmax & _).
    unfold SrtToJsxConverter.generate_jsx_script, SrtToJsxConverter.duration.
    cbn [map]. rewrite Hmax. cbn [bind].
    destruct (B_layers comp_width comp_height (enumerate (cap0 :: caps))
                (truediv_two_small comp_width Hw)
                (SrtToJsxConverter.header now
                   (F64.add latest (F64.of_Z SrtToJsxConverter.padding))
                   comp_name comp_width comp_height fps))
      as (layers & _ & ->).
    reflexivity.
Qed.

Lemma generator_raises_witness :
  is_ok (SrtToJsxConverter.generate_jsx_script sample_now
           [{| SrtToJsxConverter.sequence := Py.lit "1";
               SrtToJsxConverter.start := F64.of_Z 1;
               SrtToJsxConverter.end_ := F64.of_Z 3;
               SrtToJsxConverter.text := Py.lit "Hello world" |}]
           SrtToJsxConverter.default_comp_name SrtToJsxConverter.default_width
           SrtToJsxConverter.default_height SrtToJsxConverter.default_fps)
  = true.
Proof.
  refine (proj2 (proj2 (generator_raises sample_now _ _ _ _ _ _ _ _ _)) _ _);
    try (vm_compute; reflexivity);
    [discriminate | vm_compute; split; reflexivity].
Defined.

(** X5.  [convert_srt_to_jsx] of [srt_to_jsx.py] returns [True] only
    when the file exists and one of its blocks is accepted: it has then
    said how many records it found, as many as the accepted blocks, and
    the script generated from the records is the text of the output
    path.  On a path that does not exist it says so, and on a file none
    of whose blocks is accepted it says that no valid subtitle was found:
    it returns [False] then and writes no file. *)
Theorem conversion_outcome (fs : Os.filesystem) (srt_path : str)
  (jsx_path : option str) :
  let result := SrtToJsx.convert_srt_to_jsx fs srt_path jsx_path in
  let success := fst (fst result) in
  let said := snd (fst result) in
  let files := snd result in
  let out := captions_path srt_path jsx_path in
  (Os.lookup fs srt_path = None ->
   result = (false, [SrtToJsx.SayNotFound srt_path], fs))
  /\ (forall content,
        Os.lookup fs srt_path = Some content ->
        existsb well_formed (blocks content) = false ->
        result
        = (false,
           [SrtToJsx.SayConverting; SrtToJsx.SayInput srt_path;
            SrtToJsx.SayOutput out; SrtToJsx.SayFound 0;
            SrtToJsx.SayNoValid],
           fs))
  /\ (success = true ->
      exists content,
        Os.lookup fs srt_path = Some content
        /\ existsb well_formed (blocks content) = true
        /\ said
           = [SrtToJsx.SayConverting; SrtToJsx.SayInput srt_path;
              SrtToJsx.SayOutput out;
              SrtToJsx.SayFound
                (length (filter well_formed (blocks content)));
              SrtToJsx.SayComplete out]
        /\ Os.lookup files out
           = Some (SrtToJsx.generate_jsx
                     (flat_map records_of (blocks content))
                     SrtToJsx.default_comp_name SrtToJsx.default_width
                     SrtToJsx.default_height SrtToJsx.default_fps)).
Proof.
  cbv zeta. split; [|split].
  - intros Hf. apply A_convert_missing. exact Hf.
  - intros content Hf Hw.
    rewrite (A_convert_found fs srt_path jsx_path content Hf). cbv zeta.
    rewrite Hw. rewrite (proj2 (records_none (blocks content)) Hw).
    reflexivity.
  - destruct (Os.lookup fs srt_path) as [content|] eqn:Hf.
    + rewrite (A_convert_found fs srt_path jsx_path content Hf). cbv zeta.
      destruct (existsb well_formed (blocks content)) eqn:Hw; cbn [fst snd];
        [|discriminate].
      intros _. exists content. split; [reflexivity|].
      split; [exact Hw|]. split; [|apply lookup_write_same].
      rewrite (Forall2_length (records_match (blocks content))).
      reflexivity.
    + rewrite (A_convert_missing fs srt_path jsx_path Hf). cbn [fst snd].
      discriminate.
Qed.

Lemma conversion_outcome_witness :
  exists content,
    Os.lookup [(Py.lit "in.srt", sample_late)] (Py.lit "in.srt")
    = Some content
    /\ existsb well_formed (blocks content) = true
    /\ snd (fst (SrtToJsx.convert_srt_to_jsx
                   [(Py.lit "in.srt", sample_late)] (Py.lit "in.srt") None))
       = [SrtToJsx.SayConverting; SrtToJsx.SayInput (Py.lit "in.srt");
          SrtToJsx.SayOutput (captions_path (Py.lit "in.srt") None);
          SrtToJsx.SayFound (length (filter well_formed (blocks content)));
          SrtToJsx.SayComplete (captions_path (Py.lit "in.srt") None)]
    /\ Os.lookup
         (snd (SrtToJsx.convert_srt_to_jsx
                 [(Py.lit "in.srt", sample_late)] (Py.lit "in.srt") None))
         (captions_path (Py.lit "in.srt") None)
       = Some (SrtToJsx.generate_jsx
                 (flat_map records_of (blocks content))
                 SrtToJsx.default_comp_name SrtToJsx.default_width
                 SrtToJsx.default_height SrtToJsx.default_fps).
Proof.
  apply (proj2 (proj2 (conversion_outcome [(Py.lit "in.srt", sample_late)]
                         (Py.lit "in.srt") None))).
  vm_compute. reflexivity.
Defined.



(** X7.  With no output path, [srt_to_jsx.py] writes to the input path
    with [.srt] replaced by [_captions.jsx]: the stem and [_captions.jsx]
    for a stem without [.srt] in it; and the input path itself when
    [.srt] does not occur in it, so that a successful conversion leaves
    the script in the place of the subtitles. *)
Theorem captions_path_default :
  (forall stem,
     occurs (Py.lit ".srt") stem = false ->
     captions_path (stem ++ Py.lit ".srt") None
     = stem ++ Py.lit "_captions.jsx")
  /\ (forall srt_path,
        occurs (Py.lit ".srt") srt_path = false ->
        captions_path srt_path None = srt_path)
  /\ (forall fs srt_path content,
        occurs (Py.lit ".srt") srt_path = false ->
        Os.lookup fs srt_path = Some content ->
        existsb well_formed (blocks content) = true ->
        Os.lookup (snd (SrtToJsx.convert_srt_to_jsx fs srt_path None))
          srt_path
        = Some (SrtToJsx.generate_jsx (flat_map records_of (blocks content))
                  SrtToJsx.default_comp_name SrtToJsx.default_width
                  SrtToJsx.default_height SrtToJsx.default_fps)).
Proof.
  split; [|split].
  - intros stem H. apply replace_srt_suffix. exact H.
  - intros srt_path H. apply replace_absent. exact H.
  - intros fs srt_path content H Hf Hw.
    rewrite (A_convert_found fs srt_path None content Hf). cbv zeta.
    rewrite Hw. cbn [snd]. unfold captions_path.
    rewrite (replace_absent _ _ _ H). apply lookup_write_same.
Qed.

Lemma captions_path_default_witness :
  captions_path (Py.lit "demo.srt") None = Py.lit "demo_captions.jsx".
Proof.
  apply (proj1 captions_path_default (Py.lit "demo")). reflexivity.
Defined.

(** X8.  With no output path, [srt_to_jsx_converter.py] writes beside the
    input: the directory of the output path is the directory of the input
    path, and its name is the name of the input without its extension,
    followed by [_ae_import.jsx]. *)
Theorem import_path_default :
  (forall srt_path,
     Os.basename (import_path srt_path None)
     = Os.splitext_root (Os.basename srt_path) ++ Py.lit "_ae_import.jsx"
     /\ Os.dirname (import_path srt_path None) = Os.dirname srt_path)
  /\ (forall stem,
        stem <> [] -> has Os.dot stem = false -> has Os.slash stem = false ->
        import_path (stem ++ Py.lit ".srt") None
        = stem ++ Py.lit "_ae_import.jsx").
Proof.
  split.
  - intros srt_path. unfold import_path. apply join_beside.
    + rewrite has_app. replace (has Os.slash (Py.lit "_ae_import.jsx"))
        with false by reflexivity.
      rewrite orb_false_r. apply splitext_root_no_slash.
      apply after_last_no.
    + apply dirname_cases.
  - intros stem Hne Hd Hs. unfold import_path.
    assert (Hp : has Os.slash (stem ++ Py.lit ".srt") = false).
    { rewrite has_app, Hs. reflexivity. }
    unfold Os.basename, Os.dirname.
    rewrite (after_last_none _ _ Hp), (upto_last_none _ _ Hp).
    cbn [forallb]. rewrite (splitext_root_srt stem Hne Hd).
    unfold Os.join. rewrite startswith_slash; [reflexivity|].
    rewrite has_app, Hs. reflexivity.
Qed.

Lemma import_path_default_witness :
  import_path (Py.lit "demo.srt") None = Py.lit "demo_ae_import.jsx".
Proof.
  apply (proj2 import_path_default (Py.lit "demo"));
    [discriminate | reflexivity | reflexivity].
Defined.

(** X9.  The main block of [srt_to_jsx.py] exits with 0 or 1.  It exits
    with 0 only when it has a path argument, the file exists and one of
    its blocks is accepted.  It exits with 1 and writes no file after the
    two lines on how to call it when the path is missing, on a path that
    does not exist, and on a file none of whose blocks is accepted.  The
    name of the script and the arguments after the second are not looked
    at. *)
Theorem main_exit_status (fs : Os.filesystem) (argv : list str) :
  let result := SrtToJsx.main fs argv in
  let status := fst (fst result) in
  (status = 0 \/ status = 1)
  /\ (status = 0 ->
        (2 <= length argv)%nat
        /\ exists content,
             Os.lookup fs (nth 1 argv []) = Some content
             /\ existsb well_formed (blocks content) = true)
  /\ ((length argv < 2)%nat ->
      result = (1, [SrtToJsx.SayUsage; SrtToJsx.SayExample], fs))
  /\ ((2 <= length argv)%nat ->
      Os.lookup fs (nth 1 argv []) = None ->
      result
      = (1, [SrtToJsx.Say (SrtToJsx.SayNotFound (nth 1 argv []))], fs))
  /\ (forall content,
        (2 <= length argv)%nat ->
        Os.lookup fs (nth 1 argv []) = Some content ->
        existsb well_formed (blocks content) = false ->
        status = 1 /\ snd result = fs)
  /\ (forall prog srt_file jsx_file more,
        argv = prog :: srt_file :: jsx_file :: more ->
        result = SrtToJsx.main fs [[]; srt_file; jsx_file]).
Proof.
  cbv zeta. unfold SrtToJsx.main.
  destruct (Nat.ltb_spec (length argv) 2) as [Hl|Hl].
  - cbn [fst snd]. repeat split; auto; try lia; try discriminate.
    intros prog srt_file jsx_file more ->. cbn [length] in Hl. lia.
  - set (jsx_file := if (2 <? length argv)%nat then Some (nth 2 argv [])
                     else None).
    assert (Hlast : forall prog srt_file jsx_file' more,
               argv = prog :: srt_file :: jsx_file' :: more ->
               (let '(success, said, fs0) :=
                  SrtToJsx.convert_srt_to_jsx fs (nth 1 argv []) jsx_file in
                (if success then 0 else 1, map SrtToJsx.Say said, fs0))
               = SrtToJsx.main fs [[]; srt_file; jsx_file']).
    { intros prog srt_file jsx_file' more E. unfold jsx_file. rewrite E.
      reflexivity. }
    destruct (Os.lookup fs (nth 1 argv [])) as [content|] eqn:Hf.
    + rewrite (A_convert_found fs _ jsx_file content Hf) in *. cbv zeta in *.
      destruct (existsb well_formed (blocks content)) eqn:Hw; cbn [fst snd].
      * split; [auto|]. split; [intros _; split; [lia|]; exists content; auto|].
        split; [lia|]. split; [discriminate|]. split; [|exact Hlast].
        intros c _ Hc Hw'. injection Hc as <-. congruence.
      * split; [auto|]. split; [discriminate|]. split; [lia|].
        split; [discriminate|]. split; [|exact Hlast].
        intros c _ _ _. split; reflexivity.
    + rewrite (A_convert_missing fs _ jsx_file Hf) in *. cbn [fst snd].
      repeat split; auto; try lia; try discriminate.
Qed.

Lemma main_exit_status_witness :
  (2 <= length [Py.lit "srt_to_jsx.py"; Py.lit "in.srt"])%nat
  /\ exists content,
       Os.lookup [(Py.lit "in.srt", sample_late)]
         (nth 1 [Py.lit "srt_to_jsx.py"; Py.lit "in.srt"] [])
       = Some content
       /\ existsb well_formed (blocks content) = true.
Proof.
  apply (proj1 (proj2 (main_exit_status [(Py.lit "in.srt", sample_late)]
                         [Py.lit "srt_to_jsx.py"; Py.lit "in.srt"]))).
  vm_compute. reflexivity.
Defined.

(** X10.  White space before and after the document does not change what
    the two parsers return. *)
Theorem surrounding_space_ignored (before content after : str) :
  forallb Py.isspace before = true -> forallb Py.isspace after = true ->
  SrtToJsx.parse_srt_text (before ++ content ++ after)
  = SrtToJsx.parse_srt_text content
  /\ SrtToJsxConverter.parse_srt_text (before ++ content ++ after)
     = SrtToJsxConverter.parse_srt_text content.
Proof.
  intros Hb Ha.
  unfold SrtToJsx.parse_srt_text, SrtToJsxConverter.parse_srt_text.
  rewrite (strip_around _ _ _ Hb Ha). split; reflexivity.
Qed.

Lemma surrounding_space_ignored_witness :
  SrtToJsx.parse_srt_text ([Py.nl] ++ sample_late ++ [Py.nl; Py.nl])
  = SrtToJsx.parse_srt_text sample_late.
Proof.
  apply (proj1 (surrounding_space_ignored [Py.nl] sample_late [Py.nl; Py.nl]
                  eq_refl eq_refl)).
Defined.

(** X11.  The pattern of [srt_to_jsx.py] matches a line exactly when the
    line begins with a timestamp, white space or none, the arrow, white
    space or none, and a timestamp, whatever follows; the groups are the
    two timestamps.  A block of three lines or more with such a second
    line gives one record with the times of the two timestamps; a block
    whose second line is not so gives none. *)
Theorem timing_line_guard :
  (forall line m,
     Re.rematch SrtToJsx.time_range line = Some m <->
     exists t1 t2, timing_line line t1 t2 /\ m = [t1; t2])
  /\ (forall (lines : list str) t1 t2,
        (3 <= length lines)%nat ->
        timing_line (nth 1 lines []) t1 t2 ->
        exists sub,
          SrtToJsx.parse_lines [] lines = Ok [sub]
          /\ SrtToJsx.parse_srt_time t1 = Ok (SrtToJsx.start sub)
          /\ SrtToJsx.parse_srt_time t2 = Ok (SrtToJsx.end_ sub))
  /\ (forall acc (lines : list str),
        (forall t1 t2, ~ timing_line (nth 1 lines []) t1 t2) ->
        SrtToJsx.parse_lines acc lines = Ok acc).
Proof.
  split; [|split].
  - intros line m. split; [apply rematch_timing_line|].
    intros (t1 & t2 & Ht & ->). apply timing_line_matches. exact Ht.
  - intros lines t1 t2 Hl Ht.
    destruct (A_parse_lines_timing lines t1 t2 Hl Ht)
      as (x1 & x2 & E1 & E2 & E).
    eexists. split; [exact E|]. split; assumption.
  - intros acc lines Hno. unfold SrtToJsx.parse_lines.
    destruct (Nat.leb_spec 3 (length lines)) as [Hl|]; [|reflexivity].
    rewrite (index_nth lines 1 []) by lia. cbn [bind].
    destruct (Re.rematch SrtToJsx.time_range (nth 1 lines [])) as [m|] eqn:E;
      [|reflexivity].
    apply rematch_timing_line in E as (t1 & t2 & Ht & _).
    destruct (Hno t1 t2 Ht).
Qed.

Lemma timing_line_guard_witness :
  Re.rematch SrtToJsx.time_range
    (Py.lit "00:00:01,000-->" ++ [ascii_of_nat 9]
     ++ Py.lit "00:00:03,000 X1:40")
  = Some [Py.lit "00:00:01,000"; Py.lit "00:00:03,000"].
Proof.
  apply (proj2 (proj1 timing_line_guard _ _)).
  exists (Py.lit "00:00:01,000"), (Py.lit "00:00:03,000").
  split; [|reflexivity].
  refine (TimingLine (Py.lit "00:00:01,000") [] [ascii_of_nat 9]
            (Py.lit "00:00:03,000") (Py.lit " X1:40") _ _ eq_refl eq_refl).
  - refine (Shape "0" "0" "0" "0" "0" "1" "0" "0" "0" _)%char.
    repeat constructor.
  - refine (Shape "0" "0" "0" "0" "0" "3" "0" "0" "0" _)%char.
    repeat constructor.
Defined.

(** X12.  On a document whose blocks of three lines or more have a second
    line made of a timestamp, the arrow between two spaces and a
    timestamp (and white space at most after it), the two parsers return
    as many records, with the same start and the same end; the text of
    [srt_to_jsx.py] is the text of [srt_to_jsx_converter.py] with a space
    for each newline and a backslash before each quote. *)
Theorem parsers_agree (content : str) :
  Forall canonical (blocks content) ->
  exists subtitles captions,
    SrtToJsx.parse_srt_text content = Ok subtitles
    /\ SrtToJsxConverter.parse_srt_text content = Ok captions
    /\ Forall2 same_cue subtitles captions.
Proof.
  intros H. unfold SrtToJsx.parse_srt_text, SrtToJsxConverter.parse_srt_text.
  apply (B_for_each_agrees (blocks content) [] [] H). constructor.
Qed.

Lemma parsers_agree_witness :
  exists subtitles captions,
    SrtToJsx.parse_srt_text sample_late = Ok subtitles
    /\ SrtToJsxConverter.parse_srt_text sample_late = Ok captions
    /\ Forall2 same_cue subtitles captions.
Proof.
  apply (parsers_agree sample_late).
  replace (blocks sample_late) with [sample_late]
    by (vm_compute; reflexivity).
  constructor; [|constructor]. right.
  exists (Py.lit "00:01:00,000"), (Py.lit "00:01:01,000"), [].
  split; [|split; [|split]].
  - refine (Shape "0" "0" "0" "1" "0" "0" "0" "0" "0" _)%char.
    repeat constructor.
  - refine (Shape "0" "0" "0" "1" "0" "1" "0" "0" "0" _)%char.
    repeat constructor.
  - reflexivity.
  - vm_compute. reflexivity.
Defined.

(** X13.  The time of a timestamp [HH:MM:SS,mmm], printed with three
    decimals as [generate_jsx] does, is the whole seconds
    [HH * 3600 + MM * 60 + SS] in decimal, a period and the digits [mmm]:
    the float arithmetic loses no millisecond.  So the entry of the array
    for an accepted block shows the times of its timing line. *)
Theorem times_print_to_the_millisecond :
  (forall h1 h2 m1 m2 s1 s2 f1 f2 f3,
     Forall (fun c => Py.isdecimal c = true)
       [h1; h2; m1; m2; s1; s2; f1; f2; f3] ->
     exists x,
       SrtToJsx.parse_srt_time (stamp h1 h2 m1 m2 s1 s2 f1 f2 f3) = Ok x
       /\ PyFmt.fixed3 x
          = PyFmt.str_of_int (whole_seconds h1 h2 m1 m2 + two_digits s1 s2)
            ++ Py.lit "." ++ [f1; f2; f3])
  /\ (forall (lines : list str) h1 h2 m1 m2 s1 s2 f1 f2 f3
        h1' h2' m1' m2' s1' s2' f1' f2' f3',
        (3 <= length lines)%nat ->
        timing_line (nth 1 lines [])
          (stamp h1 h2 m1 m2 s1 s2 f1 f2 f3)
          (stamp h1' h2' m1' m2' s1' s2' f1' f2' f3') ->
        exists sub,
          SrtToJsx.parse_lines [] lines = Ok [sub]
          /\ SrtToJsx.entry sub
             = Py.lit "    {start: "
               ++ PyFmt.str_of_int
                    (whole_seconds h1 h2 m1 m2 + two_digits s1 s2)
               ++ Py.lit "." ++ [f1; f2; f3] ++ Py.lit ", end: "
               ++ PyFmt.str_of_int
                    (whole_seconds h1' h2' m1' m2' + two_digits s1' s2')
               ++ Py.lit "." ++ [f1'; f2'; f3'] ++ Py.lit ", text: "
               ++ [Py.dquote] ++ SrtToJsx.text sub ++ [Py.dquote]
               ++ Py.lit "}").
Proof.
  split.
  - intros h1 h2 m1 m2 s1 s2 f1 f2 f3 HF.
    destruct (stamp_prints _ _ _ _ _ _ _ _ _ HF) as (x & E & _ & _ & Hp).
    exists x. split; assumption.
  - intros lines h1 h2 m1 m2 s1 s2 f1 f2 f3
      h1' h2' m1' m2' s1' s2' f1' f2' f3' Hl Ht.
    destruct (A_parse_lines_timing lines _ _ Hl Ht)
      as (x1 & x2 & E1 & E2 & E).
    destruct (timing_line_shapes _ _ _ Ht) as [HF1 HF2].
    apply stamp_digits in HF1. apply stamp_digits in HF2.
    destruct (stamp_prints _ _ _ _ _ _ _ _ _ HF1) as (y1 & F1 & _ & _ & P1).
    destruct (stamp_prints _ _ _ _ _ _ _ _ _ HF2) as (y2 & F2 & _ & _ & P2).
    rewrite E1 in F1. rewrite E2 in F2.
    apply Ok_inj in F1. apply Ok_inj in F2. subst y1 y2.
    eexists. split; [exact E|].
    unfold SrtToJsx.entry.
    cbn [SrtToJsx.start SrtToJsx.end_ SrtToJsx.text].
    rewrite P1, P2. rewrite <- !app_assoc. reflexivity.
Qed.

Lemma times_print_to_the_millisecond_witness :
  exists x,
    SrtToJsx.parse_srt_time (Py.lit "01:02:03,450") = Ok x
    /\ PyFmt.fixed3 x = Py.lit "3723.450".
Proof.
  apply (proj1 times_print_to_the_millisecond
           "0" "1" "0" "2" "0" "3" "4" "5" "0")%char.
  repeat constructor.
Defined.

(** X14.  The conversion keeps the order of timestamps: of two timestamps
    [HH:MM:SS,mmm], the one that tells more thousandths of a second
    converts to the greater float.  So the record of an accepted block
    whose second timestamp is later than its first has an end greater
    than its start. *)
Theorem later_stamp_later_time :
  (forall h1 h2 m1 m2 s1 s2 f1 f2 f3 h1' h2' m1' m2' s1' s2' f1' f2' f3',
     Forall (fun c => Py.isdecimal c = true)
       [h1; h2; m1; m2; s1; s2; f1; f2; f3] ->
     Forall (fun c => Py.isdecimal c = true)
       [h1'; h2'; m1'; m2'; s1'; s2'; f1'; f2'; f3'] ->
     thousandths h1 h2 m1 m2 s1 s2 f1 f2 f3
     < thousandths h1' h2' m1' m2' s1' s2' f1' f2' f3' ->
     exists x y,
       SrtToJsx.parse_srt_time (stamp h1 h2 m1 m2 s1 s2 f1 f2 f3) = Ok x
       /\ SrtToJsx.parse_srt_time
            (stamp h1' h2' m1' m2' s1' s2' f1' f2' f3') = Ok y
       /\ F64.ltb x y = true)
  /\ (forall (lines : list str) h1 h2 m1 m2 s1 s2 f1 f2 f3
        h1' h2' m1' m2' s1' s2' f1' f2' f3',
        (3 <= length lines)%nat ->
        timing_line (nth 1 lines [])
          (stamp h1 h2 m1 m2 s1 s2 f1 f2 f3)
          (stamp h1' h2' m1' m2' s1' s2' f1' f2' f3') ->
        thousandths h1 h2 m1 m2 s1 s2 f1 f2 f3
        < thousandths h1' h2' m1' m2' s1' s2' f1' f2' f3' ->
        exists sub,
          SrtToJsx.parse_lines [] lines = Ok [sub]
          /\ F64.ltb (SrtToJsx.start sub) (SrtToJsx.end_ sub) = true).
Proof.
  assert (Hmain : forall h1 h2 m1 m2 s1 s2 f1 f2 f3
                    h1' h2' m1' m2' s1' s2' f1' f2' f3',
     Forall (fun c => Py.isdecimal c = true)
       [h1; h2; m1; m2; s1; s2; f1; f2; f3] ->
     Forall (fun c => Py.isdecimal c = true)
       [h1'; h2'; m1'; m2'; s1'; s2'; f1'; f2'; f3'] ->
     thousandths h1 h2 m1 m2 s1 s2 f1 f2 f3
     < thousandths h1' h2' m1' m2' s1' s2' f1' f2' f3' ->
     exists x y,
       SrtToJsx.parse_srt_time (stamp h1 h2 m1 m2 s1 s2 f1 f2 f3) = Ok x
       /\ SrtToJsx.parse_srt_time
            (stamp h1' h2' m1' m2' s1' s2' f1' f2' f3') = Ok y
       /\ F64.ltb x y = true).
  { intros h1 h2 m1 m2 s1 s2 f1 f2 f3 h1' h2' m1' m2' s1' s2' f1' f2' f3'
      HF1 HF2 Hlt.
    destruct (stamp_prints _ _ _ _ _ _ _ _ _ HF1) as (x & E1 & Hx & Nx & _).
    destruct (stamp_prints _ _ _ _ _ _ _ _ _ HF2) as (y & E2 & Hy & Ny & _).
    exists x, y. split; [exact E1|]. split; [exact E2|].
    apply Accuracy.ltb_units; [exact Hx | exact Hy |].
    assert (HP : 0 < 2 ^ 1074) by reflexivity.
    set (P := 2 ^ 1074) in *.
    set (N1 := thousandths h1 h2 m1 m2 s1 s2 f1 f2 f3) in *.
    set (N2 := thousandths h1' h2' m1' m2' s1' s2' f1' f2' f3') in *.
    nia. }
  split; [exact Hmain|].
  intros lines h1 h2 m1 m2 s1 s2 f1 f2 f3
    h1' h2' m1' m2' s1' s2' f1' f2' f3' Hl Ht Hlt.
  destruct (A_parse_lines_timing lines _ _ Hl Ht)
    as (x1 & x2 & E1 & E2 & E).
  destruct (timing_line_shapes _ _ _ Ht) as [HF1 HF2].
  apply stamp_digits in HF1. apply stamp_digits in HF2.
  destruct (Hmain _ _ _ _ _ _ _ _ _ _ _ _ _ _ _ _ _ _ HF1 HF2 Hlt)
    as (x & y & F1 & F2 & Hxy).
  rewrite E1 in F1. rewrite E2 in F2.
  apply Ok_inj in F1. apply Ok_inj in F2. subst x y.
  eexists. split; [exact E|]. exact Hxy.
Qed.

Lemma later_stamp_later_time_witness :
  exists x y,
    SrtToJsx.parse_srt_time (Py.lit "00:00:59,999") = Ok x
    /\ SrtToJsx.parse_srt_time (Py.lit "00:01:00,000") = Ok y
    /\ F64.ltb x y = true.
Proof.
  apply (proj1 later_stamp_later_time
           "0" "0" "0" "0" "5" "9" "9" "9" "9"
           "0" "0" "0" "1" "0" "0" "0" "0" "0")%char.
  - repeat constructor.
  - repeat constructor.
  - vm_compute. reflexivity.
Defined.

(** X15.  For a document of canonical blocks that has captions, the
    duration [srt_to_jsx_converter.py] gives the composition is at least
    the end of every caption. *)
Theorem canonical_duration_covers (content : str)
  (captions : list SrtToJsxConverter.caption) :
  Forall canonical (blocks content) ->
  SrtToJsxConverter.parse_srt_text content = Ok captions ->
  captions <> [] ->
  exists length_,
    SrtToJsxConverter.duration captions = Ok length_
    /\ Forall (fun cap =>
                 F64.leb (SrtToJsxConverter.end_ cap) length_ = true)
         captions.
Proof.
  intros Hc Hp Hne.
  assert (Hm : Forall (fun cap => modest (SrtToJsxConverter.end_ cap))
                 captions).
  { apply (B_canonical_blocks (blocks content) [] captions Hc Hp).
    constructor. }
  destruct captions as [|cap0 caps]; [contradiction|].
  destruct (max_nonempty (SrtToJsxConverter.end_ cap0)
              (map SrtToJsxConverter.end_ caps)) as (latest & Hmax & Hin).
  change (SrtToJsxConverter.end_ cap0 :: map SrtToJsxConverter.end_ caps)
    with (map SrtToJsxConverter.end_ (cap0 :: caps)) in Hmax, Hin.
  exists (F64.add latest (F64.of_Z SrtToJsxConverter.padding)).
  split.
  { unfold SrtToJsxConverter.duration. rewrite Hmax. reflexivity. }
  assert (HF : Forall (fun x => valid x = true /\ F64.is_nan x = false)
                 (map SrtToJsxConverter.end_ (cap0 :: caps))).
  { apply Forall_map. apply Forall_impl with (2 := Hm).
    intros cap. apply modest_valid. }
  assert (Hl : valid latest = true /\ F64.is_nan latest = false)
    by (apply (proj1 (Forall_forall _ _) HF latest Hin)).
  assert (Hge : Forall (fun x => F64.leb x latest = true)
                  (map SrtToJsxConverter.end_ (cap0 :: caps))).
  { apply max_ge; [|exact Hmax].
    apply Forall_impl with (2 := HF). intros x [_ H]. exact H. }
  apply Forall_map in Hge. apply Forall_impl with (2 := Hge).
  intros cap Hcap. apply Round.leb_trans with latest; [exact Hcap|].
  apply Round.add_two_ge; apply Hl.
Qed.

Lemma canonical_duration_covers_witness :
  exists length_,
    SrtToJsxConverter.duration
      [{| SrtToJsxConverter.sequence := Py.lit "1";
          SrtToJsxConverter.start := F64.of_Z 60;
          SrtToJsxConverter.end_ := F64.of_Z 61;
          SrtToJsxConverter.text := Py.lit "Late" |}] = Ok length_
    /\ Forall (fun cap =>
                 F64.leb (SrtToJsxConverter.end_ cap) length_ = true)
         [{| SrtToJsxConverter.sequence := Py.lit "1";
             SrtToJsxConverter.start := F64.of_Z 60;
             SrtToJsxConverter.end_ := F64.of_Z 61;
             SrtToJsxConverter.text := Py.lit "Late" |}].
Proof.
  apply (canonical_duration_covers sample_late).
  - replace (blocks sample_late) with [sample_late]
      by (vm_compute; reflexivity).
    constructor; [|constructor]. right.
    exists (Py.lit "00:01:00,000"), (Py.lit "00:01:01,000"), [].
    split; [|split; [|split]].
    + refine (Shape "0" "0" "0" "1" "0" "0" "0" "0" "0" _)%char.
      repeat constructor.
    + refine (Shape "0" "0" "0" "1" "0" "1" "0" "0" "0" _)%char.
      repeat constructor.
    + reflexivity.
    + vm_compute. reflexivity.
  - vm_compute. reflexivity.
  - discriminate.
Defined.

(** X16.  The conversion of a timestamp raises [IndexError] exactly when
    the string has fewer than three fields and [int] reads each field it
    has; it is the same function in the two scripts. *)
Theorem short_timestamp_errors (time_str : str) :
  (SrtToJsx.parse_srt_time time_str = Raise IndexError <->
     (length (fields time_str) < 3)%nat
     /\ forall p, In p (fields time_str) ->
                  is_ok (PyNum.int_of_str p) = true)
  /\ SrtToJsxConverter.parse_srt_time time_str
     = SrtToJsx.parse_srt_time time_str.
Proof.
  split; [|apply parse_srt_time_same].
  unfold SrtToJsx.parse_srt_time. fold (fields time_str).
  destruct (fields time_str) as [|p0 [|p1 [|p2 rest]]];
    cbn [length Py.index nth_error bind].
  - split; [intros _; split; [lia | intros p []] | reflexivity].
  - destruct (PyNum.int_of_str p0) as [h|e] eqn:E0; cbn [bind].
    + split; [|reflexivity]. intros _. split; [lia|].
      intros p [<-|[]]. rewrite E0. reflexivity.
    + apply int_of_str_raises in E0 as E0'. subst e.
      split; [discriminate|]. intros [_ H].
      specialize (H p0 (or_introl eq_refl)). rewrite E0 in H. discriminate.
  - destruct (PyNum.int_of_str p0) as [h|e] eqn:E0; cbn [bind].
    + destruct (PyNum.int_of_str p1) as [m|e] eqn:E1; cbn [bind].
      * split; [|reflexivity]. intros _. split; [lia|].
        intros p [<-|[<-|[]]]; [rewrite E0 | rewrite E1]; reflexivity.
      * apply int_of_str_raises in E1 as E1'. subst e.
        split; [discriminate|]. intros [_ H].
        specialize (H p1 (or_intror (or_introl eq_refl))).
        rewrite E1 in H. discriminate.
    + apply int_of_str_raises in E0 as E0'. subst e.
      split; [discriminate|]. intros [_ H].
      specialize (H p0 (or_introl eq_refl)). rewrite E0 in H. discriminate.
  - split; [|intros [H _]; lia].
    destruct (PyNum.int_of_str p0) as [h|e] eqn:E0; cbn [bind];
      [|apply int_of_str_raises in E0; subst e; discriminate].
    destruct (PyNum.int_of_str p1) as [m|e] eqn:E1; cbn [bind];
      [|apply int_of_str_raises in E1; subst e; discriminate].
    destruct (PyNum.float_of_str p2) as [x|e] eqn:E2; cbn [bind];
      [|apply float_of_str_raises in E2; subst e; discriminate].
    unfold PyNum.float_of_int.
    destruct (F64.of_Z (h * 3600 + m * 60)); cbn [bind]; discriminate.
Qed.

Lemma short_timestamp_errors_witness :
  SrtToJsx.parse_srt_time (Py.lit "01:30") = Raise IndexError.
Proof.
  apply (proj2 (proj1 (short_timestamp_errors (Py.lit "01:30")))).
  split; [cbn; lia|]. intros p [<-|[<-|[]]]; reflexivity.
Defined.
